(** * vzdump-hook-script.py: a shallow embedding and its properties

    The hook script is sequential glue around a monitoring service: it
    resolves its configuration, builds slugs and tags, and issues HTTP
    requests according to the backup phase.  Python [str] values are
    modelled as [string]; a character stands for one code point below 256.
    Files hold bytes, and reading one in text mode goes through the host's
    decoder.  Effects are threaded through a state monad over a [world]
    (files, environment, output streams, requests sent); what the host
    answers (commands, HTTP, codecs) is a [host] record of oracles. *)

From Stdlib Require Import ZArith Ascii String Bool DecimalString.
From stdpp Require Import base gmap strings list.

Local Open Scope string_scope.
Local Open Scope Z_scope.

(** ** Python string primitives *)

Module Py.

Definition nonempty (s : string) : bool :=
  match s with EmptyString => false | String _ _ => true end.

Fixpoint forallb (p : ascii -> bool) (s : string) : bool :=
  match s with
  | EmptyString => true
  | String c s' => p c && forallb p s'
  end.

Fixpoint map (f : ascii -> ascii) (s : string) : string :=
  match s with
  | EmptyString => EmptyString
  | String c s' => String (f c) (map f s')
  end.

Definition code (c : ascii) : N := N_of_ascii c.

Definition between (lo hi : N) (c : ascii) : bool :=
  ((lo <=? code c) && (code c <=? hi))%N.

(** [str.replace(old, new)] for a non-empty [old]: occurrences are found
    from the left and do not overlap.  [skip] counts the characters of a
    match that are still to be dropped. *)
Fixpoint replace_from (old new : string) (skip : nat) (s : string) : string :=
  match s with
  | EmptyString => EmptyString
  | String c s' =>
      match skip with
      | S k => replace_from old new k s'
      | O =>
          if String.prefix old s
          then new ++ replace_from old new (Nat.pred (String.length old)) s'
          else String c (replace_from old new O s')
      end
  end.

(** With an empty [old] Python puts [new] before every character and at
    the end. *)
Fixpoint interleave (new : string) (s : string) : string :=
  match s with
  | EmptyString => new
  | String c s' => new ++ String c (interleave new s')
  end.

Definition replace (old new s : string) : string :=
  if nonempty old then replace_from old new O s else interleave new s.

(** [str.isspace] on the code points below 256. *)
Definition is_space (c : ascii) : bool :=
  between 9 13 c || between 28 32 c
  || (code c =? 133)%N || (code c =? 160)%N.

Fixpoint lstrip (p : ascii -> bool) (s : string) : string :=
  match s with
  | EmptyString => EmptyString
  | String c s' => if p c then lstrip p s' else s
  end.

Fixpoint rstrip (p : ascii -> bool) (s : string) : string :=
  match s with
  | EmptyString => EmptyString
  | String c s' =>
      let r := rstrip p s' in
      if negb (nonempty r) && p c then EmptyString else String c r
  end.

(** [s.strip()] *)
Definition strip (s : string) : string := rstrip is_space (lstrip is_space s).

Fixpoint mem (c : ascii) (chars : string) : bool :=
  match chars with
  | EmptyString => false
  | String d chars' => Ascii.eqb c d || mem c chars'
  end.

(** [s.strip(chars)] *)
Definition strip_chars (chars s : string) : string :=
  rstrip (fun c => mem c chars) (lstrip (fun c => mem c chars) s).

(** [s.split(sep, 1)] for a one-character separator that occurs in [s];
    [None] when it does not occur. *)
Fixpoint split_once (sep : ascii) (s : string) : option (string * string) :=
  match s with
  | EmptyString => None
  | String c s' =>
      if Ascii.eqb c sep then Some (EmptyString, s')
      else match split_once sep s' with
           | Some (k, v) => Some (String c k, v)
           | None => None
           end
  end.

(** The lines of a text, without their line ends. *)
Fixpoint lines_from (cur : string -> string) (s : string) : list string :=
  match s with
  | EmptyString => [cur EmptyString]
  | String c s' =>
      if Ascii.eqb c "010" then cur EmptyString :: lines_from (fun r => r) s'
      else lines_from (fun r => cur (String c r)) s'
  end.

Definition lines (s : string) : list string := lines_from (fun r => r) s.

(** [str.isdigit] on the code points below 256: the decimal digits and
    the superscripts two, three and one. *)
Definition digit_char (c : ascii) : bool :=
  between 48 57 c || (code c =? 178)%N || (code c =? 179)%N
  || (code c =? 185)%N.

Definition isdigit (s : string) : bool := nonempty s && forallb digit_char s.

(** [str.lower] on the code points below 256. *)
Definition lower_char (c : ascii) : ascii :=
  if between 65 90 c || between 192 214 c || between 216 222 c
  then ascii_of_N (code c + 32)
  else c.

Definition lower (s : string) : string := map lower_char s.

Fixpoint drop (n : nat) (s : string) : string :=
  match n, s with
  | O, _ => s
  | S _, EmptyString => EmptyString
  | S k, String _ s' => drop k s'
  end.

Fixpoint take (n : nat) (s : string) : string :=
  match n, s with
  | O, _ => EmptyString
  | S _, EmptyString => EmptyString
  | S k, String c s' => String c (take k s')
  end.

(** [s[-n:]] for [n > 0] *)
Definition last (n : nat) (s : string) : string :=
  drop (String.length s - n)%nat s.

(** [sep.join(parts)] *)
Fixpoint join (sep : string) (parts : list string) : string :=
  match parts with
  | [] => EmptyString
  | [x] => x
  | x :: rest => x ++ sep ++ join sep rest
  end.

(** [a or b] on an optional string: [None] and the empty string are
    falsy. *)
Definition or_else (a : option string) (b : string) : string :=
  match a with
  | Some s => if nonempty s then s else b
  | None => b
  end.

Definition of_Z (z : Z) : string := NilZero.string_of_int (Z.to_int z).

Definition newline : string := String "010" EmptyString.

(** The double quote, which a literal cannot hold. *)
Definition dquote : string := String "034" EmptyString.

End Py.

(** ** Slug Builder (source lines 246-260) *)

(** The class [[a-zA-Z0-9_-]] of the regular expression. *)
Definition slug_char (c : ascii) : bool :=
  Py.between 97 122 c || Py.between 65 90 c || Py.between 48 57 c
  || Ascii.eqb c "_" || Ascii.eqb c "-".

(** [re.sub(r"[^a-zA-Z0-9_-]", "_", text)]: the pattern matches one
    character at a time, so the substitution is a map. *)
Definition re_sub_non_slug (text : string) : string :=
  Py.map (fun c => if slug_char c then c else "_"%char) text.

Definition slugify (text suffix : string) : string :=
  let text := if Py.nonempty suffix then text ++ " " ++ suffix else text in
  let text := Py.replace " " "__" text in
  let text := Py.replace "." "-" text in
  re_sub_non_slug text.

(** ** The host and the world *)

(** An entry of the file system. *)
Inductive node :=
| Directory
| Regular (readable writable : bool) (data : string).

(** Python exceptions, by the classes the handlers of the script tell
    apart; [exn_msg] is [str(e)]. *)
Inductive exn_class := RequestException | CalledProcessError | OtherException.

Record exn := Exn { exn_kind : exn_class; exn_msg : string }.

(** A decoded JSON document; an object keeps its members in document
    order. *)
#[local] Unset Elimination Schemes.
Inductive json :=
| JNull
| JBool (b : bool)
| JNum (n : Z)
| JStr (s : string)
| JArr (items : list json)
| JObj (members : list (string * json)).
#[local] Set Elimination Schemes.

(** The payload of a check upsert (source lines 367-377). *)
Record check_payload := CheckPayload {
  p_name : string;
  p_slug : string;
  p_channels : string;
  p_timeout : Z;
  p_tz : string;
  p_grace : Z;
  p_desc : string;
  p_tags : string;
  p_unique : list string
}.

Inductive http_request :=
| HttpGet (url api_key : string)
| HttpPostJson (url api_key : string) (payload : check_payload)
| HttpPostData (url data : string).

(** What [requests] answers: an exception raised by the call itself, or a
    response with the error [raise_for_status] would raise (if any), the
    final URL and the body as [response.json()] reads it ([inl] is the
    error of an invalid document, a [RequestException] as well). *)
Inductive http_reply :=
| ReplyRaises (e : exn)
| Reply (status_error : option string) (final_url : string)
        (body : string + json).

Record completed := Completed {
  returncode : Z;
  proc_stdout : string;
  proc_stderr : string
}.

Record host := Host {
  (** text-mode reading of bytes, [None] when they do not decode *)
  text_decode : string -> option string;
  (** text-mode writing *)
  text_encode : string -> string;
  http : http_request -> http_reply;
  (** [subprocess.run(cmd, shell=True, capture_output=True, text=True)] *)
  shell : string -> exn + completed;
  (** [shutil.which(cmd)] finds the command *)
  which : string -> bool;
  (** [subprocess.run(argv, check=True)]: the captured output, or the
      exception, a [CalledProcessError] on a non-zero exit status *)
  run : list string -> exn + string;
  (** a file can be created at this path *)
  creatable : string -> bool
}.

Record world := World {
  files : gmap string node;
  environ : gmap string string;
  stdout : list string;
  stderr : list string;
  sent : list http_request
}.

Definition set_files (f : gmap string node) (w : world) : world :=
  World f (environ w) (stdout w) (stderr w) (sent w).
Definition set_environ (e : gmap string string) (w : world) : world :=
  World (files w) e (stdout w) (stderr w) (sent w).
Definition add_stdout (line : string) (w : world) : world :=
  World (files w) (environ w) (stdout w ++ [line]) (stderr w) (sent w).
Definition add_stderr (line : string) (w : world) : world :=
  World (files w) (environ w) (stdout w) (stderr w ++ [line]) (sent w).
Definition add_sent (r : http_request) (w : world) : world :=
  World (files w) (environ w) (stdout w) (stderr w) (sent w ++ [r]).

(** ** The monad of the script: state, [sys.exit] and exceptions *)

Inductive outcome (A : Type) :=
| Return (a : A)
| Exit (code : Z)
| Raise (e : exn).

Arguments Return {A} a.
Arguments Exit {A} code.
Arguments Raise {A} e.

Definition M (A : Type) : Type := world -> world * outcome A.

Definition ret {A} (a : A) : M A := fun w => (w, Return a).

Definition bind {A B} (c : M A) (k : A -> M B) : M B :=
  fun w =>
    match c w with
    | (w', Return a) => k a w'
    | (w', Exit code) => (w', Exit code)
    | (w', Raise e) => (w', Raise e)
    end.

Notation "'let*' x ':=' c 'in' k" := (bind c (fun x => k))
  (at level 10, x name, c at level 200, k at level 200, only parsing).
Notation "c ';;' k" := (bind c (fun _ => k))
  (at level 100, k at level 200, right associativity, only parsing).

Definition raise {A} (e : exn) : M A := fun w => (w, Raise e).
Definition sys_exit {A} (code : Z) : M A := fun w => (w, Exit code).
Definition gets {A} (f : world -> A) : M A := fun w => (w, Return (f w)).
Definition modify (f : world -> world) : M unit := fun w => (f w, Return tt).

(** [if cond: body] for a body run for its effect. *)
Definition when (cond : bool) (body : M unit) : M unit :=
  if cond then body else ret tt.

(** [try: body except <classes>: handler]; [sys.exit] is no [Exception]
    and passes through. *)
Definition try_except {A} (body : M A) (catches : exn_class -> bool)
    (handler : exn -> M A) : M A :=
  fun w =>
    match body w with
    | (w', Raise e) =>
        if catches (exn_kind e) then handler e w' else (w', Raise e)
    | r => r
    end.

Definition any_exception (_ : exn_class) : bool := true.
Definition request_exception (k : exn_class) : bool :=
  match k with RequestException => true | _ => false end.
Definition called_process_error (k : exn_class) : bool :=
  match k with CalledProcessError => true | _ => false end.

(** *** Primitive effects *)

Definition print (line : string) : M unit := modify (add_stdout line).
Definition print_err (line : string) : M unit := modify (add_stderr line).

(** [os.environ.get(key, default)] *)
Definition environ_get (key dflt : string) : M string :=
  gets (fun w => default dflt (environ w !! key)).

(** [os.environ[key] = value]: refused for an empty name and for a NUL in
    the name or the value (a name from [split('=', 1)] holds no [=]). *)
Definition putenv_ok (key value : string) : bool :=
  Py.nonempty key && negb (Py.mem "000" key) && negb (Py.mem "000" value).

Definition environ_set (key value : string) : M unit :=
  if putenv_ok key value
  then modify (fun w => set_environ (<[key := value]> (environ w)) w)
  else raise (Exn OtherException "illegal environment variable").

Section Effects.
Context (h : host).

(** [with open(path, "r") as f: f.read()] *)
Definition read_text (path : string) : M string :=
  fun w =>
    match files w !! path with
    | Some (Regular true _ data) =>
        match text_decode h data with
        | Some text => (w, Return text)
        | None => (w, Raise (Exn OtherException "UnicodeDecodeError"))
        end
    | Some (Regular false _ _) => (w, Raise (Exn OtherException "PermissionError"))
    | Some Directory => (w, Raise (Exn OtherException "IsADirectoryError"))
    | None => (w, Raise (Exn OtherException "FileNotFoundError"))
    end.

(** [with open(path, "a") as f: f.write(text)] *)
Definition append_text (path text : string) : M unit :=
  fun w =>
    match files w !! path with
    | Some (Regular r true data) =>
        (set_files (<[path := Regular r true (data ++ text_encode h text)]> (files w)) w,
         Return tt)
    | Some (Regular _ false _) => (w, Raise (Exn OtherException "PermissionError"))
    | Some Directory => (w, Raise (Exn OtherException "IsADirectoryError"))
    | None =>
        if creatable h path
        then (set_files (<[path := Regular true true (text_encode h text)]> (files w)) w,
              Return tt)
        else (w, Raise (Exn OtherException "FileNotFoundError"))
    end.

(** The tail read of [hc_ping] (source lines 435-440): seek to the end,
    take the position as the size, seek to [max(0, size - 100000)] and
    read to the end. *)
Definition read_tail (path : string) : M string :=
  fun w =>
    match files w !! path with
    | Some (Regular true _ data) =>
        let size := Z.of_nat (String.length data) in
        let offset := Z.max 0 (size - 100000) in
        match text_decode h (Py.drop (Z.to_nat offset) data) with
        | Some text => (w, Return text)
        | None => (w, Raise (Exn OtherException "UnicodeDecodeError"))
        end
    | Some (Regular false _ _) => (w, Raise (Exn OtherException "PermissionError"))
    | Some Directory => (w, Raise (Exn OtherException "IsADirectoryError"))
    | None => (w, Raise (Exn OtherException "FileNotFoundError"))
    end.

(** [requests.get] / [requests.post]: the request goes out, then the
    answer is a response or an exception. *)
Definition request (r : http_request) : M http_reply :=
  fun w => (add_sent r w, Return (http h r)).

(** [response.raise_for_status()] on the answer of [request] *)
Definition raise_for_status (reply : http_reply) : M (string * (string + json)) :=
  match reply with
  | ReplyRaises e => raise e
  | Reply (Some msg) _ _ => raise (Exn RequestException msg)
  | Reply None url body => ret (url, body)
  end.

(** [response.json()] *)
Definition response_json (body : string + json) : M json :=
  match body with
  | inl msg => raise (Exn RequestException msg)
  | inr j => ret j
  end.

(** [subprocess.run(cmd, shell=True, capture_output=True, text=True)] *)
Definition run_shell (cmd : string) : M completed :=
  match shell h cmd with
  | inl e => raise e
  | inr c => ret c
  end.

(** The same with [check=True]. *)
Definition run_shell_checked (cmd : string) : M completed :=
  let* c := run_shell cmd in
  if returncode c =? 0 then ret c
  else raise (Exn CalledProcessError "non-zero exit status").

(** [subprocess.run(argv, ..., check=True)] *)
Definition run_argv (argv : list string) : M string :=
  match run h argv with
  | inl e => raise e
  | inr out => ret out
  end.

End Effects.

(** [Path.exists], [Path.is_file], [os.access(path, os.R_OK)], [Path.unlink] *)
Definition path_exists (path : string) : M bool :=
  gets (fun w => bool_decide (is_Some (files w !! path))).

Definition path_is_file (path : string) : M bool :=
  gets (fun w => match files w !! path with
                 | Some (Regular _ _ _) => true
                 | _ => false
                 end).

Definition access_read (path : string) : M bool :=
  gets (fun w => match files w !! path with
                 | Some (Regular r _ _) => r
                 | Some Directory => true
                 | None => false
                 end).

Definition unlink (path : string) : M unit :=
  fun w =>
    match files w !! path with
    | Some (Regular _ _ _) => (set_files (delete path (files w)) w, Return tt)
    | Some Directory => (w, Raise (Exn OtherException "IsADirectoryError"))
    | None => (w, Raise (Exn OtherException "FileNotFoundError"))
    end.

(** [Path(filepath).name]: what follows the last slash. *)
Fixpoint path_name (path : string) : string :=
  match path with
  | EmptyString => EmptyString
  | String c rest =>
      if Py.mem "/" rest then path_name rest
      else if Ascii.eqb c "/" then rest else path
  end.

(** ** Configuration (source lines 48-122) *)

Definition DEFAULT_HC_BASE_DOMAIN := "https://healthchecks.cmbc.be".
Definition DEFAULT_HC_PING_DOMAIN := "https://healthchecks.cmbc.be/ping".
Definition DEFAULT_HC_RW_API_KEY := "eJy4I0V41OJ7jM1tQy5gjtBgyJ9mz1Kd".
Definition DEFAULT_HC_PING_KEY := "oiB2qNQV2uGsYSxQAo3rxA".
Definition DEFAULT_ERROR_CODE : Z := 666.
Definition ENV_FILE := "/etc/pve/healthchecks/variables.env".

(** The body of the loop over the lines of an environment file. *)
Definition load_env_line (line : string) : M unit :=
  let line := Py.strip line in
  if negb (Py.nonempty line) || String.prefix "#" line then ret tt
  else
    match Py.split_once "=" line with
    | Some (key, value) =>
        let value := Py.strip_chars ("'" ++ Py.dquote) value in
        environ_set key value
    | None => ret tt
    end.

Fixpoint load_env_lines (lines : list string) : M unit :=
  match lines with
  | [] => ret tt
  | line :: rest => load_env_line line ;; load_env_lines rest
  end.

Definition load_env_file (h : host) (file_path : string) : M bool :=
  let* found := path_exists file_path in
  if found
  then
    try_except
      (let* text := read_text h file_path in
       load_env_lines (Py.lines text) ;;
       ret true)
      any_exception
      (fun e =>
         print_err ("Error loading environment file " ++ file_path
                    ++ ": " ++ exn_msg e) ;;
         ret false)
  else ret false.

(** What [argparse] hands back (source lines 89-110): the positional
    arguments default to the empty string, an option that was not given
    is [None], [--env-file] defaults to [ENV_FILE]. *)
Record cli_args := CliArgs {
  arg_phase : string;
  arg_mode : string;
  arg_vmid : string;
  arg_hc_domain : option string;
  arg_hc_ping_domain : option string;
  arg_hc_rw_key : option string;
  arg_hc_ping_key : option string;
  arg_env_file : string
}.

Record config := Config {
  cfg_base_domain : string;
  cfg_ping_domain : string;
  cfg_rw_api_key : string;
  cfg_ping_key : string
}.

(** Source lines 80-122, in the order the module runs them: the default
    file is loaded, the four values are read from the environment, the
    file of [--env-file] is loaded, the command line overrides. *)
Definition resolve_config (h : host) (args : cli_args) : M config :=
  load_env_file h ENV_FILE ;;
  let* base_domain := environ_get "HC_BASE_DOMAIN" DEFAULT_HC_BASE_DOMAIN in
  let* ping_domain := environ_get "HC_PING_DOMAIN" DEFAULT_HC_PING_DOMAIN in
  let* rw_api_key := environ_get "HC_RW_API_KEY" DEFAULT_HC_RW_API_KEY in
  let* ping_key := environ_get "HC_PING_KEY" DEFAULT_HC_PING_KEY in
  (if Py.nonempty (arg_env_file args)
      && negb (String.eqb (arg_env_file args) ENV_FILE)
   then load_env_file h (arg_env_file args)
   else ret false) ;;
  ret {| cfg_base_domain := Py.or_else (arg_hc_domain args) base_domain;
         cfg_ping_domain := Py.or_else (arg_hc_ping_domain args) ping_domain;
         cfg_rw_api_key := Py.or_else (arg_hc_rw_key args) rw_api_key;
         cfg_ping_key := Py.or_else (arg_hc_ping_key args) ping_key |}.

(** ** Module-level values and logging (source lines 124-243) *)

(** The values the module binds before [main] runs. *)
Record globals := Globals {
  HC_BASE_DOMAIN : string;
  HC_PING_DOMAIN : string;
  HC_RW_API_KEY : string;
  HC_PING_KEY : string;
  TASK_ID : string;
  ERRLOG : string;
  CLUSTER : string;
  NODE : string;
  HC_SLUG_SUFFIX : string;
  PHASE : string;
  MODE : string;
  VMID : string;
  VMTYPE : string;
  STORAGE : string;
  LOGFILE : string
}.

Definition HC_HOST_SLUG_PREFIX := "job".

(** Source line 232. *)
Definition HC_VM_SLUG_PREFIX (g : globals) : string :=
  VMID g ++ "-" ++ VMTYPE g.

(** The message of [error] (source lines 145-147). *)
Definition error_message (task msg : string) (exit_code : Z) : string :=
  let error_msg :=
    "FATAL: '" ++ task ++ "' failed with exit code " ++ Py.of_Z exit_code ++ "." in
  if Py.nonempty msg then error_msg ++ Py.newline ++ "CONTEXT: " ++ msg
  else error_msg.

(** [error(task, msg)] with the pending error log at [errlog]; no call of
    the script passes an exit code, so it is [DEFAULT_ERROR_CODE]. *)
Definition error {A} (h : host) (errlog : string) (task msg : string) : M A :=
  let exit_code := DEFAULT_ERROR_CODE in
  let error_msg := error_message task msg exit_code in
  print_err error_msg ;;
  append_text h errlog (error_msg ++ Py.newline) ;;
  sys_exit exit_code.

(** The message of [warn] (source lines 157-159). *)
Definition warn_message (task msg : string) : string :=
  let warn_msg := "WARNING: '" ++ task ++ "' issue." in
  if Py.nonempty msg then warn_msg ++ Py.newline ++ "CONTEXT: " ++ msg
  else warn_msg.

Definition warn (h : host) (errlog : string) (task msg : string) : M unit :=
  let warn_msg := warn_message task msg in
  print_err warn_msg ;;
  append_text h errlog (warn_msg ++ Py.newline).

(** [info(msg)] called from line [lineno] of [caller]. *)
Definition info (caller lineno msg : string) : M unit :=
  print ("MESG: '" ++ caller ++ ":" ++ lineno ++ "' " ++ msg).

Definition get_domain (h : host) : M string :=
  try_except
    (let* result := run_shell h "hostname --domain" in
     ret (Py.strip (proc_stdout result)))
    any_exception
    (fun _ => ret "local").

(** What the lookups of lines 125-207 returned: the command line as the
    HOOK banner prints it, the task identifier and its error log in the
    temporary directory, the cluster and the node. *)
Record host_identity := HostIdentity {
  id_argv : list string;
  id_task_id : string;
  id_errlog : string;
  id_cluster : string;
  id_node : string
}.

(** The module body up to [main]: configuration, banner, slug suffix,
    the phase check of lines 223-225, and the values of lines 227-243. *)
Definition module_init (h : host) (args : cli_args) (id : host_identity)
  : M globals :=
  let* cfg := resolve_config h args in
  print ("HOOK: " ++ Py.join " " (id_argv id) ++ " -- " ++ id_task_id id) ;;
  let* domain := get_domain h in
  let suffix :=
    Py.lower (id_node id) ++ "." ++ Py.lower (id_cluster id) ++ "."
    ++ Py.lower domain in
  let phase := arg_phase args in
  when (negb (Py.nonempty phase))
       (error h (id_errlog id) "Arguments" "Phase not provided") ;;
  let mode := arg_mode args in
  let vmid := arg_vmid args in
  let* vmtype := environ_get "VMTYPE" "unknown" in
  let* storeid := environ_get "STOREID" "" in
  let* storage := environ_get "DUMPDIR" storeid in
  let fallback := "/var/log/vzdump/" ++ Py.lower vmtype ++ "-" ++ vmid ++ ".log" in
  let* logfile := environ_get "LOGFILE" fallback in
  ret {| HC_BASE_DOMAIN := cfg_base_domain cfg;
         HC_PING_DOMAIN := cfg_ping_domain cfg;
         HC_RW_API_KEY := cfg_rw_api_key cfg;
         HC_PING_KEY := cfg_ping_key cfg;
         TASK_ID := id_task_id id;
         ERRLOG := id_errlog id;
         CLUSTER := id_cluster id;
         NODE := id_node id;
         HC_SLUG_SUFFIX := suffix;
         PHASE := phase;
         MODE := mode;
         VMID := vmid;
         VMTYPE := vmtype;
         STORAGE := storage;
         LOGFILE := logfile |}.

(** ** Monitoring Client (source lines 262-451) *)

(** [d[key]] on a decoded document: the last member of that name, as
    [json.loads] keeps it. *)
Definition json_member (key : string) (members : list (string * json))
  : option json :=
  fold_left (fun acc kv => if String.eqb (fst kv) key then Some (snd kv) else acc)
            members None.

Definition subscript_key (data : json) (key : string) : M json :=
  match data with
  | JObj members =>
      match json_member key members with
      | Some v => ret v
      | None => raise (Exn OtherException ("'" ++ key ++ "'"))
      end
  | _ => raise (Exn OtherException "TypeError")
  end.

Definition subscript_zero (data : json) : M json :=
  match data with
  | JArr (x :: _) => ret x
  | JArr [] => raise (Exn OtherException "list index out of range")
  | JStr (String c _) => ret (JStr (String c EmptyString))
  | JStr EmptyString => raise (Exn OtherException "string index out of range")
  | JObj _ => raise (Exn OtherException "0")
  | _ => raise (Exn OtherException "TypeError")
  end.

(** [ping_url.replace("ping", "checks") + "/details"] (source line 276) *)
Definition dashboard_of_ping_url (ping_url : string) : string :=
  Py.replace "ping" "checks" ping_url ++ "/details".

Definition get_dashboard_url (h : host) (g : globals)
    (slug apikey base_url : string) : M string :=
  let slug := slugify slug (HC_SLUG_SUFFIX g) in
  let url := base_url ++ "/api/v3/checks/?slug=" ++ slug in
  try_except
    (let* reply := request h (HttpGet url apikey) in
     let* response := raise_for_status reply in
     let* data := response_json (snd response) in
     let* checks := subscript_key data "checks" in
     let* check := subscript_zero checks in
     let* ping_url := subscript_key check "ping_url" in
     match ping_url with
     | JStr ping_url => ret (dashboard_of_ping_url ping_url)
     | _ => raise (Exn OtherException "AttributeError")
     end)
    any_exception
    (fun e => error h (ERRLOG g) "Get Dashboard URL" (exn_msg e)).

Definition add_tag (h : host) (g : globals) (key value : string)
  : M (option string) :=
  if negb (Py.nonempty key)
  then error h (ERRLOG g) "Key Validation" "Empty key"
  else if negb (Py.nonempty value)
  then ret None
  else if Py.nonempty (Py.strip value)
  then ret (Some (" " ++ key ++ "=" ++ Py.replace " " "_" value))
  else ret None.

Definition add_tag_from_file (h : host) (g : globals) (filepath key : string)
  : M (option string) :=
  let* found := path_exists filepath in
  when (negb found)
       (error h (ERRLOG g) "Check file exists" ("File " ++ filepath ++ " not found")) ;;
  let* regular := path_is_file filepath in
  when (negb regular)
       (error h (ERRLOG g) "Check file type" (filepath ++ " is not a file")) ;;
  let* readable := access_read filepath in
  when (negb readable)
       (error h (ERRLOG g) "Check file permissions" ("Cannot read " ++ filepath)) ;;
  let key := if negb (Py.nonempty key) then path_name filepath else key in
  let* text := read_text h filepath in
  add_tag h g (Py.replace " " "_" key) (Py.strip text).

(** [add_tag_from_cmd(key, cmd, *rest)] *)
Definition add_tag_from_cmd (h : host) (g : globals) (key cmd : string)
    (rest : list string) : M (option string) :=
  if negb (which h cmd)
  then error h (ERRLOG g) "Validating command" ("Command " ++ cmd ++ " not found")
  else
    try_except
      (let* out := run_argv h (cmd :: rest) in
       add_tag h g (Py.replace " " "_" key) (Py.strip out))
      called_process_error
      (fun e => error h (ERRLOG g) "Tag Command Execution" (exn_msg e)).

Definition hc_create (h : host) (g : globals)
    (name slug_prefix : string) (grace : Z) (description tags channels : string)
    (timeout : Z) (apikey url : string) : M unit :=
  when (negb (Py.nonempty name))
       (error h (ERRLOG g) "HC Create" "Name parameter is required") ;;
  when (negb (Py.nonempty slug_prefix))
       (error h (ERRLOG g) "HC Create" "Slug prefix parameter is required") ;;
  when (negb (Py.nonempty apikey))
       (error h (ERRLOG g) "HC Create" "API key is required") ;;
  let slug := slugify slug_prefix (HC_SLUG_SUFFIX g) in
  let* timezone :=
    try_except
      (let* tz_result :=
         run_shell_checked h "timedatectl show --property Timezone | cut -d '=' -f2" in
       ret (Py.strip (proc_stdout tz_result)))
      any_exception
      (fun _ => ret "UTC") in
  let tags := Py.lower (Py.strip tags) in
  let payload :=
    {| p_name := name; p_slug := slug; p_channels := channels;
       p_timeout := timeout; p_tz := timezone; p_grace := grace;
       p_desc := description; p_tags := tags; p_unique := ["name"] |} in
  info "hc_create" "380" ("Creating/Updating check " ++ slug) ;;
  let api_url := url ++ "/api/v3/checks/" in
  try_except
    (let* reply := request h (HttpPostJson api_url apikey payload) in
     let* response := raise_for_status reply in
     response_json (snd response) ;;
     ret tt)
    request_exception
    (fun e => error h (ERRLOG g) "Healthcheck Creation" (exn_msg e)).

Definition valid_reports : list string := [""; "start"; "fail"; "log"].

(** The URL of a ping (source lines 413-418). *)
Definition ping_endpoint (g : globals) (slug_prefix report pingkey url : string)
  : string :=
  let slug := slugify slug_prefix (HC_SLUG_SUFFIX g) in
  let ping_url := url ++ "/" ++ pingkey ++ "/" ++ slug in
  if Py.nonempty report then ping_url ++ "/" ++ report else ping_url.

(** The body of a ping (source lines 422-442): the tail of [file] when
    one is given, [data] otherwise. *)
Definition hc_ping_body (h : host) (g : globals) (file data : string)
  : M string :=
  if Py.nonempty file
  then
    let* found := path_exists file in
    when (negb found)
         (error h (ERRLOG g) "Check file exists" ("File " ++ file ++ " not found")) ;;
    let* regular := path_is_file file in
    when (negb regular)
         (error h (ERRLOG g) "Check file type" (file ++ " is not a file")) ;;
    let* readable := access_read file in
    when (negb readable)
         (error h (ERRLOG g) "Check file permissions" ("Cannot read " ++ file)) ;;
    try_except
      (read_tail h file)
      any_exception
      (fun e => error h (ERRLOG g) "Read Log File" (exn_msg e))
  else ret data.

(** The request of a ping (source lines 444-450); the call returns
    [response.url]. *)
Definition hc_ping_post (h : host) (g : globals) (ping_url report data : string)
  : M string :=
  try_except
    (let* reply := request h (HttpPostData ping_url data) in
     let* response := raise_for_status reply in
     ret (fst response))
    request_exception
    (fun e =>
       error h (ERRLOG g)
         ("Healthcheck Ping w/Data ("
          ++ (if Py.nonempty report then report else "success") ++ ")")
         (exn_msg e)).

Definition hc_ping (h : host) (g : globals)
    (slug_prefix report file data pingkey url : string) : M string :=
  when (negb (Py.nonempty slug_prefix))
       (error h (ERRLOG g) "HC Ping" "Slug prefix parameter is required") ;;
  when (negb (Py.nonempty pingkey))
       (error h (ERRLOG g) "HC Ping" "Ping key is required") ;;
  when (Py.nonempty report
        && negb (existsb (String.eqb report) valid_reports)
        && negb (Py.isdigit report))
       (error h (ERRLOG g) "HC Ping"
          ("Report status must be blank, start, fail, log, or a positive number. Got - '"
           ++ report ++ "'")) ;;
  when (Py.nonempty file && Py.nonempty data)
       (error h (ERRLOG g) "HC Ping" "File and Data arguments are mutually exclusive") ;;
  let ping_url := ping_endpoint g slug_prefix report pingkey url in
  info "hc_ping" "420" ("PING ENDPOINT: " ++ ping_url) ;;
  let* data := hc_ping_body h g file data in
  hc_ping_post h g ping_url report data.

Definition check_jq_installed (h : host) (g : globals) : M unit :=
  if negb (which h "jq")
  then
    info "check_jq_installed" "456" "JQ could not be found, installing" ;;
    if which h "apt"
    then
      try_except
        (run_argv h ["apt"; "install"; "-y"; "jq"] ;; ret tt)
        called_process_error
        (fun _ => error h (ERRLOG g) "Installing jq" "apt install failed")
    else if which h "dnf"
    then
      try_except
        (run_argv h ["dnf"; "install"; "-y"; "jq"] ;; ret tt)
        called_process_error
        (fun _ => error h (ERRLOG g) "Installing jq" "dnf install failed")
    else error h (ERRLOG g) "Installing jq" "Unknown package manager"
  else ret tt.

(** ** Phase Dispatcher (source lines 473-661) *)

(** [for tag_data in [...]: if tag_data: tags += tag_data] *)
Definition collect_tags (tag_data : list (option string)) : string :=
  fold_left
    (fun tags t =>
       match t with
       | Some s => if Py.nonempty s then tags ++ s else tags
       | None => tags
       end)
    tag_data EmptyString.

(** A call [hc_ping(slug_prefix, report, data=data)] of [main]: no file,
    and the ping key and ping URL of the configuration as defaults. *)
Definition hc_ping_data (h : host) (g : globals)
    (slug_prefix report data : string) : M string :=
  hc_ping h g slug_prefix report "" data (HC_PING_KEY g) (HC_PING_DOMAIN g).

(** The first lines of a guest or node configuration that start with a
    hash, as the shell pipeline prints them; any exception gives [dflt]. *)
Definition read_description (h : host) (cmd : string) (dflt : string)
  : M string :=
  try_except
    (let* result := run_shell h cmd in
     ret (Py.strip (proc_stdout result)))
    any_exception
    (fun _ => ret dflt).

Definition phase_job_init (h : host) (g : globals) : M unit :=
  let* t_cluster := add_tag h g "cluster" (CLUSTER g) in
  let* hostname := environ_get "HOSTNAME" "" in
  let* t_node := add_tag h g "node" hostname in
  let* t_storage := add_tag h g "storage" (STORAGE g) in
  let* t_machine := add_tag_from_file h g "/etc/machine-id" "" in
  let* t_arch := add_tag_from_cmd h g "arch" "uname" ["--machine"] in
  let* t_kernel := add_tag_from_cmd h g "kernel" "uname" ["--kernel-release"] in
  let tags :=
    collect_tags [t_cluster; t_node; t_storage; t_machine; t_arch; t_kernel] in
  let* node_description :=
    read_description h "grep '^#' /etc/pve/local/config | sed 's/^#//'" "" in
  let* hostname := environ_get "HOSTNAME" "unknown" in
  info "main" "506" (PHASE g ++ " -- Create " ++ hostname ++ " Endpoint") ;;
  hc_create h g (HC_SLUG_SUFFIX g) HC_HOST_SLUG_PREFIX 7200 node_description
            tags "*" 86400 (HC_RW_API_KEY g) (HC_BASE_DOMAIN g).

Definition phase_backup_start (h : host) (g : globals) : M unit :=
  let* t_cluster := add_tag h g "cluster" (CLUSTER g) in
  let* t_node := add_tag_from_cmd h g "node" "hostname" [] in
  let* t_storage := add_tag h g "storage" (STORAGE g) in
  let* t_mode := add_tag h g "mode" (MODE g) in
  let* t_vmid := add_tag h g "vmid" (VMID g) in
  let* hostname := environ_get "HOSTNAME" "" in
  let* t_hostname := add_tag h g "hostname" hostname in
  let* hosttype := environ_get "HOSTTYPE" "" in
  let* t_type := add_tag h g "type" hosttype in
  let* t_vmtype := add_tag h g "vmtype" (VMTYPE g) in
  let tags :=
    collect_tags [t_cluster; t_node; t_storage; t_mode; t_vmid; t_hostname;
                  t_type; t_vmtype] in
  let* description :=
    if String.eqb (VMTYPE g) "qemu"
    then read_description h
           ("grep '^#' /etc/pve/local/qemu-server/" ++ VMID g
            ++ ".conf | sed 's/^#//'") ""
    else if String.eqb (VMTYPE g) "lxc"
    then read_description h
           ("grep '^#' /etc/pve/local/lxc/" ++ VMID g
            ++ ".conf | sed 's/^#//'") ""
    else ret "" in
  let* hostname := environ_get "HOSTNAME" "unknown" in
  info "main" "556" (PHASE g ++ " -- Create " ++ hostname ++ " Endpoint") ;;
  let* domain_result := run_shell h "hostname --domain" in
  let domain := Py.strip (proc_stdout domain_result) in
  let* hostname := environ_get "HOSTNAME" "unknown" in
  hc_create h g
    (NODE g ++ "." ++ domain ++ "." ++ VMTYPE g ++ "." ++ VMID g ++ "." ++ hostname)
    (HC_VM_SLUG_PREFIX g) 3600 description tags "*" 86400
    (HC_RW_API_KEY g) (HC_BASE_DOMAIN g) ;;
  info "main" "571" (PHASE g ++ " -- Ping " ++ VMTYPE g ++ " start") ;;
  hc_ping_data h g (HC_VM_SLUG_PREFIX g) "start" "" ;;
  info "main" "574" (PHASE g ++ " -- Ping Host Log") ;;
  hc_ping_data h g HC_HOST_SLUG_PREFIX "log"
    (PHASE g ++ ": " ++ HC_VM_SLUG_PREFIX g) ;;
  ret tt.

Definition phase_guest_log (h : host) (g : globals) : M unit :=
  info "main" "579" (PHASE g ++ " -- Ping " ++ VMTYPE g ++ " Log") ;;
  hc_ping_data h g (HC_VM_SLUG_PREFIX g) "log"
    (PHASE g ++ ": " ++ HC_VM_SLUG_PREFIX g) ;;
  info "main" "582" (PHASE g ++ " -- Ping Host Log") ;;
  hc_ping_data h g HC_HOST_SLUG_PREFIX "log"
    (PHASE g ++ ": " ++ HC_VM_SLUG_PREFIX g) ;;
  ret tt.

Definition phase_backup_end (h : host) (g : globals) : M unit :=
  info "main" "588" (PHASE g ++ " -- Ping " ++ VMTYPE g ++ " Success") ;;
  hc_ping_data h g (HC_VM_SLUG_PREFIX g) ""
    (PHASE g ++ ": " ++ HC_VM_SLUG_PREFIX g) ;;
  info "main" "591" (PHASE g ++ " -- Ping Host Log") ;;
  hc_ping_data h g HC_HOST_SLUG_PREFIX "log"
    (PHASE g ++ ": " ++ HC_VM_SLUG_PREFIX g) ;;
  ret tt.

(** The line written to the error log and printed by [backup-abort]. *)
Definition abort_record (g : globals) (url : string) : string :=
  TASK_ID g ++ " - " ++ VMID g ++ " - Backup Abort - " ++ url.

Definition phase_backup_abort (h : host) (g : globals) : M unit :=
  info "main" "597" (PHASE g ++ " -- Ping " ++ VMTYPE g ++ " fail") ;;
  hc_ping_data h g (HC_VM_SLUG_PREFIX g) "fail"
    (PHASE g ++ ": " ++ HC_VM_SLUG_PREFIX g) ;;
  info "main" "600" (PHASE g ++ " -- Ping Host Log") ;;
  hc_ping_data h g HC_HOST_SLUG_PREFIX "log"
    (PHASE g ++ ": " ++ HC_VM_SLUG_PREFIX g) ;;
  let* url :=
    get_dashboard_url h g (HC_VM_SLUG_PREFIX g) (HC_RW_API_KEY g)
                      (HC_BASE_DOMAIN g) in
  append_text h (ERRLOG g) (abort_record g url ++ Py.newline) ;;
  print (abort_record g url).

Definition phase_log_end (h : host) (g : globals) : M unit :=
  info "main" "611" ("LOGFILE: " ++ LOGFILE g) ;;
  info "main" "612" (PHASE g ++ " -- Ping " ++ VMTYPE g ++ " Log") ;;
  try_except
    (let* result :=
       run_shell h ("grep -v 'MESG' " ++ LOGFILE g ++ " | grep -v 'OKhttp'") in
     let backup_log := proc_stdout result in
     hc_ping_data h g (HC_VM_SLUG_PREFIX g) "log" backup_log ;;
     ret tt)
    any_exception
    (fun e => error h (ERRLOG g) "Read Log File" (exn_msg e)).

Definition phase_job_end (h : host) (g : globals) : M unit :=
  let* pending := path_exists (ERRLOG g) in
  if pending
  then
    let* job_log := read_text h (ERRLOG g) in
    info "main" "630" (PHASE g ++ " -- Ping Host Fail") ;;
    hc_ping_data h g HC_HOST_SLUG_PREFIX "fail" job_log ;;
    unlink (ERRLOG g)
  else
    info "main" "634" (PHASE g ++ " -- Ping Host Success") ;;
    hc_ping_data h g HC_HOST_SLUG_PREFIX "" (TASK_ID g) ;;
    ret tt.

Definition phase_job_abort (h : host) (g : globals) : M unit :=
  info "main" "639" (PHASE g ++ " -- Ping Host Fail") ;;
  append_text h (ERRLOG g) (TASK_ID g ++ " - Job Abort" ++ Py.newline) ;;
  let* job_log := read_text h (ERRLOG g) in
  hc_ping_data h g HC_HOST_SLUG_PREFIX "fail" job_log ;;
  ret tt.

Definition phase_unknown (h : host) (g : globals) : M unit :=
  info "main" "650" (PHASE g ++ " -- Ping Host Fail") ;;
  hc_ping_data h g HC_HOST_SLUG_PREFIX "fail" ("UNKNOWN: " ++ PHASE g) ;;
  warn h (ERRLOG g) "Unknown Phase" (PHASE g).

(** The eleven phase names the dispatcher knows. *)
Definition known_phases : list string :=
  ["job-init"; "job-start"; "backup-start"; "pre-stop"; "pre-restart";
   "post-restart"; "backup-end"; "backup-abort"; "log-end"; "job-end";
   "job-abort"].

(** The chain of [if]/[elif] of [main] (source lines 482-652). *)
Definition dispatch (h : host) (g : globals) : M unit :=
  if String.eqb (PHASE g) "job-init" then phase_job_init h g
  else if String.eqb (PHASE g) "job-start" then
    info "main" "517" (PHASE g ++ " -- Ping Host Start") ;;
    hc_ping_data h g HC_HOST_SLUG_PREFIX "start" "" ;;
    ret tt
  else if String.eqb (PHASE g) "backup-start" then phase_backup_start h g
  else if existsb (String.eqb (PHASE g)) ["pre-stop"; "pre-restart"; "post-restart"]
  then phase_guest_log h g
  else if String.eqb (PHASE g) "backup-end" then phase_backup_end h g
  else if String.eqb (PHASE g) "backup-abort" then phase_backup_abort h g
  else if String.eqb (PHASE g) "log-end" then phase_log_end h g
  else if String.eqb (PHASE g) "job-end" then phase_job_end h g
  else if String.eqb (PHASE g) "job-abort" then phase_job_abort h g
  else phase_unknown h g.

Definition main (h : host) (g : globals) : M unit :=
  info "main" "477"
    ("Configuration: HC_BASE_DOMAIN=" ++ HC_BASE_DOMAIN g
     ++ ", HC_PING_DOMAIN=" ++ HC_PING_DOMAIN g) ;;
  info "main" "478"
    ("Using API Key=" ++ Py.take 4 (HC_RW_API_KEY g) ++ "***"
     ++ Py.last 4 (HC_RW_API_KEY g)
     ++ " and Ping Key=" ++ Py.take 4 (HC_PING_KEY g) ++ "***"
     ++ Py.last 4 (HC_PING_KEY g)) ;;
  check_jq_installed h g ;;
  dispatch h g.

(** The script from its first line to its last: the module body, the
    usage message of lines 656-660, then [main]. *)
Definition script (h : host) (args : cli_args) (id : host_identity) : M unit :=
  let* g := module_init h args id in
  match id_argv id with
  | [] =>
      print "Usage: vzdump-hook-script.py [phase] [mode] [vmid] [options]" ;;
      print "Example: vzdump-hook-script.py job-init" ;;
      print "For complete options: vzdump-hook-script.py --help" ;;
      sys_exit 1
  | _ :: _ => main h g
  end.

(** ** Vocabulary of the properties *)

(** The process did not return from the call: it left through [sys.exit]
    or an exception. *)
Definition stopped {A} (o : outcome A) : bool :=
  match o with
  | Return _ => false
  | Exit _ | Raise _ => true
  end.

(** The world after some lines were printed. *)
Definition emit (lines : list string) (w : world) : world :=
  World (files w) (environ w) (stdout w ++ lines) (stderr w) (sent w).

(** [open(path, "a")] succeeds in this world. *)
Definition appendable (h : host) (w : world) (path : string) : bool :=
  match files w !! path with
  | Some (Regular _ true _) => true
  | Some (Regular _ false _) | Some Directory => false
  | None => creatable h path
  end.

(** The file system after [text] was appended to the file at [path]. *)
Definition appended (h : host) (path text : string) (fs : gmap string node)
  : gmap string node :=
  match fs !! path with
  | Some (Regular r true data) =>
      <[path := Regular r true (data ++ text_encode h text)]> fs
  | None => <[path := Regular true true (text_encode h text)]> fs
  | _ => fs
  end.

(** What a fatal error leaves behind: the message on standard error,
    nothing printed and nothing sent, and the exit code
    [DEFAULT_ERROR_CODE] whenever the pending error log can be written. *)
Definition fatal_error {A} (h : host) (errlog task msg : string) (w : world)
    (r : world * outcome A) : Prop :=
  stopped (snd r) = true
  /\ stderr (fst r) = (stderr w ++ [error_message task msg DEFAULT_ERROR_CODE])%list
  /\ stdout (fst r) = stdout w
  /\ sent (fst r) = sent w
  /\ environ (fst r) = environ w
  /\ (appendable h w errlog = true ->
      snd r = Exit DEFAULT_ERROR_CODE
      /\ files (fst r)
         = appended h errlog
             (error_message task msg DEFAULT_ERROR_CODE ++ Py.newline) (files w)).

(** The monitoring service takes the request: no exception, no error
    status. *)
Definition accepts (h : host) (r : http_request) : bool :=
  match http h r with
  | Reply None _ _ => true
  | _ => false
  end.

(** The same, with a body that is a JSON document. *)
Definition accepts_json (h : host) (r : http_request) : bool :=
  match http h r with
  | Reply None _ (inr _) => true
  | _ => false
  end.

(** [jq] is there, or the package manager installs it. *)
Definition jq_available (h : host) : bool :=
  which h "jq"
  || (if which h "apt"
      then match run h ["apt"; "install"; "-y"; "jq"] with
           | inr _ => true
           | inl _ => false
           end
      else which h "dnf"
           && match run h ["dnf"; "install"; "-y"; "jq"] with
              | inr _ => true
              | inl _ => false
              end).

(** The argument errors of [hc_ping], in the words of the specification:
    no slug prefix, no ping key, a report that is neither empty, [start],
    [fail], [log] nor made of digits, or both body sources. *)
Definition invalid_ping_args (slug_prefix report file data pingkey : string) : bool :=
  negb (Py.nonempty slug_prefix)
  || negb (Py.nonempty pingkey)
  || (Py.nonempty report
      && negb (String.eqb report "start" || String.eqb report "fail"
               || String.eqb report "log")
      && negb (Py.isdigit report))
  || (Py.nonempty file && Py.nonempty data).

(** The bound of the tail read of [hc_ping], as a length. *)
Definition tail_limit : nat := Z.to_nat 100000.

(** The body source of a ping can be read: there is no file argument, or
    it names a readable regular file whose last 100000 bytes decode. *)
Definition body_source_ok (h : host) (w : world) (file : string) : bool :=
  negb (Py.nonempty file)
  || match files w !! file with
     | Some (Regular true _ bytes) =>
         bool_decide (is_Some (text_decode h (Py.last tail_limit bytes)))
     | _ => false
     end.

(** The pings of [main], by the check they go to. *)
Definition guest_ping (g : globals) (report data : string) : http_request :=
  HttpPostData
    (ping_endpoint g (VMID g ++ "-" ++ VMTYPE g) report (HC_PING_KEY g)
                   (HC_PING_DOMAIN g))
    data.

Definition host_ping (g : globals) (report data : string) : http_request :=
  HttpPostData
    (ping_endpoint g "job" report (HC_PING_KEY g) (HC_PING_DOMAIN g))
    data.

(** The dashboard lookup of the guest check. *)
Definition guest_lookup (g : globals) : http_request :=
  HttpGet
    (HC_BASE_DOMAIN g ++ "/api/v3/checks/?slug="
     ++ slugify (VMID g ++ "-" ++ VMTYPE g) (HC_SLUG_SUFFIX g))
    (HC_RW_API_KEY g).

(** The ping URL a lookup response carries: [data["checks"][0]["ping_url"]]
    when it is a string. *)
Definition response_ping_url (data : json) : option string :=
  match data with
  | JObj members =>
      match json_member "checks" members with
      | Some (JArr (JObj check :: _)) =>
          match json_member "ping_url" check with
          | Some (JStr url) => Some url
          | _ => None
          end
      | _ => None
      end
  | _ => None
  end.

(** ** Counting *)

(** The number of occurrences of a character. *)
Fixpoint count_char (a : ascii) (s : string) : nat :=
  match s with
  | EmptyString => O
  | String c s' => ((if Ascii.eqb c a then 1 else 0) + count_char a s')%nat
  end.

(** ** Vocabulary of the further properties *)

(** The time zone [hc_create] puts in its payload (source lines 356-361):
    the output of the command, or ["UTC"] when it raises or exits with a
    non-zero status. *)
Definition timezone_of (h : host) : string :=
  match shell h "timedatectl show --property Timezone | cut -d '=' -f2" with
  | inr c => if returncode c =? 0 then Py.strip (proc_stdout c) else "UTC"
  | inl _ => "UTC"
  end.

(** The payload [hc_create] sends (source lines 367-377). *)
Definition upsert_payload (h : host) (g : globals) (name slug_prefix : string)
    (grace : Z) (description tags channels : string) (timeout : Z)
  : check_payload :=
  {| p_name := name;
     p_slug := slugify slug_prefix (HC_SLUG_SUFFIX g);
     p_channels := channels;
     p_timeout := timeout;
     p_tz := timezone_of h;
     p_grace := grace;
     p_desc := description;
     p_tags := Py.lower (Py.strip tags);
     p_unique := ["name"] |}.

(** What a lookup gives: the ping URL of the first check, when the
    service answers without error with a document that has one. *)
Definition lookup_result (h : host) (r : http_request) : option string :=
  match http h r with
  | Reply None _ (inr data) => response_ping_url data
  | _ => None
  end.

(** The request is refused with an exception or a status that [requests]
    reports as a [RequestException]; [None] when it is not. *)
Definition request_failure (h : host) (r : http_request) : option string :=
  match http h r with
  | ReplyRaises e =>
      if request_exception (exn_kind e) then Some (exn_msg e) else None
  | Reply (Some msg) _ _ => Some msg
  | Reply None _ _ => None
  end.

(** The failure of an upsert as [hc_create] sees it: a [RequestException]
    of the call, an error status, or a body that is no JSON document. *)
Definition upsert_failure (h : host) (r : http_request) : option string :=
  match http h r with
  | ReplyRaises e =>
      if request_exception (exn_kind e) then Some (exn_msg e) else None
  | Reply (Some msg) _ _ => Some msg
  | Reply None _ (inl err) => Some err
  | Reply None _ (inr _) => None
  end.

(** The tag [add_tag] returns for a key that is not empty (source lines
    289-300): none for a value that is empty or only white space. *)
Definition tag_of (key value : string) : option string :=
  if negb (Py.nonempty value) then None
  else if Py.nonempty (Py.strip value)
       then Some (" " ++ key ++ "=" ++ Py.replace " " "_" value)
       else None.

(** The stripped output of a shell command, or [dflt] when running it
    raises (source lines 210-217, 497-502). *)
Definition shell_output_or (h : host) (cmd dflt : string) : string :=
  match shell h cmd with
  | inr c => Py.strip (proc_stdout c)
  | inl _ => dflt
  end.

(** ** Cluster lookup (source lines 171-204) *)

(** [type(v).__name__] of a decoded value. *)
Definition py_type_name (v : json) : string :=
  match v with
  | JNull => "NoneType"
  | JBool _ => "bool"
  | JNum _ => "int"
  | JStr _ => "str"
  | JArr _ => "list"
  | JObj _ => "dict"
  end.

(** [bool(v)] *)
Definition py_truthy (v : json) : bool :=
  match v with
  | JNull => false
  | JBool b => b
  | JNum n => negb (n =? 0)
  | JStr s => Py.nonempty s
  | JArr items => match items with [] => false | _ :: _ => true end
  | JObj members => match members with [] => false | _ :: _ => true end
  end.

(** The keys of a decoded object, each once, in the order of their first
    occurrence. *)
Fixpoint dict_keys (seen : list string) (members : list (string * json))
  : list string :=
  match members with
  | [] => []
  | (k, _) :: rest =>
      if existsb (String.eqb k) seen then dict_keys seen rest
      else k :: dict_keys (k :: seen) rest
  end.

Fixpoint str_items (s : string) : list json :=
  match s with
  | EmptyString => []
  | String c s' => JStr (String c EmptyString) :: str_items s'
  end.

(** What [for item in data] visits: the items of a list, the keys of an
    object, the characters of a string; other values are not iterable. *)
Definition py_iter (data : json) : exn + list json :=
  match data with
  | JArr items => inr items
  | JObj members => inr (map JStr (dict_keys [] members))
  | JStr s => inr (str_items s)
  | _ =>
      inl (Exn OtherException
             ("'" ++ py_type_name data ++ "' object is not iterable"))
  end.

(** The [AttributeError] of [item.get] on a value that is no object. *)
Definition no_get (item : json) : exn :=
  Exn OtherException ("'" ++ py_type_name item ++ "' object has no attribute 'get'").

(** [v == s] for the result [v] of [item.get(key)] and a string [s]. *)
Definition is_str (v : option json) (s : string) : bool :=
  match v with
  | Some (JStr t) => String.eqb t s
  | _ => false
  end.

(** [v == 1] for the result [v] of [item.get(key)]; [True == 1] holds in
    Python. *)
Definition is_one (v : option json) : bool :=
  match v with
  | Some (JNum n) => n =? 1
  | Some (JBool b) => b
  | _ => false
  end.

(** The first loop (source lines 182-186): the binding of [cluster] when
    the loop is left. *)
Fixpoint cluster_loop (items : list json) : exn + json :=
  match items with
  | [] => inr (JStr "standalone")
  | JObj members :: rest =>
      if is_str (json_member "type" members) "cluster"
      then inr (default (JStr "unknown-cluster") (json_member "name" members))
      else cluster_loop rest
  | item :: _ => inl (no_get item)
  end.

(** The second loop (source lines 189-193): the binding of [node] when the
    loop is left, [None] as [JNull]. *)
Fixpoint node_loop (items : list json) : exn + json :=
  match items with
  | [] => inr JNull
  | JObj members :: rest =>
      if is_str (json_member "type" members) "node"
         && is_one (json_member "local" members)
      then inr (default JNull (json_member "name" members))
      else node_loop rest
  | item :: _ => inl (no_get item)
  end.

Definition lift_exn {A} (r : exn + A) : M A :=
  match r with
  | inl e => raise e
  | inr a => ret a
  end.

(** [get_cluster_info()], with [json.loads] as [loads] and the pending
    error log at [errlog]. *)
Definition get_cluster_info (h : host) (loads : string -> exn + json)
    (errlog : string) : M (json * json) :=
  try_except
    (let* result := run_shell h "pvesh get /cluster/status --output-format json" in
     when (negb (returncode result =? 0))
          (error h errlog "Get Cluster Info"
                 ("Failed to execute pvesh: " ++ proc_stderr result)) ;;
     let* data := lift_exn (loads (proc_stdout result)) in
     let* items := lift_exn (py_iter data) in
     let* cluster := lift_exn (cluster_loop items) in
     let* items := lift_exn (py_iter data) in
     let* node := lift_exn (node_loop items) in
     let* node :=
       if negb (py_truthy node)
       then
         let* result := run_shell h "hostname" in
         ret (JStr (Py.strip (proc_stdout result)))
       else ret node in
     ret (cluster, node))
    any_exception
    (fun e =>
       error (A:=unit) h errlog "Get Cluster Info" (exn_msg e) ;;
       ret (JStr "unknown-cluster", JStr "unknown-node")).

(** The declarative reading of the two loops. *)
Definition member (key : string) (item : json) : option json :=
  match item with
  | JObj members => json_member key members
  | _ => None
  end.

Definition is_object (item : json) : bool :=
  match item with
  | JObj _ => true
  | _ => false
  end.

Definition is_cluster_item (item : json) : bool :=
  is_str (member "type" item) "cluster".

Definition is_local_node (item : json) : bool :=
  is_str (member "type" item) "node" && is_one (member "local" item).

Definition first_cluster (items : list json) : json :=
  match List.find is_cluster_item items with
  | Some item => default (JStr "unknown-cluster") (member "name" item)
  | None => JStr "standalone"
  end.

Definition first_local_node (items : list json) : json :=
  match List.find is_local_node items with
  | Some item => default JNull (member "name" item)
  | None => JNull
  end.

(** ** A sample host, used to run the model on concrete inputs *)

Module Sample.

(** One check, as the lookup of the monitoring service lists it. *)
Definition lookup_document : json :=
  JObj [("checks",
         JArr [JObj [("name", JStr "guest");
                     ("ping_url", JStr "https://hc.example.org/ping/1234")]])].

(** A host on which every command succeeds and a service that takes
    every request; text is stored as it is written. *)
Definition host0 : host :=
  {| text_decode := Some;
     text_encode := fun text => text;
     http := fun _ => Reply None "https://hc.example.org/done" (inr lookup_document);
     shell := fun _ => inr (Completed 0 "example.org" "");
     which := fun _ => true;
     run := fun _ => inr "x86_64";
     creatable := fun _ => true |}.

(** The same host with a service that cannot be reached. *)
Definition host_down : host :=
  {| text_decode := Some;
     text_encode := fun text => text;
     http := fun _ => ReplyRaises (Exn RequestException "Connection refused");
     shell := fun _ => inr (Completed 0 "example.org" "");
     which := fun _ => true;
     run := fun _ => inr "x86_64";
     creatable := fun _ => true |}.

Definition errlog0 := "/tmp/task UPID:pve1:0001.errlog".

Definition globals_for (phase : string) : globals :=
  {| HC_BASE_DOMAIN := "https://hc.example.org";
     HC_PING_DOMAIN := "https://hc.example.org/ping";
     HC_RW_API_KEY := "rw-key-0123456789";
     HC_PING_KEY := "ping-key-0123";
     TASK_ID := "task UPID:pve1:0001";
     ERRLOG := errlog0;
     CLUSTER := "prod";
     NODE := "pve1";
     HC_SLUG_SUFFIX := "pve1.prod.example.org";
     PHASE := phase;
     MODE := "snapshot";
     VMID := "101";
     VMTYPE := "qemu";
     STORAGE := "backups";
     LOGFILE := "/var/log/vzdump/qemu-101.log" |}.

Definition world_with (fs : gmap string node) (env : gmap string string)
  : world :=
  {| files := fs; environ := env; stdout := []; stderr := []; sent := [] |}.

Definition world0 : world := world_with ∅ ∅.

Fixpoint chars (n : nat) (c : ascii) : string :=
  match n with
  | O => EmptyString
  | S k => String c (chars k c)
  end.

(** A guest log of 100001 bytes: one [a], then [b]s. *)
Definition big_log : string := String "a" (chars tail_limit "b").

Definition world_big_log : world :=
  world_with {[ "/var/log/vzdump/qemu-101.log" := Regular true true big_log ]} ∅.

(** A self-hosted service whose host name holds the word [ping]. *)
Definition ping_subdomain_document : json :=
  JObj [("checks",
         JArr [JObj [("ping_url", JStr "https://ping.example.org/ping/1234")]])].

Definition host_ping_subdomain : host :=
  {| text_decode := Some;
     text_encode := fun text => text;
     http := fun _ =>
       Reply None "https://ping.example.org/api/v3/checks/"
             (inr ping_subdomain_document);
     shell := fun _ => inr (Completed 0 "example.org" "");
     which := fun _ => true;
     run := fun _ => inr "x86_64";
     creatable := fun _ => true |}.

(** An invocation with [--env-file /root/hc.env] and no other option,
    on a host without the default environment file. *)
Definition args_env_file : cli_args :=
  {| arg_phase := "job-start"; arg_mode := ""; arg_vmid := "";
     arg_hc_domain := None; arg_hc_ping_domain := None;
     arg_hc_rw_key := None; arg_hc_ping_key := None;
     arg_env_file := "/root/hc.env" |}.

Definition world_env_file : world :=
  world_with
    {[ "/root/hc.env" := Regular true true ("HC_PING_KEY=abc" ++ Py.newline) ]}
    ∅.

(** A host whose default environment file defines the ping key, and an
    invocation that gives [--hc-ping-key] as well. *)
Definition world_default_file : world :=
  world_with
    {[ ENV_FILE := Regular true true
                     ("# monitoring" ++ Py.newline
                      ++ "HC_PING_KEY='filekey'" ++ Py.newline) ]}
    ∅.

Definition args_plain : cli_args :=
  {| arg_phase := "job-start"; arg_mode := ""; arg_vmid := "";
     arg_hc_domain := None; arg_hc_ping_domain := None;
     arg_hc_rw_key := None; arg_hc_ping_key := None;
     arg_env_file := ENV_FILE |}.

Definition args_ping_key : cli_args :=
  {| arg_phase := "job-start"; arg_mode := ""; arg_vmid := "";
     arg_hc_domain := None; arg_hc_ping_domain := None;
     arg_hc_rw_key := None; arg_hc_ping_key := Some "clikey";
     arg_env_file := ENV_FILE |}.

(** A node with a machine identifier. *)
Definition world_machine_id : world :=
  world_with {[ "/etc/machine-id" := Regular true true ("4f2a9c" ++ Py.newline) ]} ∅.

(** A host without [jq] and without a package manager. *)
Definition host_bare : host :=
  {| text_decode := Some;
     text_encode := fun text => text;
     http := fun _ => Reply None "https://hc.example.org/done" (inr lookup_document);
     shell := fun _ => inr (Completed 0 "example.org" "");
     which := fun _ => false;
     run := fun _ => inr "";
     creatable := fun _ => true |}.

(** A world where an earlier phase of the task left an error log. *)
Definition world_pending : world :=
  world_with {[ errlog0 := Regular true true "X" ]} ∅.

(** An invocation without arguments, and what the lookups of the module
    body returned for it. *)
Definition args_none : cli_args :=
  {| arg_phase := ""; arg_mode := ""; arg_vmid := "";
     arg_hc_domain := None; arg_hc_ping_domain := None;
     arg_hc_rw_key := None; arg_hc_ping_key := None;
     arg_env_file := ENV_FILE |}.

Definition id0 : host_identity :=
  {| id_argv := [];
     id_task_id := "task UPID:pve1:0001";
     id_errlog := errlog0;
     id_cluster := "prod";
     id_node := "pve1" |}.

(** A host whose package manager fails to install [jq]. *)
Definition host_apt_fails : host :=
  {| text_decode := Some;
     text_encode := fun text => text;
     http := fun _ => Reply None "https://hc.example.org/done" (inr lookup_document);
     shell := fun _ => inr (Completed 0 "example.org" "");
     which := fun cmd => String.eqb cmd "apt";
     run := fun _ => inl (Exn CalledProcessError "apt install failed");
     creatable := fun _ => true |}.

(** A host on which no shell command can be started. *)
Definition host_no_shell : host :=
  {| text_decode := Some;
     text_encode := fun text => text;
     http := fun _ => Reply None "https://hc.example.org/done" (inr lookup_document);
     shell := fun _ => inl (Exn OtherException "OSError");
     which := fun _ => true;
     run := fun _ => inr "x86_64";
     creatable := fun _ => true |}.

(** The cluster status of a node [pve1] in the cluster [prod], and a
    decoder that knows this one document. *)
Definition cluster_status : json :=
  JArr [JObj [("type", JStr "cluster"); ("name", JStr "prod"); ("nodes", JNum 2)];
        JObj [("type", JStr "node"); ("name", JStr "pve2"); ("local", JNum 0)];
        JObj [("type", JStr "node"); ("name", JStr "pve1"); ("local", JNum 1)]].

Definition loads0 (text : string) : exn + json :=
  if String.eqb text "<cluster status>" then inr cluster_status
  else inl (Exn OtherException "Expecting value: line 1 column 1 (char 0)").

(** A host on which [pvesh] prints that document. *)
Definition host_pve : host :=
  {| text_decode := Some;
     text_encode := fun text => text;
     http := fun _ => Reply None "https://hc.example.org/done" (inr lookup_document);
     shell := fun cmd =>
       if String.eqb cmd "pvesh get /cluster/status --output-format json"
       then inr (Completed 0 "<cluster status>" "")
       else inr (Completed 0 ("pve1" ++ Py.newline) "");
     which := fun _ => true;
     run := fun _ => inr "x86_64";
     creatable := fun _ => true |}.

(** A host that is no Proxmox node: [pvesh] is not found. *)
Definition host_no_pvesh : host :=
  {| text_decode := Some;
     text_encode := fun text => text;
     http := fun _ => Reply None "https://hc.example.org/done" (inr lookup_document);
     shell := fun _ => inr (Completed 127 "" "sh: 1: pvesh: not found");
     which := fun _ => true;
     run := fun _ => inr "x86_64";
     creatable := fun _ => true |}.

(** Text mode on a host whose locale is UTF-8, for the characters of the
    model.  A byte below 128 is its character; the lead bytes C2 and C3
    with a continuation byte give the characters from 128 to 255.  Every
    other sequence is refused: a continuation byte without a lead byte and
    a sequence cut short are no UTF-8, and longer sequences encode
    characters that the strings of the model do not have. *)
Fixpoint utf8_decode (bytes : string) : option string :=
  match bytes with
  | EmptyString => Some EmptyString
  | String c rest =>
      if (Py.code c <? 128)%N then String c <$> utf8_decode rest
      else if Py.between 194 195 c
      then
        match rest with
        | String d rest' =>
            if Py.between 128 191 d
            then
              String (ascii_of_N (if (Py.code c =? 194)%N then Py.code d
                                  else Py.code d + 64)%N)
              <$> utf8_decode rest'
            else None
        | EmptyString => None
        end
      else None
  end.

(** The universal newlines of text mode when reading: CR LF and a CR
    alone are read as LF. *)
Fixpoint universal_newlines (text : string) : string :=
  match text with
  | EmptyString => EmptyString
  | String c rest =>
      if Ascii.eqb c "013"
      then
        match rest with
        | String d rest' =>
            if Ascii.eqb d "010" then String "010" (universal_newlines rest')
            else String "010" (universal_newlines rest)
        | EmptyString => String "010" EmptyString
        end
      else String c (universal_newlines rest)
  end.

Fixpoint utf8_encode (text : string) : string :=
  match text with
  | EmptyString => EmptyString
  | String c rest =>
      if (Py.code c <? 128)%N then String c (utf8_encode rest)
      else if (Py.code c <? 192)%N
      then String "194" (String c (utf8_encode rest))
      else String "195" (String (ascii_of_N (Py.code c - 64)) (utf8_encode rest))
  end.

(** The sample host with that text mode. *)
Definition host_utf8 : host :=
  {| text_decode := fun bytes => universal_newlines <$> utf8_decode bytes;
     text_encode := utf8_encode;
     http := fun _ => Reply None "https://hc.example.org/done" (inr lookup_document);
     shell := fun _ => inr (Completed 0 "example.org" "");
     which := fun _ => true;
     run := fun _ => inr "x86_64";
     creatable := fun _ => true |}.

(** A world whose only file is the guest log, with the given bytes. *)
Definition world_log (bytes : string) : world :=
  world_with {[ "/var/log/vzdump/qemu-101.log" := Regular true true bytes ]} ∅.

(** A guest log of 100001 bytes: the two bytes of an e with acute accent,
    then 99999 times [a]. *)
Definition split_log : string :=
  String "195" (String "169" (chars (Nat.pred tail_limit) "a")).

Definition world_split_log : world := world_log split_log.

(** A guest log of four bytes with a line end of two bytes. *)
Definition crlf_log : string :=
  String "a" (String "013" (String "010" (String "b" EmptyString))).

Definition world_crlf_log : world := world_log crlf_log.

End Sample.

(** * Properties *)

(** ** Strings *)

Lemma nonempty_app_l a b : Py.nonempty a = true -> Py.nonempty (a ++ b) = true.
Proof. by destruct a. Qed.

Lemma nonempty_app_r a b : Py.nonempty b = true -> Py.nonempty (a ++ b) = true.
Proof. by destruct a, b. Qed.

Lemma length_app a b :
  String.length (a ++ b) = (String.length a + String.length b)%nat.
Proof. induction a as [|c a IH]; simpl; [done | by rewrite IH]. Qed.

Lemma rstrip_nonempty p s :
  Py.nonempty (Py.rstrip p s) = negb (Py.forallb p s).
Proof.
  induction s as [|c s IH]; simpl; [done|].
  rewrite IH, negb_involutive.
  destruct (Py.forallb p s), (p c); reflexivity.
Qed.

Lemma forallb_lstrip p s : Py.forallb p (Py.lstrip p s) = Py.forallb p s.
Proof.
  induction s as [|c s IH]; simpl; [done|].
  destruct (p c) eqn:E; simpl; [exact IH | by rewrite E].
Qed.

(** [value.strip()] is empty exactly for a value of whitespace only. *)
Lemma strip_nonempty s :
  Py.nonempty (Py.strip s) = negb (Py.forallb Py.is_space s).
Proof. unfold Py.strip. by rewrite rstrip_nonempty, forallb_lstrip. Qed.

Lemma prefix_empty s : String.prefix EmptyString s = true.
Proof. by destruct s. Qed.

(** Replacing one character by another is a map over the characters. *)
Lemma replace_char_map (a b : ascii) s :
  Py.replace (String a EmptyString) (String b EmptyString) s
  = Py.map (fun c => if Ascii.eqb c a then b else c) s.
Proof.
  unfold Py.replace. simpl.
  induction s as [|c s IH]; simpl; [done|].
  destruct (ascii_dec a c) as [->|Hne].
  - rewrite Ascii.eqb_refl, prefix_empty. simpl. by rewrite IH.
  - destruct (Ascii.eqb_spec c a) as [->|]; [done|]. by rewrite IH.
Qed.

Lemma drop_length n s :
  String.length (Py.drop n s) = (String.length s - n)%nat.
Proof.
  revert s. induction n as [|n IH]; intros [|c s]; simpl; done.
Qed.

Lemma take_drop n s : Py.take n s ++ Py.drop n s = s.
Proof.
  revert s. induction n as [|n IH]; intros [|c s]; simpl; try done.
  change (String c (Py.take n s ++ Py.drop n s) = String c s).
  by rewrite IH.
Qed.

(** The last [n] characters: the whole string when it is not longer, and a
    suffix of length [n] otherwise. *)
Lemma last_short n s : (String.length s <= n)%nat -> Py.last n s = s.
Proof.
  intros H. unfold Py.last.
  by replace (String.length s - n)%nat with O by lia.
Qed.

Lemma last_long n s :
  (n < String.length s)%nat ->
  String.length (Py.last n s) = n
  /\ s = Py.take (String.length s - n) s ++ Py.last n s.
Proof.
  intros H. unfold Py.last. split.
  - rewrite drop_length. lia.
  - by rewrite take_drop.
Qed.

(** ** The monad *)

Lemma bind_ret {A B} (a : A) (k : A -> M B) w : bind (ret a) k w = k a w.
Proof. reflexivity. Qed.

Lemma bind_gets {A B} (f : world -> A) (k : A -> M B) w :
  bind (gets f) k w = k (f w) w.
Proof. reflexivity. Qed.

Lemma bind_modify {B} (f : world -> world) (k : unit -> M B) w :
  bind (modify f) k w = k tt (f w).
Proof. reflexivity. Qed.

Lemma bind_info {B} caller lineno msg (k : unit -> M B) w :
  bind (info caller lineno msg) k w
  = k tt (add_stdout ("MESG: '" ++ caller ++ ":" ++ lineno ++ "' " ++ msg) w).
Proof. reflexivity. Qed.

Lemma bind_when_false {B} body (k : unit -> M B) w :
  bind (when false body) k w = k tt w.
Proof. reflexivity. Qed.

Lemma bind_Return {A B} (c : M A) (k : A -> M B) w w' a :
  c w = (w', Return a) -> bind c k w = k a w'.
Proof. intros H. unfold bind. by rewrite H. Qed.

Lemma bind_stopped {A B} (c : M A) (k : A -> M B) w :
  stopped (snd (c w)) = true ->
  fst (bind c k w) = fst (c w) /\ stopped (snd (bind c k w)) = true.
Proof.
  unfold bind. destruct (c w) as [w' [a|code|e]]; simpl; [done | done | done].
Qed.

Lemma bind_assoc {A B C} (c : M A) (k : A -> M B) (k' : B -> M C) w :
  bind (bind c k) k' w = bind c (fun a => bind (k a) k') w.
Proof.
  unfold bind. destruct (c w) as [w' [a|code|e]]; reflexivity.
Qed.

(** ** [error] and [warn] *)

Lemma append_text_appendable h path text w :
  appendable h w path = true ->
  append_text h path text w
  = (set_files (appended h path text (files w)) w, Return tt).
Proof.
  unfold appendable, append_text, appended.
  destruct (files w !! path) as [[|r [] data]|]; try done.
  by intros ->.
Qed.

Lemma append_text_not_appendable h path text w :
  appendable h w path = false ->
  exists e, append_text h path text w = (w, Raise e).
Proof.
  unfold appendable, append_text.
  destruct (files w !! path) as [[|r [] data]|]; try done; eauto.
  intros ->. eauto.
Qed.

(** [error] never returns, whatever follows it. *)
Lemma bind_error {A B} h errlog task msg (k : A -> M B) w :
  bind (error h errlog task msg) k w = error h errlog task msg w.
Proof.
  unfold error, bind, print_err, modify, sys_exit.
  destruct (append_text h errlog _ _) as [w' [[]|code|e]]; reflexivity.
Qed.

Lemma error_fatal {A} h errlog task msg w :
  fatal_error h errlog task msg w (error (A:=A) h errlog task msg w).
Proof.
  unfold fatal_error, error, print_err.
  rewrite bind_modify.
  set (w1 := add_stderr _ w).
  destruct (appendable h w1 errlog) eqn:Happ.
  - rewrite (bind_Return _ _ _ _ _ (append_text_appendable _ _ _ _ Happ)).
    simpl. by repeat split.
  - destruct (append_text_not_appendable h errlog
                (error_message task msg DEFAULT_ERROR_CODE ++ Py.newline) w1 Happ)
      as [e He].
    unfold bind. rewrite He. simpl. repeat split; try done.
    all: unfold appendable in *; simpl in Happ; congruence.
Qed.

Lemma warn_appendable h errlog task msg w :
  appendable h w errlog = true ->
  warn h errlog task msg w
  = (set_files (appended h errlog (warn_message task msg ++ Py.newline) (files w))
       (add_stderr (warn_message task msg) w),
     Return tt).
Proof.
  intros H. unfold warn, print_err. rewrite bind_modify.
  by rewrite append_text_appendable.
Qed.

(** ** Properties of the Slug Builder *)

Example slugify_daily_backup :
  slugify "Daily Backup" "node1.clusterA.example-com"
  = "Daily__Backup__node1-clusterA-example-com".
Proof. reflexivity. Qed.

Lemma re_sub_non_slug_chars text :
  Py.forallb slug_char (re_sub_non_slug text) = true.
Proof.
  unfold re_sub_non_slug.
  induction text as [|c text IH]; simpl; [done|].
  rewrite IH, andb_true_r.
  destruct (slug_char c) eqn:E; [done | reflexivity].
Qed.

Lemma re_sub_non_slug_id s :
  Py.forallb slug_char s = true -> re_sub_non_slug s = s.
Proof.
  induction s as [|c s IH]; simpl; [done|].
  intros [Hc Hs]%andb_true_iff.
  unfold re_sub_non_slug in *. simpl. rewrite Hc. f_equal. by apply IH.
Qed.

(** Replacing a character that does not occur changes nothing. *)
Lemma replace_absent_char (a : ascii) new s :
  Py.forallb (fun c => negb (Ascii.eqb a c)) s = true ->
  Py.replace (String a EmptyString) new s = s.
Proof.
  unfold Py.replace. simpl.
  induction s as [|c s IH]; simpl; [done|].
  intros [Hc Hs]%andb_true_iff.
  destruct (ascii_dec a c) as [->|Hne].
  - by rewrite Ascii.eqb_refl in Hc.
  - f_equal. by apply IH.
Qed.

Lemma forallb_impl (p q : ascii -> bool) s :
  (forall c, p c = true -> q c = true) ->
  Py.forallb p s = true -> Py.forallb q s = true.
Proof.
  intros Hpq. induction s as [|c s IH]; simpl; [done|].
  intros [Hc Hs]%andb_true_iff. rewrite (Hpq _ Hc). by apply IH.
Qed.

Lemma slug_char_not (a : ascii) :
  slug_char a = false -> forall c, slug_char c = true -> negb (Ascii.eqb a c) = true.
Proof.
  intros Ha c Hc. destruct (Ascii.eqb_spec a c) as [->|]; [congruence | done].
Qed.

(** C2: every character of [slugify text suffix] lies in [[A-Za-z0-9_-]],
    and [slugify] with an empty suffix leaves such an output unchanged. *)
Theorem slugify_charset_and_fixed_point (text suffix : string) :
  Py.forallb slug_char (slugify text suffix) = true
  /\ slugify (slugify text suffix) "" = slugify text suffix.
Proof.
  assert (H : Py.forallb slug_char (slugify text suffix) = true)
    by apply re_sub_non_slug_chars.
  split; [exact H|].
  set (out := slugify text suffix) in *.
  unfold slugify at 1. simpl Py.nonempty. cbv iota.
  rewrite (replace_absent_char " " "__" out)
    by (eapply forallb_impl; [apply (slug_char_not " "); reflexivity | exact H]).
  rewrite (replace_absent_char "." "-" out)
    by (eapply forallb_impl; [apply (slug_char_not "."); reflexivity | exact H]).
  by apply re_sub_non_slug_id.
Qed.
(** ** Tags *)

(** C5: [add_tag] with an empty key is a fatal error whatever the value;
    with a key and an empty or whitespace-only value it returns nothing and
    touches nothing; otherwise it returns [" key=value"] with every space of
    the value turned into an underscore, as in [add_tag("k", "v v")]. *)
Theorem add_tag_asymmetric (h : host) (g : globals) (w : world) :
  (forall value,
      fatal_error h (ERRLOG g) "Key Validation" "Empty key" w
                  (add_tag h g "" value w))
  /\ (forall key value,
         Py.nonempty key = true ->
         Py.forallb Py.is_space value = true ->
         add_tag h g key value w = (w, Return None))
  /\ (forall key value,
         Py.nonempty key = true ->
         Py.forallb Py.is_space value = false ->
         add_tag h g key value w
         = (w, Return (Some (" " ++ key ++ "="
                             ++ Py.map (fun c => if Ascii.eqb c " " then "_"%char else c)
                                       value))))
  /\ add_tag h g "k" "v v" w = (w, Return (Some " k=v_v")).
Proof.
  split; [|split; [|split]].
  - intros value. apply (error_fatal (A:=option string)).
  - intros key value Hk Hv. unfold add_tag. rewrite Hk. simpl.
    destruct (Py.nonempty value); [|done]. simpl.
    by rewrite strip_nonempty, Hv.
  - intros key value Hk Hv. unfold add_tag. rewrite Hk. simpl.
    destruct (Py.nonempty value) eqn:Hn; simpl.
    + rewrite strip_nonempty, Hv. simpl. by rewrite (replace_char_map " " "_").
    + destruct value; [done | discriminate Hn].
  - reflexivity.
Qed.

Lemma add_tag_asymmetric_witness :
  add_tag Sample.host0 (Sample.globals_for "job-init") "storage" "   " Sample.world0
  = (Sample.world0, Return None)
  /\ add_tag Sample.host0 (Sample.globals_for "job-init") "storage" "my store"
             Sample.world0
     = (Sample.world0, Return (Some " storage=my_store")).
Proof.
  destruct (add_tag_asymmetric Sample.host0 (Sample.globals_for "job-init")
              Sample.world0) as (_ & Hblank & Htag & _).
  split.
  - apply Hblank; reflexivity.
  - apply (Htag "storage" "my store"); reflexivity.
Defined.

(** ** Pings *)

Lemma eqb_empty_nonempty s : Py.nonempty s = true -> String.eqb s "" = false.
Proof. by destruct s. Qed.

Lemma report_listed report :
  Py.nonempty report = true ->
  existsb (String.eqb report) valid_reports
  = (String.eqb report "start" || String.eqb report "fail"
     || String.eqb report "log").
Proof.
  intros Hr. cbn [existsb valid_reports].
  rewrite (eqb_empty_nonempty _ Hr), orb_false_r. cbn [orb].
  by rewrite orb_assoc.
Qed.

(** The argument checks of [hc_ping] stop at an ["HC Ping"] error exactly
    when the arguments are invalid. *)
Lemma hc_ping_invalid h g sp report file data pk url w :
  invalid_ping_args sp report file data pk = true ->
  exists msg,
    hc_ping h g sp report file data pk url w
    = error h (ERRLOG g) "HC Ping" msg w.
Proof.
  unfold invalid_ping_args, hc_ping. intros H.
  destruct (Py.nonempty sp); cbn [negb orb andb] in *.
  2:{ eexists. unfold when. apply bind_error. }
  rewrite bind_when_false.
  destruct (Py.nonempty pk); cbn [negb orb andb] in *.
  2:{ eexists. unfold when. apply bind_error. }
  rewrite bind_when_false.
  destruct (Py.nonempty report) eqn:Hr; cbn [negb orb andb] in *.
  - rewrite (report_listed _ Hr).
    destruct (negb _ && negb _); cbn [negb orb andb] in *.
    { eexists. unfold when. apply bind_error. }
    rewrite bind_when_false, H.
    eexists. unfold when. apply bind_error.
  - rewrite bind_when_false, H.
    eexists. unfold when. apply bind_error.
Qed.

Lemma hc_ping_valid h g sp report file data pk url w :
  invalid_ping_args sp report file data pk = false ->
  hc_ping h g sp report file data pk url w
  = bind (hc_ping_body h g file data)
         (fun data => hc_ping_post h g (ping_endpoint g sp report pk url) report data)
         (add_stdout ("MESG: 'hc_ping:420' PING ENDPOINT: "
                      ++ ping_endpoint g sp report pk url) w).
Proof.
  unfold invalid_ping_args, hc_ping. intros H.
  apply orb_false_elim in H as [H Hfd].
  apply orb_false_elim in H as [H Hrep].
  apply orb_false_elim in H as [Hsp Hpk].
  rewrite Hsp, Hpk, Hfd. rewrite !bind_when_false.
  destruct (Py.nonempty report) eqn:Hr; cbn [negb orb andb] in Hrep |- *.
  - rewrite (report_listed _ Hr), Hrep.
    by rewrite !bind_when_false, bind_info.
  - by rewrite !bind_when_false, bind_info.
Qed.

(** The request of a ping always goes out; the call returns when the
    service takes it. *)
Lemma hc_ping_post_sent h g ping_url report data w :
  sent (fst (hc_ping_post h g ping_url report data w))
  = (sent w ++ [HttpPostData ping_url data])%list.
Proof.
  unfold hc_ping_post, try_except, request, raise_for_status.
  unfold bind at 1.
  destruct (http h (HttpPostData ping_url data)) as [e|[msg|] final body]; simpl.
  - destruct (request_exception (exn_kind e)); [|done].
    by destruct (error_fatal (A:=string) h (ERRLOG g)
                   ("Healthcheck Ping w/Data ("
                    ++ (if Py.nonempty report then report else "success") ++ ")")
                   (exn_msg e) (add_sent (HttpPostData ping_url data) w))
      as (_ & _ & _ & -> & _).
  - by destruct (error_fatal (A:=string) h (ERRLOG g)
                   ("Healthcheck Ping w/Data ("
                    ++ (if Py.nonempty report then report else "success") ++ ")")
                   msg (add_sent (HttpPostData ping_url data) w))
      as (_ & _ & _ & -> & _).
  - done.
Qed.

Lemma hc_ping_post_accepted h g ping_url report data w :
  accepts h (HttpPostData ping_url data) = true ->
  exists final,
    hc_ping_post h g ping_url report data w
    = (add_sent (HttpPostData ping_url data) w, Return final).
Proof.
  unfold accepts, hc_ping_post, try_except, request, raise_for_status.
  unfold bind at 1.
  destruct (http h (HttpPostData ping_url data)) as [e|[msg|] final body];
    [done | done | ].
  intros _. by exists final.
Qed.

(** The tail read takes the last [tail_limit] bytes. *)
Lemma read_tail_last h file wr bytes w :
  files w !! file = Some (Regular true wr bytes) ->
  read_tail h file w
  = match text_decode h (Py.last tail_limit bytes) with
    | Some text => (w, Return text)
    | None => (w, Raise (Exn OtherException "UnicodeDecodeError"))
    end.
Proof.
  intros Hf. unfold read_tail. rewrite Hf.
  replace (Z.to_nat (Z.max 0 (Z.of_nat (String.length bytes) - 100000)))
    with (String.length bytes - tail_limit)%nat by (unfold tail_limit; lia).
  reflexivity.
Qed.

Lemma hc_ping_body_data h g data w :
  hc_ping_body h g "" data w = (w, Return data).
Proof. reflexivity. Qed.

Lemma path_exists_some path n w :
  files w !! path = Some n -> path_exists path w = (w, Return true).
Proof.
  intros H. unfold path_exists, gets. rewrite H.
  by rewrite bool_decide_eq_true_2.
Qed.

Lemma path_exists_none path w :
  files w !! path = None -> path_exists path w = (w, Return false).
Proof.
  intros H. unfold path_exists, gets. rewrite H.
  rewrite bool_decide_eq_false_2; [done|]. by intros [? ?].
Qed.

Lemma hc_ping_body_file h g file data wr bytes text w :
  Py.nonempty file = true ->
  files w !! file = Some (Regular true wr bytes) ->
  text_decode h (Py.last tail_limit bytes) = Some text ->
  hc_ping_body h g file data w = (w, Return text).
Proof.
  intros Hn Hf Hd. unfold hc_ping_body. rewrite Hn.
  rewrite (bind_Return _ _ _ _ _ (path_exists_some _ _ _ Hf)).
  cbn [negb]. rewrite bind_when_false.
  unfold path_is_file, access_read.
  rewrite bind_gets, Hf. cbn [negb]. rewrite bind_when_false.
  rewrite bind_gets, Hf. cbn [negb]. rewrite bind_when_false.
  unfold try_except. by rewrite (read_tail_last _ _ _ _ _ Hf), Hd.
Qed.

Lemma body_source_ok_inv h w file :
  body_source_ok h w file = true ->
  file = ""
  \/ Py.nonempty file = true
     /\ exists wr bytes text,
         files w !! file = Some (Regular true wr bytes)
         /\ text_decode h (Py.last tail_limit bytes) = Some text.
Proof.
  unfold body_source_ok. destruct file as [|c file]; [by left|]. simpl.
  destruct (files w !! String c file) as [[|[] wr bytes]|]; try done.
  intros [text Ht]%bool_decide_eq_true. right. split; [done|]. eauto.
Qed.

(** Neither the body stage nor the request prints anything. *)
Lemma hc_ping_body_stdout h g file data w :
  stdout (fst (hc_ping_body h g file data w)) = stdout w.
Proof.
  unfold hc_ping_body. destruct (Py.nonempty file); [|done].
  unfold path_exists, path_is_file, access_read. rewrite bind_gets.
  destruct (negb (bool_decide _)).
  { unfold when. rewrite bind_error.
    by destruct (error_fatal (A:=string) h (ERRLOG g) "Check file exists"
                   ("File " ++ file ++ " not found") w) as (_ & _ & -> & _). }
  rewrite bind_when_false, bind_gets.
  destruct (negb _).
  { unfold when. rewrite bind_error.
    by destruct (error_fatal (A:=string) h (ERRLOG g) "Check file type"
                   (file ++ " is not a file") w) as (_ & _ & -> & _). }
  rewrite bind_when_false, bind_gets.
  destruct (negb _).
  { unfold when. rewrite bind_error.
    by destruct (error_fatal (A:=string) h (ERRLOG g) "Check file permissions"
                   ("Cannot read " ++ file) w) as (_ & _ & -> & _). }
  rewrite bind_when_false. unfold try_except, read_tail.
  destruct (files w !! file) as [[|[] wr bytes]|]; cbn [any_exception exn_msg];
    try (by match goal with
            | |- context [error ?h0 ?el ?t ?m ?w0] =>
                destruct (error_fatal (A:=string) h0 el t m w0) as (_ & _ & -> & _)
            end).
  destruct (text_decode h _); [done|]. cbn [any_exception exn_msg].
  by match goal with
     | |- context [error ?h0 ?el ?t ?m ?w0] =>
         destruct (error_fatal (A:=string) h0 el t m w0) as (_ & _ & -> & _)
     end.
Qed.

Lemma hc_ping_post_stdout h g ping_url report data w :
  stdout (fst (hc_ping_post h g ping_url report data w)) = stdout w.
Proof.
  unfold hc_ping_post, try_except, request, raise_for_status.
  unfold bind at 1.
  destruct (http h (HttpPostData ping_url data)) as [e|[msg|] final body]; simpl;
    [destruct (request_exception (exn_kind e)); [|done] | | done].
  all: by match goal with
          | |- context [error ?h0 ?el ?t ?m ?w0] =>
              destruct (error_fatal (A:=string) h0 el t m w0) as (_ & _ & -> & _)
          end.
Qed.

(** With valid arguments [hc_ping] prints the endpoint, and nothing else. *)
Lemma hc_ping_valid_stdout h g sp report file data pk url w :
  invalid_ping_args sp report file data pk = false ->
  stdout (fst (hc_ping h g sp report file data pk url w))
  = (stdout w ++ [("MESG: 'hc_ping:420' PING ENDPOINT: "
                   ++ ping_endpoint g sp report pk url)%string])%list.
Proof.
  intros Hval. rewrite (hc_ping_valid _ _ _ _ _ _ _ _ _ Hval).
  set (w1 := add_stdout _ w).
  pose proof (hc_ping_body_stdout h g file data w1) as Hbody.
  unfold bind.
  destruct (hc_ping_body h g file data w1) as [w2 [body|code|e]];
    cbn [fst] in Hbody |- *.
  - by rewrite hc_ping_post_stdout, Hbody.
  - by rewrite Hbody.
  - by rewrite Hbody.
Qed.

(** C3: [hc_ping] raises its argument error exactly when the arguments are
    invalid: an empty slug prefix or ping key, a report that is neither
    empty, ["start"], ["fail"], ["log"] nor digits, or a file together with
    data; nothing is sent then.  With valid arguments and a readable body
    source it sends the ping, and it returns when the service takes the
    request.  The report ["7"] is valid and ["bogus"] is not. *)
Theorem hc_ping_fatal_iff_invalid_args
    (h : host) (g : globals) (w : world)
    (slug_prefix report file data pingkey url : string) :
  let r := hc_ping h g slug_prefix report file data pingkey url w in
  let endpoint := ping_endpoint g slug_prefix report pingkey url in
  (invalid_ping_args slug_prefix report file data pingkey = true ->
   exists msg, fatal_error h (ERRLOG g) "HC Ping" msg w r)
  /\ (invalid_ping_args slug_prefix report file data pingkey = false ->
      stdout (fst r)
      = (stdout w
         ++ [("MESG: 'hc_ping:420' PING ENDPOINT: " ++ endpoint)%string])%list)
  /\ (invalid_ping_args slug_prefix report file data pingkey = false ->
      body_source_ok h w file = true ->
      exists body,
        sent (fst r) = (sent w ++ [HttpPostData endpoint body])%list
        /\ (file = "" -> body = data)
        /\ (accepts h (HttpPostData endpoint body) = true ->
            stopped (snd r) = false))
  /\ (Py.nonempty slug_prefix = true -> Py.nonempty pingkey = true ->
      invalid_ping_args slug_prefix "7" "" data pingkey = false
      /\ invalid_ping_args slug_prefix "log" "" data pingkey = false)
  /\ invalid_ping_args slug_prefix "bogus" file data pingkey = true.
Proof.
  cbv zeta. split; [|split; [|split; [|split]]].
  - intros Hinv.
    destruct (hc_ping_invalid h g _ _ _ _ _ url w Hinv) as [msg ->].
    exists msg. apply error_fatal.
  - apply hc_ping_valid_stdout.
  - intros Hval Hsrc. rewrite (hc_ping_valid _ _ _ _ _ _ _ _ _ Hval).
    set (w1 := add_stdout _ w).
    assert (exists body,
               hc_ping_body h g file data w1 = (w1, Return body)
               /\ (file = "" -> body = data)) as (body & Hbody & Hdata).
    { destruct (body_source_ok_inv h w file Hsrc)
        as [->|(Hn & wr & bytes & text & Hf & Hd)].
      - exists data. by split.
      - exists text. split.
        + by apply (hc_ping_body_file _ _ _ _ wr bytes).
        + intros ->. discriminate Hn. }
    exists body. rewrite (bind_Return _ _ _ _ _ Hbody).
    split; [by rewrite hc_ping_post_sent | split; [exact Hdata|]].
    intros Hacc.
    by destruct (hc_ping_post_accepted h g _ report _ w1 Hacc) as [final ->].
  - intros Hsp Hpk. unfold invalid_ping_args. rewrite Hsp, Hpk. by split.
  - unfold invalid_ping_args.
    destruct (Py.nonempty slug_prefix), (Py.nonempty pingkey); reflexivity.
Qed.

Lemma hc_ping_fatal_iff_invalid_args_witness :
  stopped (snd (hc_ping Sample.host0 (Sample.globals_for "job-start")
                        "job" "bogus" "" "" "ping-key-0123"
                        "https://hc.example.org/ping" Sample.world0)) = true
  /\ stopped (snd (hc_ping Sample.host0 (Sample.globals_for "job-start")
                           "job" "7" "" "" "ping-key-0123"
                           "https://hc.example.org/ping" Sample.world0)) = false.
Proof.
  split.
  - destruct (hc_ping_fatal_iff_invalid_args Sample.host0
                (Sample.globals_for "job-start") Sample.world0
                "job" "bogus" "" "" "ping-key-0123" "https://hc.example.org/ping")
      as (Hinv & _).
    destruct (Hinv eq_refl) as (msg & Hstop & _). exact Hstop.
  - destruct (hc_ping_fatal_iff_invalid_args Sample.host0
                (Sample.globals_for "job-start") Sample.world0
                "job" "7" "" "" "ping-key-0123" "https://hc.example.org/ping")
      as (_ & _ & Hval & _).
    destruct (Hval eq_refl eq_refl) as (body & _ & _ & Hret).
    apply Hret. reflexivity.
Defined.

(** With a file as body source whose last 100000 bytes the host decodes,
    the body of the ping is the text they decode to; those bytes are a
    suffix of exactly that length when the file is larger, and the whole
    file otherwise. *)
Theorem hc_ping_file_body_is_tail
    (h : host) (g : globals) (w : world)
    (slug_prefix report file pingkey url : string)
    (writable : bool) (bytes text : string) :
  invalid_ping_args slug_prefix report file "" pingkey = false ->
  Py.nonempty file = true ->
  files w !! file = Some (Regular true writable bytes) ->
  text_decode h (Py.last tail_limit bytes) = Some text ->
  let r := hc_ping h g slug_prefix report file "" pingkey url w in
  sent (fst r)
  = (sent w ++ [HttpPostData (ping_endpoint g slug_prefix report pingkey url) text])%list
  /\ (100000 < Z.of_nat (String.length bytes) ->
      Z.of_nat (String.length (Py.last tail_limit bytes)) = 100000
      /\ exists front, bytes = front ++ Py.last tail_limit bytes)
  /\ (Z.of_nat (String.length bytes) <= 100000 ->
      Py.last tail_limit bytes = bytes).
Proof.
  intros Hval Hn Hf Hd. cbv zeta. split; [|split].
  - rewrite (hc_ping_valid _ _ _ _ _ _ _ _ _ Hval).
    set (w1 := add_stdout _ w).
    rewrite (bind_Return _ _ _ _ _
               (hc_ping_body_file h g file "" writable bytes text w1 Hn Hf Hd)).
    by rewrite hc_ping_post_sent.
  - intros Hlong.
    destruct (last_long tail_limit bytes) as [Hlen Hsplit];
      [unfold tail_limit; lia|].
    split; [rewrite Hlen; unfold tail_limit; lia | eauto].
  - intros Hshort. apply last_short. unfold tail_limit. lia.
Qed.

Lemma chars_length n c : String.length (Sample.chars n c) = n.
Proof. induction n as [|n IH]; simpl; [done | by rewrite IH]. Qed.

Lemma last_big_log : Py.last tail_limit Sample.big_log = Sample.chars tail_limit "b".
Proof.
  unfold Py.last, Sample.big_log.
  change (String.length (String "a" (Sample.chars tail_limit "b")))
    with (S (String.length (Sample.chars tail_limit "b"))).
  rewrite chars_length.
  by replace (S tail_limit - tail_limit)%nat with 1%nat by lia.
Qed.

Lemma hc_ping_file_body_is_tail_witness :
  sent (fst (hc_ping Sample.host0 (Sample.globals_for "log-end")
                     "101-qemu" "log" "/var/log/vzdump/qemu-101.log" ""
                     "ping-key-0123" "https://hc.example.org/ping"
                     Sample.world_big_log))
  = [HttpPostData
       "https://hc.example.org/ping/ping-key-0123/101-qemu__pve1-prod-example-org/log"
       (Sample.chars tail_limit "b")].
Proof.
  apply (hc_ping_file_body_is_tail Sample.host0 (Sample.globals_for "log-end")
           Sample.world_big_log "101-qemu" "log" "/var/log/vzdump/qemu-101.log"
           "ping-key-0123" "https://hc.example.org/ping"
           true Sample.big_log (Sample.chars tail_limit "b")).
  - reflexivity.
  - reflexivity.
  - apply lookup_singleton_eq.
  - exact (f_equal Some last_big_log).
Defined.

(** ** Dashboard URL *)

Lemma get_dashboard_url_found h g slug apikey base_url w final data ping_url :
  http h (HttpGet (base_url ++ "/api/v3/checks/?slug="
                   ++ slugify slug (HC_SLUG_SUFFIX g)) apikey)
  = Reply None final (inr data) ->
  response_ping_url data = Some ping_url ->
  get_dashboard_url h g slug apikey base_url w
  = (add_sent (HttpGet (base_url ++ "/api/v3/checks/?slug="
                        ++ slugify slug (HC_SLUG_SUFFIX g)) apikey) w,
     Return (dashboard_of_ping_url ping_url)).
Proof.
  intros Hreply Hurl. unfold get_dashboard_url, try_except, request.
  unfold bind at 1. rewrite Hreply. cbn [raise_for_status].
  rewrite bind_ret. cbn [snd response_json]. rewrite bind_ret.
  unfold response_ping_url in Hurl.
  destruct data as [| | | | |members]; try done. cbn [subscript_key].
  destruct (json_member "checks" members) as [[| | | |[|[| | | | |check] rest]|]|];
    try done.
  rewrite bind_ret. cbn [subscript_zero]. rewrite bind_ret. cbn [subscript_key].
  destruct (json_member "ping_url" check) as [[| | |url| |]|]; try done.
  rewrite bind_ret. by injection Hurl as ->.
Qed.

(** C8, on the code: the conversion replaces every occurrence of [ping],
    the one in the host name included, so the dashboard URL returned for
    [https://ping.example.org/ping/1234] is not the one with only the path
    segment replaced. *)
Theorem get_dashboard_url_replaces_every_ping :
  snd (get_dashboard_url Sample.host_ping_subdomain
         (Sample.globals_for "backup-abort") "101-qemu" "rw-key-0123456789"
         "https://ping.example.org" Sample.world0)
  = Return "https://checks.example.org/checks/1234/details"
  /\ "https://checks.example.org/checks/1234/details"
     <> "https://ping.example.org/checks/1234/details".
Proof.
  split; [|discriminate].
  by rewrite (get_dashboard_url_found Sample.host_ping_subdomain _ _ _ _ _
                "https://ping.example.org/api/v3/checks/"
                Sample.ping_subdomain_document
                "https://ping.example.org/ping/1234").
Qed.

(** ** Configuration *)

(** C1, on the code: with [--env-file /root/hc.env] defining [HC_PING_KEY],
    no default environment file and no [--hc-ping-key], the ping key in use
    is the built-in default, although the file was loaded into the
    environment. *)
Theorem env_file_option_is_read_too_late :
  exists w',
    resolve_config Sample.host0 Sample.args_env_file Sample.world_env_file
    = (w', Return {| cfg_base_domain := DEFAULT_HC_BASE_DOMAIN;
                     cfg_ping_domain := DEFAULT_HC_PING_DOMAIN;
                     cfg_rw_api_key := DEFAULT_HC_RW_API_KEY;
                     cfg_ping_key := DEFAULT_HC_PING_KEY |})
    /\ environ w' !! "HC_PING_KEY" = Some "abc".
Proof.
  eexists. split.
  - vm_compute. reflexivity.
  - vm_compute. reflexivity.
Qed.

(** ** The dispatcher *)

Lemma emit_nil w : emit [] w = w.
Proof. destruct w. unfold emit. simpl. by rewrite app_nil_r. Qed.

Lemma emit_emit l1 l2 w : emit l2 (emit l1 w) = emit (l1 ++ l2) w.
Proof. unfold emit. simpl. by rewrite app_assoc. Qed.

Lemma add_stdout_emit line w : add_stdout line w = emit [line] w.
Proof. reflexivity. Qed.

Lemma check_jq_installed_available h g w :
  jq_available h = true ->
  exists lines, check_jq_installed h g w = (emit lines w, Return tt).
Proof.
  unfold jq_available, check_jq_installed. intros H.
  destruct (which h "jq"); cbn [negb orb] in *.
  { exists []. by rewrite emit_nil. }
  rewrite bind_info.
  exists ["MESG: 'check_jq_installed:456' JQ could not be found, installing"].
  rewrite <- add_stdout_emit.
  destruct (which h "apt").
  - unfold try_except, run_argv, bind.
    by destruct (run h ["apt"; "install"; "-y"; "jq"]).
  - destruct (which h "dnf"); [|done]. cbn [andb] in H.
    unfold try_except, run_argv, bind.
    by destruct (run h ["dnf"; "install"; "-y"; "jq"]).
Qed.

(** With [jq] at hand, [main] prints its banner and dispatches. *)
Lemma main_dispatches h g w :
  jq_available h = true ->
  exists lines, main h g w = dispatch h g (emit lines w).
Proof.
  intros Hjq. unfold main. rewrite !bind_info.
  destruct (check_jq_installed_available h g
              (add_stdout
                 ("MESG: 'main:478' Using API Key=" ++ Py.take 4 (HC_RW_API_KEY g)
                  ++ "***" ++ Py.last 4 (HC_RW_API_KEY g) ++ " and Ping Key="
                  ++ Py.take 4 (HC_PING_KEY g) ++ "***" ++ Py.last 4 (HC_PING_KEY g))
                 (add_stdout
                    ("MESG: 'main:477' Configuration: HC_BASE_DOMAIN="
                     ++ HC_BASE_DOMAIN g ++ ", HC_PING_DOMAIN=" ++ HC_PING_DOMAIN g)
                    w)) Hjq) as [lines Hrun].
  rewrite (bind_Return _ _ _ _ _ Hrun).
  rewrite !add_stdout_emit, !emit_emit. eauto.
Qed.

(** A ping of [main] that the service takes: one line printed, one request
    sent. *)
Lemma hc_ping_data_accepted h g sp report data w :
  invalid_ping_args sp report "" data (HC_PING_KEY g) = false ->
  accepts h (HttpPostData
               (ping_endpoint g sp report (HC_PING_KEY g) (HC_PING_DOMAIN g)) data)
  = true ->
  exists final,
    hc_ping_data h g sp report data w
    = (add_sent
         (HttpPostData
            (ping_endpoint g sp report (HC_PING_KEY g) (HC_PING_DOMAIN g)) data)
         (add_stdout
            ("MESG: 'hc_ping:420' PING ENDPOINT: "
             ++ ping_endpoint g sp report (HC_PING_KEY g) (HC_PING_DOMAIN g)) w),
       Return final).
Proof.
  intros Hval Hacc. unfold hc_ping_data.
  rewrite (hc_ping_valid _ _ _ _ _ _ _ _ _ Hval).
  rewrite (bind_Return _ _ _ _ _ (hc_ping_body_data h g data _)).
  apply (hc_ping_post_accepted h g _ _ _ _ Hacc).
Qed.

(** The reports of [main] are valid whenever there is a ping key. *)
Lemma main_ping_args_valid sp report data pk :
  Py.nonempty sp = true ->
  Py.nonempty pk = true ->
  report = "" \/ report = "start" \/ report = "fail" \/ report = "log" ->
  invalid_ping_args sp report "" data pk = false.
Proof.
  intros Hsp Hpk Hrep. unfold invalid_ping_args. rewrite Hsp, Hpk.
  by destruct Hrep as [->|[->|[->| ->]]].
Qed.

Lemma guest_slug_prefix_nonempty g : Py.nonempty (HC_VM_SLUG_PREFIX g) = true.
Proof.
  unfold HC_VM_SLUG_PREFIX. apply nonempty_app_r. reflexivity.
Qed.

Lemma read_text_decoded h path writable bytes text w :
  files w !! path = Some (Regular true writable bytes) ->
  text_decode h bytes = Some text ->
  read_text h path w = (w, Return text).
Proof. intros Hf Hd. unfold read_text. by rewrite Hf, Hd. Qed.

Lemma unlink_regular path r wr bytes w :
  files w !! path = Some (Regular r wr bytes) ->
  unlink path w = (set_files (delete path (files w)) w, Return tt).
Proof. intros Hf. unfold unlink. by rewrite Hf. Qed.

(** ** Phase [job-end] *)

(** C6: in phase [job-end], when the pending error log of the task exists,
    the run sends one request, a ["fail"] ping to the host check whose body
    is the content of that file, and then removes the file; when it does
    not exist, the run sends one request, a ping to the host check with no
    report and the task identifier as body, and leaves the files alone.
    The host is assumed to have [jq], a ping key and a service that takes
    the ping. *)
Theorem job_end_reports_pending_log (h : host) (g : globals) (w : world) :
  PHASE g = "job-end" ->
  jq_available h = true ->
  Py.nonempty (HC_PING_KEY g) = true ->
  (forall writable bytes job_log,
      files w !! ERRLOG g = Some (Regular true writable bytes) ->
      text_decode h bytes = Some job_log ->
      accepts h (host_ping g "fail" job_log) = true ->
      exists w',
        main h g w = (w', Return tt)
        /\ sent w' = (sent w ++ [host_ping g "fail" job_log])%list
        /\ files w' = delete (ERRLOG g) (files w))
  /\ (files w !! ERRLOG g = None ->
      accepts h (host_ping g "" (TASK_ID g)) = true ->
      exists w',
        main h g w = (w', Return tt)
        /\ sent w' = (sent w ++ [host_ping g "" (TASK_ID g)])%list
        /\ files w' = files w).
Proof.
  intros Hphase Hjq Hpk.
  destruct (main_dispatches h g w Hjq) as [lines ->].
  assert (Hd : dispatch h g = phase_job_end h g)
    by (unfold dispatch; rewrite Hphase; reflexivity).
  rewrite Hd. clear Hd. unfold phase_job_end.
  set (w0 := emit lines w).
  split.
  - intros writable bytes job_log Hf Hdec Hacc.
    assert (Hf0 : files w0 !! ERRLOG g = Some (Regular true writable bytes))
      by exact Hf.
    rewrite (bind_Return _ _ _ _ _ (path_exists_some _ _ _ Hf0)).
    rewrite (bind_Return _ _ _ _ _ (read_text_decoded _ _ _ _ _ _ Hf0 Hdec)).
    rewrite bind_info.
    set (w1 := add_stdout _ w0).
    destruct (hc_ping_data_accepted h g HC_HOST_SLUG_PREFIX "fail" job_log w1)
      as [final Hping].
    { apply main_ping_args_valid; auto. }
    { exact Hacc. }
    rewrite (bind_Return _ _ _ _ _ Hping).
    erewrite unlink_regular by exact Hf.
    eexists. split; [reflexivity|]. by split.
  - intros Hf Hacc.
    assert (Hf0 : files w0 !! ERRLOG g = None) by exact Hf.
    rewrite (bind_Return _ _ _ _ _ (path_exists_none _ _ Hf0)).
    rewrite bind_info.
    set (w1 := add_stdout _ w0).
    destruct (hc_ping_data_accepted h g HC_HOST_SLUG_PREFIX "" (TASK_ID g) w1)
      as [final Hping].
    { apply main_ping_args_valid; auto. }
    { exact Hacc. }
    rewrite (bind_Return _ _ _ _ _ Hping).
    eexists. split; [reflexivity|]. by split.
Qed.

Lemma job_end_reports_pending_log_witness :
  (exists w',
      main Sample.host0 (Sample.globals_for "job-end") Sample.world_pending
      = (w', Return tt)
      /\ sent w'
         = [HttpPostData
              "https://hc.example.org/ping/ping-key-0123/job__pve1-prod-example-org/fail"
              "X"]
      /\ files w' !! Sample.errlog0 = None)
  /\ (exists w',
         main Sample.host0 (Sample.globals_for "job-end") Sample.world0
         = (w', Return tt)
         /\ sent w'
            = [HttpPostData
                 "https://hc.example.org/ping/ping-key-0123/job__pve1-prod-example-org"
                 "task UPID:pve1:0001"]).
Proof.
  split.
  - destruct (job_end_reports_pending_log Sample.host0
                (Sample.globals_for "job-end") Sample.world_pending
                eq_refl eq_refl eq_refl) as [Hpending _].
    destruct (Hpending true "X" "X" (lookup_singleton_eq _ _) eq_refl eq_refl)
      as (w' & Hmain & Hsent & Hfiles).
    exists w'. split; [exact Hmain|]. split.
    + rewrite Hsent. reflexivity.
    + rewrite Hfiles. apply lookup_delete_eq.
  - destruct (job_end_reports_pending_log Sample.host0
                (Sample.globals_for "job-end") Sample.world0
                eq_refl eq_refl eq_refl) as [_ Hnone].
    destruct (Hnone (lookup_empty _) eq_refl) as (w' & Hmain & Hsent & _).
    exists w'. split; [exact Hmain|].
    rewrite Hsent. reflexivity.
Defined.

(** ** Unknown phases and the phase check at startup *)

Lemma eqb_not_in (x : string) (l : list string) (y : string) :
  ~ In x l -> In y l -> String.eqb x y = false.
Proof.
  intros Hnot Hin. destruct (String.eqb_spec x y) as [->|]; [contradiction | done].
Qed.

Lemma dispatch_unknown h g :
  ~ In (PHASE g) known_phases -> dispatch h g = phase_unknown h g.
Proof.
  intros Hnot. unfold dispatch. cbn [existsb].
  rewrite (eqb_not_in _ _ "job-init" Hnot) by (cbn; tauto).
  rewrite (eqb_not_in _ _ "job-start" Hnot) by (cbn; tauto).
  rewrite (eqb_not_in _ _ "backup-start" Hnot) by (cbn; tauto).
  rewrite (eqb_not_in _ _ "pre-stop" Hnot) by (cbn; tauto).
  rewrite (eqb_not_in _ _ "pre-restart" Hnot) by (cbn; tauto).
  rewrite (eqb_not_in _ _ "post-restart" Hnot) by (cbn; tauto).
  rewrite (eqb_not_in _ _ "backup-end" Hnot) by (cbn; tauto).
  rewrite (eqb_not_in _ _ "backup-abort" Hnot) by (cbn; tauto).
  rewrite (eqb_not_in _ _ "log-end" Hnot) by (cbn; tauto).
  rewrite (eqb_not_in _ _ "job-end" Hnot) by (cbn; tauto).
  rewrite (eqb_not_in _ _ "job-abort" Hnot) by (cbn; tauto).
  reflexivity.
Qed.

(** Loading an environment file returns, and touches only the environment
    and standard error. *)
Lemma load_env_lines_frame lines w :
  exists w' o,
    load_env_lines lines w = (w', o)
    /\ (forall code, o <> Exit code)
    /\ files w' = files w /\ stdout w' = stdout w
    /\ stderr w' = stderr w /\ sent w' = sent w.
Proof.
  revert w. induction lines as [|line lines IH]; intros w; simpl.
  { exists w, (Return tt). by repeat split. }
  assert (Hline : exists w1 o1,
             load_env_line line w = (w1, o1)
             /\ (forall code, o1 <> Exit code)
             /\ files w1 = files w /\ stdout w1 = stdout w
             /\ stderr w1 = stderr w /\ sent w1 = sent w).
  { unfold load_env_line.
    destruct (negb _ || _).
    { exists w, (Return tt). by repeat split. }
    destruct (Py.split_once "=" (Py.strip line)) as [[key value]|].
    2:{ exists w, (Return tt). by repeat split. }
    unfold environ_set. destruct (putenv_ok key _).
    - eexists _, (Return tt). by repeat split.
    - eexists w, (Raise _). by repeat split. }
  destruct Hline as (w1 & o1 & Hrun & Hexit & Hfs & Hout & Herr & Hsent).
  unfold bind. rewrite Hrun. destruct o1 as [[]|code|e].
  - destruct (IH w1) as (w2 & o2 & Hrun2 & Hexit2 & Hfs2 & Hout2 & Herr2 & Hsent2).
    exists w2, o2. repeat split; try done; congruence.
  - by destruct (Hexit code).
  - exists w1, (Raise e). by repeat split.
Qed.

Lemma load_env_file_frame h path w :
  exists w' found,
    load_env_file h path w = (w', Return found)
    /\ files w' = files w /\ stdout w' = stdout w /\ sent w' = sent w.
Proof.
  unfold load_env_file, path_exists. rewrite bind_gets.
  destruct (bool_decide _).
  2:{ exists w, false. by repeat split. }
  unfold try_except.
  assert (Hbody : exists w1 o1,
             bind (read_text h path)
                  (fun text => bind (load_env_lines (Py.lines text))
                                    (fun _ => ret true)) w = (w1, o1)
             /\ (forall code, o1 <> Exit code)
             /\ files w1 = files w /\ stdout w1 = stdout w /\ sent w1 = sent w).
  { unfold bind at 1, read_text.
    destruct (files w !! path) as [[|[] wr data]|];
      try (eexists w, (Raise _); by repeat split).
    destruct (text_decode h data) as [text|];
      [|eexists w, (Raise _); by repeat split].
    destruct (load_env_lines_frame (Py.lines text) w)
      as (w1 & o1 & Hrun & Hexit & Hfs & Hout & Herr & Hsent).
    unfold bind. rewrite Hrun.
    destruct o1 as [[]|code|e].
    - exists w1, (Return true). by repeat split.
    - by destruct (Hexit code).
    - exists w1, (Raise e). by repeat split. }
  destruct Hbody as (w1 & o1 & -> & Hexit & Hfs & Hout & Hsent).
  destruct o1 as [found|code|e].
  - exists w1, found. by repeat split.
  - by destruct (Hexit code).
  - cbn [any_exception]. unfold print_err. rewrite bind_modify.
    eexists _, false. by repeat split.
Qed.

Lemma resolve_config_frame h args w :
  exists w' cfg,
    resolve_config h args w = (w', Return cfg)
    /\ files w' = files w /\ stdout w' = stdout w /\ sent w' = sent w.
Proof.
  unfold resolve_config.
  destruct (load_env_file_frame h ENV_FILE w) as (w1 & b1 & Hrun1 & Hfs1 & Hout1 & Hsent1).
  rewrite (bind_Return _ _ _ _ _ Hrun1).
  unfold environ_get. rewrite !bind_gets.
  destruct (Py.nonempty (arg_env_file args)
            && negb (String.eqb (arg_env_file args) ENV_FILE)).
  - destruct (load_env_file_frame h (arg_env_file args) w1)
      as (w2 & b2 & Hrun2 & Hfs2 & Hout2 & Hsent2).
    rewrite (bind_Return _ _ _ _ _ Hrun2).
    eexists _, _. split; [reflexivity|]. repeat split; congruence.
  - rewrite bind_ret. eexists _, _. split; [reflexivity|]. by repeat split.
Qed.

Lemma get_domain_returns h w : exists domain, get_domain h w = (w, Return domain).
Proof.
  unfold get_domain, try_except, run_shell, bind.
  destruct (shell h "hostname --domain") as [e|c]; simpl; eauto.
Qed.

(** An empty phase stops the script in the module body, before [main]. *)
Lemma empty_phase_stops_module_init h args id w :
  arg_phase args = "" ->
  stopped (snd (module_init h args id w)) = true
  /\ sent (fst (module_init h args id w)) = sent w.
Proof.
  intros Hphase. unfold module_init.
  destruct (resolve_config_frame h args w) as (w1 & cfg & Hrun & _ & _ & Hsent).
  rewrite (bind_Return _ _ _ _ _ Hrun).
  unfold print. rewrite bind_modify.
  set (w2 := add_stdout _ w1).
  destruct (get_domain_returns h w2) as [domain Hdom].
  rewrite (bind_Return _ _ _ _ _ Hdom).
  rewrite Hphase. cbn [Py.nonempty negb when].
  rewrite bind_error.
  destruct (error_fatal (A:=globals) h (id_errlog id) "Arguments"
              "Phase not provided" w2) as (Hstop & _ & _ & Hsent2 & _).
  split; [exact Hstop|]. rewrite Hsent2. exact Hsent.
Qed.

(** C9: a phase that is none of the eleven known ones is not a fatal
    error of the dispatcher: [main] sends one request, a ["fail"] ping to
    the host check whose body names the unknown phase, writes a warning to
    standard error and to the pending error log, and returns.  The host is
    assumed to have [jq], a ping key, a service that takes the ping and a
    writable error log.  An empty phase never reaches the dispatcher: the
    script stops in the module body without sending anything. *)
Theorem unknown_phase_is_reported
    (h : host) (g : globals) (w : world) :
  ~ In (PHASE g) known_phases ->
  jq_available h = true ->
  Py.nonempty (HC_PING_KEY g) = true ->
  accepts h (host_ping g "fail" ("UNKNOWN: " ++ PHASE g)) = true ->
  appendable h w (ERRLOG g) = true ->
  (exists w',
      main h g w = (w', Return tt)
      /\ sent w' = (sent w ++ [host_ping g "fail" ("UNKNOWN: " ++ PHASE g)])%list
      /\ stderr w' = (stderr w ++ [warn_message "Unknown Phase" (PHASE g)])%list
      /\ files w'
         = appended h (ERRLOG g)
             (warn_message "Unknown Phase" (PHASE g) ++ Py.newline) (files w))
  /\ (forall args id w0,
         arg_phase args = "" ->
         stopped (snd (script h args id w0)) = true
         /\ sent (fst (script h args id w0)) = sent w0).
Proof.
  intros Hunknown Hjq Hpk Hacc Happ. split.
  - destruct (main_dispatches h g w Hjq) as [lines ->].
    rewrite (dispatch_unknown h g Hunknown). unfold phase_unknown.
    rewrite bind_info.
    set (w1 := add_stdout _ (emit lines w)).
    destruct (hc_ping_data_accepted h g HC_HOST_SLUG_PREFIX "fail"
                ("UNKNOWN: " ++ PHASE g) w1) as [final Hping].
    { apply main_ping_args_valid; auto. }
    { exact Hacc. }
    rewrite (bind_Return _ _ _ _ _ Hping).
    rewrite warn_appendable by exact Happ.
    eexists. split; [reflexivity|]. by repeat split.
  - intros args id w0 Hphase.
    destruct (empty_phase_stops_module_init h args id w0 Hphase) as [Hstop Hsent].
    unfold script.
    destruct (bind_stopped (module_init h args id)
                (fun g0 =>
                   match id_argv id with
                   | [] =>
                       print "Usage: vzdump-hook-script.py [phase] [mode] [vmid] [options]" ;;
                       print "Example: vzdump-hook-script.py job-init" ;;
                       print "For complete options: vzdump-hook-script.py --help" ;;
                       sys_exit 1
                   | _ :: _ => main h g0
                   end) w0 Hstop) as [Hfst Hstop'].
    split; [exact Hstop'|]. by rewrite Hfst.
Qed.

Lemma unknown_phase_is_reported_witness :
  exists w',
    main Sample.host0 (Sample.globals_for "cleanup") Sample.world0
    = (w', Return tt)
    /\ sent w'
       = [HttpPostData
            "https://hc.example.org/ping/ping-key-0123/job__pve1-prod-example-org/fail"
            "UNKNOWN: cleanup"]
    /\ stderr w'
       = ["WARNING: 'Unknown Phase' issue." ++ Py.newline ++ "CONTEXT: cleanup"].
Proof.
  assert (Hunknown : ~ In (PHASE (Sample.globals_for "cleanup")) known_phases).
  { cbn. intuition discriminate. }
  destruct (unknown_phase_is_reported Sample.host0 (Sample.globals_for "cleanup")
              Sample.world0 Hunknown eq_refl eq_refl eq_refl eq_refl)
    as [(w' & Hmain & Hsent & Herr & _) _].
  exists w'. split; [exact Hmain|]. split.
  - rewrite Hsent. reflexivity.
  - rewrite Herr. reflexivity.
Defined.

(** ** The layers of the configuration *)

(** The layers of the configuration as the module resolves them: a
    non-empty command-line value, else the environment as it stands after
    the default environment file was loaded (the file overrides what the
    process inherited), else the built-in default.  The file of
    [--env-file] has no part in it. *)
Theorem resolve_config_layers (h : host) (args : cli_args) (w : world) :
  exists w1 found w' cfg,
    load_env_file h ENV_FILE w = (w1, Return found)
    /\ resolve_config h args w = (w', Return cfg)
    /\ cfg_base_domain cfg
       = Py.or_else (arg_hc_domain args)
           (default DEFAULT_HC_BASE_DOMAIN (environ w1 !! "HC_BASE_DOMAIN"))
    /\ cfg_ping_domain cfg
       = Py.or_else (arg_hc_ping_domain args)
           (default DEFAULT_HC_PING_DOMAIN (environ w1 !! "HC_PING_DOMAIN"))
    /\ cfg_rw_api_key cfg
       = Py.or_else (arg_hc_rw_key args)
           (default DEFAULT_HC_RW_API_KEY (environ w1 !! "HC_RW_API_KEY"))
    /\ cfg_ping_key cfg
       = Py.or_else (arg_hc_ping_key args)
           (default DEFAULT_HC_PING_KEY (environ w1 !! "HC_PING_KEY")).
Proof.
  unfold resolve_config.
  destruct (load_env_file_frame h ENV_FILE w) as (w1 & found & Hrun1 & _).
  exists w1, found. rewrite (bind_Return _ _ _ _ _ Hrun1).
  unfold environ_get. rewrite !bind_gets.
  destruct (Py.nonempty (arg_env_file args)
            && negb (String.eqb (arg_env_file args) ENV_FILE)).
  - destruct (load_env_file_frame h (arg_env_file args) w1)
      as (w2 & found2 & Hrun2 & _).
    rewrite (bind_Return _ _ _ _ _ Hrun2).
    eexists _, _. split; [exact Hrun1|]. split; [reflexivity|]. by repeat split.
  - rewrite bind_ret.
    eexists _, _. split; [exact Hrun1|]. split; [reflexivity|]. by repeat split.
Qed.

Example config_file_over_default :
  cfg_ping_key <$> (match snd (resolve_config Sample.host0 Sample.args_plain
                                 Sample.world_default_file) with
                    | Return cfg => Some cfg
                    | _ => None
                    end)
  = Some "filekey".
Proof. vm_compute. reflexivity. Qed.

Example config_cli_over_file :
  cfg_ping_key <$> (match snd (resolve_config Sample.host0 Sample.args_ping_key
                                 Sample.world_default_file) with
                    | Return cfg => Some cfg
                    | _ => None
                    end)
  = Some "clikey".
Proof. vm_compute. reflexivity. Qed.

(** ** Phase [backup-abort] *)

(** C7: in phase [backup-abort] the run issues three requests, in this
    order: a ["fail"] ping to the guest check, a ["log"] ping to the host
    check, and a lookup of the guest check; the dashboard URL it derives
    from the lookup is appended to the pending error log and is the last
    line printed.  The host is assumed to have [jq], a ping key, a service
    that takes the pings and answers the lookup with a check, and a
    writable error log. *)
Theorem backup_abort_operations
    (h : host) (g : globals) (w : world)
    (final : string) (data : json) (ping_url : string) :
  let body := PHASE g ++ ": " ++ VMID g ++ "-" ++ VMTYPE g in
  let record := abort_record g (dashboard_of_ping_url ping_url) in
  PHASE g = "backup-abort" ->
  jq_available h = true ->
  Py.nonempty (HC_PING_KEY g) = true ->
  accepts h (guest_ping g "fail" body) = true ->
  accepts h (host_ping g "log" body) = true ->
  http h (guest_lookup g) = Reply None final (inr data) ->
  response_ping_url data = Some ping_url ->
  appendable h w (ERRLOG g) = true ->
  exists w',
    main h g w = (w', Return tt)
    /\ sent w'
       = (sent w ++ [guest_ping g "fail" body; host_ping g "log" body;
                     guest_lookup g])%list
    /\ files w' = appended h (ERRLOG g) (record ++ Py.newline) (files w)
    /\ last (stdout w') = Some record.
Proof.
  cbv zeta. intros Hphase Hjq Hpk Hguest Hhost Hlookup Hurl Happ.
  destruct (main_dispatches h g w Hjq) as [lines ->].
  assert (Hd : dispatch h g = phase_backup_abort h g)
    by (unfold dispatch; rewrite Hphase; reflexivity).
  rewrite Hd. clear Hd. unfold phase_backup_abort.
  rewrite bind_info.
  set (w1 := add_stdout _ (emit lines w)).
  destruct (hc_ping_data_accepted h g (HC_VM_SLUG_PREFIX g) "fail"
              (PHASE g ++ ": " ++ HC_VM_SLUG_PREFIX g) w1) as [final1 Hping1].
  { apply main_ping_args_valid; auto using guest_slug_prefix_nonempty. }
  { exact Hguest. }
  rewrite (bind_Return _ _ _ _ _ Hping1). rewrite bind_info.
  set (w2 := add_stdout _ _).
  destruct (hc_ping_data_accepted h g HC_HOST_SLUG_PREFIX "log"
              (PHASE g ++ ": " ++ HC_VM_SLUG_PREFIX g) w2) as [final2 Hping2].
  { apply main_ping_args_valid; auto. }
  { exact Hhost. }
  rewrite (bind_Return _ _ _ _ _ Hping2).
  set (w3 := add_sent _ _).
  rewrite (bind_Return _ _ _ _ _
             (get_dashboard_url_found h g (HC_VM_SLUG_PREFIX g) (HC_RW_API_KEY g)
                (HC_BASE_DOMAIN g) w3 final data ping_url Hlookup Hurl)).
  set (w4 := add_sent _ w3).
  rewrite (bind_Return _ _ _ _ _
             (append_text_appendable h (ERRLOG g)
                (abort_record g (dashboard_of_ping_url ping_url) ++ Py.newline)
                w4 Happ)).
  eexists. split; [reflexivity|]. split; [|split].
  - cbn. by rewrite <- !app_assoc.
  - reflexivity.
  - cbn. apply last_snoc.
Qed.

Lemma backup_abort_operations_witness :
  exists w',
    main Sample.host0 (Sample.globals_for "backup-abort") Sample.world0
    = (w', Return tt)
    /\ sent w'
       = [HttpPostData
            "https://hc.example.org/ping/ping-key-0123/101-qemu__pve1-prod-example-org/fail"
            "backup-abort: 101-qemu";
          HttpPostData
            "https://hc.example.org/ping/ping-key-0123/job__pve1-prod-example-org/log"
            "backup-abort: 101-qemu";
          HttpGet
            "https://hc.example.org/api/v3/checks/?slug=101-qemu__pve1-prod-example-org"
            "rw-key-0123456789"]
    /\ last (stdout w')
       = Some "task UPID:pve1:0001 - 101 - Backup Abort - https://hc.example.org/checks/1234/details".
Proof.
  destruct (backup_abort_operations Sample.host0 (Sample.globals_for "backup-abort")
              Sample.world0 "https://hc.example.org/done" Sample.lookup_document
              "https://hc.example.org/ping/1234"
              eq_refl eq_refl eq_refl eq_refl eq_refl eq_refl eq_refl eq_refl)
    as (w' & Hmain & Hsent & _ & Hout).
  exists w'. split; [exact Hmain|]. split.
  - rewrite Hsent. reflexivity.
  - rewrite Hout. reflexivity.
Defined.

(** ** Guest phases *)

Lemma accepts_json_accepts h r : accepts_json h r = true -> accepts h r = true.
Proof.
  unfold accepts_json, accepts.
  by destruct (http h r) as [e|[msg|] final [err|doc]].
Qed.

Lemma add_tag_returns h g key value w :
  Py.nonempty key = true ->
  exists tag, add_tag h g key value w = (w, Return tag).
Proof.
  intros Hk. unfold add_tag. rewrite Hk. cbn [negb].
  destruct (negb (Py.nonempty value)); [eauto|].
  destruct (Py.nonempty (Py.strip value)); eauto.
Qed.

Lemma add_tag_from_cmd_returns h g key cmd rest out w :
  Py.nonempty (Py.replace " " "_" key) = true ->
  which h cmd = true ->
  run h (cmd :: rest) = inr out ->
  exists tag, add_tag_from_cmd h g key cmd rest w = (w, Return tag).
Proof.
  intros Hk Hwhich Hrun. unfold add_tag_from_cmd. rewrite Hwhich. cbn [negb].
  unfold try_except, run_argv. rewrite Hrun, bind_ret.
  destruct (add_tag_returns h g _ (Py.strip out) w Hk) as [tag ->]. eauto.
Qed.

Lemma read_description_returns h cmd dflt w :
  exists description, read_description h cmd dflt w = (w, Return description).
Proof.
  unfold read_description, try_except, run_shell, bind.
  destruct (shell h cmd) as [e|c]; simpl; eauto.
Qed.

Lemma timezone_returns h w :
  exists tz,
    try_except
      (let* tz_result :=
         run_shell_checked h "timedatectl show --property Timezone | cut -d '=' -f2" in
       ret (Py.strip (proc_stdout tz_result)))
      any_exception
      (fun _ => ret "UTC") w
    = (w, Return tz).
Proof.
  unfold try_except, run_shell_checked, run_shell, bind.
  destruct (shell h _) as [e|c]; simpl; [eauto|].
  destruct (returncode c =? 0); simpl; eauto.
Qed.

(** An upsert the service takes: one line printed, one request sent, with
    the name as given and the slug built from the slug prefix. *)
Lemma hc_create_accepted h g name sp grace description tags channels timeout
      apikey url w :
  Py.nonempty name = true ->
  Py.nonempty sp = true ->
  Py.nonempty apikey = true ->
  (forall r, accepts_json h r = true) ->
  exists payload,
    hc_create h g name sp grace description tags channels timeout apikey url w
    = (add_sent (HttpPostJson (url ++ "/api/v3/checks/") apikey payload)
         (add_stdout ("MESG: 'hc_create:380' Creating/Updating check "
                      ++ slugify sp (HC_SLUG_SUFFIX g)) w),
       Return tt)
    /\ p_name payload = name
    /\ p_slug payload = slugify sp (HC_SLUG_SUFFIX g).
Proof.
  intros Hname Hsp Hkey Hacc. unfold hc_create.
  rewrite Hname, Hsp, Hkey. cbn [negb]. rewrite !bind_when_false.
  destruct (timezone_returns h w) as [tz Htz].
  rewrite (bind_Return _ _ _ _ _ Htz). rewrite bind_info.
  eexists. split.
  - unfold try_except, request. unfold bind at 1.
    match goal with |- context [http h ?r] => specialize (Hacc r) end.
    unfold accepts_json in Hacc.
    destruct (http h _) as [e|[msg|] final [err|doc]]; try done.
  - split; reflexivity.
Qed.

(** The composite name of a guest check is never its slug prefix: it is
    at least three characters longer. *)
Lemma composite_name_is_not_slug_prefix node domain vmtype vmid hostname :
  node ++ "." ++ domain ++ "." ++ vmtype ++ "." ++ vmid ++ "." ++ hostname
  <> vmid ++ "-" ++ vmtype.
Proof.
  intros Heq. apply (f_equal String.length) in Heq.
  rewrite !length_app in Heq. simpl in Heq. lia.
Qed.

Lemma append_text_sent h path text w :
  sent (fst (append_text h path text w)) = sent w.
Proof.
  unfold append_text.
  destruct (files w !! path) as [[|r [] data]|]; try done.
  by destruct (creatable h path).
Qed.

(** The lookup request goes out whatever the answer is. *)
Lemma get_dashboard_url_sent h g slug apikey base_url w :
  sent (fst (get_dashboard_url h g slug apikey base_url w))
  = (sent w ++ [HttpGet (base_url ++ "/api/v3/checks/?slug="
                         ++ slugify slug (HC_SLUG_SUFFIX g)) apikey])%list.
Proof.
  unfold get_dashboard_url, try_except.
  set (req := HttpGet _ _).
  set (body := bind (request h req) _).
  assert (Hbody : sent (fst (body w)) = (sent w ++ [req])%list
                  /\ forall code, snd (body w) <> Exit code).
  { unfold body, request, bind, raise_for_status, response_json, subscript_key,
      subscript_zero, ret, raise.
    repeat
      (simpl;
       match goal with
       | |- context [match ?x with _ => _ end] => is_var x; destruct x
       | |- context [json_member ?k ?m] => destruct (json_member k m)
       | |- context [http h req] => destruct (http h req)
       | |- _ /\ _ => by split
       end). }
  destruct Hbody as [Hsent Hexit].
  destruct (body w) as [w1 [u|code|e]]; simpl in *.
  - exact Hsent.
  - by destruct (Hexit code).
  - destruct (error_fatal (A:=string) h (ERRLOG g) "Get Dashboard URL" (exn_msg e) w1)
      as (_ & _ & _ & -> & _).
    exact Hsent.
Qed.

Lemma guest_log_sent h g w :
  In (PHASE g) ["pre-stop"; "pre-restart"; "post-restart"] ->
  jq_available h = true ->
  Py.nonempty (HC_PING_KEY g) = true ->
  (forall r, accepts_json h r = true) ->
  let body := PHASE g ++ ": " ++ VMID g ++ "-" ++ VMTYPE g in
  sent (fst (main h g w))
  = (sent w ++ [guest_ping g "log" body; host_ping g "log" body])%list.
Proof.
  intros Hphase Hjq Hpk Hacc. cbv zeta.
  destruct (main_dispatches h g w Hjq) as [lines ->].
  assert (Hd : dispatch h g = phase_guest_log h g).
  { unfold dispatch. cbn in Hphase.
    destruct Hphase as [<-|[<-|[<-|[]]]]; reflexivity. }
  rewrite Hd. clear Hd. unfold phase_guest_log.
  rewrite bind_info.
  set (w1 := add_stdout _ (emit lines w)).
  destruct (hc_ping_data_accepted h g (HC_VM_SLUG_PREFIX g) "log"
              (PHASE g ++ ": " ++ HC_VM_SLUG_PREFIX g) w1) as [final1 Hping1].
  { apply main_ping_args_valid; auto using guest_slug_prefix_nonempty. }
  { apply accepts_json_accepts, Hacc. }
  rewrite (bind_Return _ _ _ _ _ Hping1). rewrite bind_info.
  set (w2 := add_stdout _ _).
  destruct (hc_ping_data_accepted h g HC_HOST_SLUG_PREFIX "log"
              (PHASE g ++ ": " ++ HC_VM_SLUG_PREFIX g) w2) as [final2 Hping2].
  { apply main_ping_args_valid; auto. }
  { apply accepts_json_accepts, Hacc. }
  rewrite (bind_Return _ _ _ _ _ Hping2).
  cbn. by rewrite <- !app_assoc.
Qed.

Lemma backup_end_sent h g w :
  PHASE g = "backup-end" ->
  jq_available h = true ->
  Py.nonempty (HC_PING_KEY g) = true ->
  (forall r, accepts_json h r = true) ->
  let body := PHASE g ++ ": " ++ VMID g ++ "-" ++ VMTYPE g in
  sent (fst (main h g w))
  = (sent w ++ [guest_ping g "" body; host_ping g "log" body])%list.
Proof.
  intros Hphase Hjq Hpk Hacc. cbv zeta.
  destruct (main_dispatches h g w Hjq) as [lines ->].
  assert (Hd : dispatch h g = phase_backup_end h g)
    by (unfold dispatch; rewrite Hphase; reflexivity).
  rewrite Hd. clear Hd. unfold phase_backup_end.
  rewrite bind_info.
  set (w1 := add_stdout _ (emit lines w)).
  destruct (hc_ping_data_accepted h g (HC_VM_SLUG_PREFIX g) ""
              (PHASE g ++ ": " ++ HC_VM_SLUG_PREFIX g) w1) as [final1 Hping1].
  { apply main_ping_args_valid; auto using guest_slug_prefix_nonempty. }
  { apply accepts_json_accepts, Hacc. }
  rewrite (bind_Return _ _ _ _ _ Hping1). rewrite bind_info.
  set (w2 := add_stdout _ _).
  destruct (hc_ping_data_accepted h g HC_HOST_SLUG_PREFIX "log"
              (PHASE g ++ ": " ++ HC_VM_SLUG_PREFIX g) w2) as [final2 Hping2].
  { apply main_ping_args_valid; auto. }
  { apply accepts_json_accepts, Hacc. }
  rewrite (bind_Return _ _ _ _ _ Hping2).
  cbn. by rewrite <- !app_assoc.
Qed.

Lemma backup_abort_sent h g w :
  PHASE g = "backup-abort" ->
  jq_available h = true ->
  Py.nonempty (HC_PING_KEY g) = true ->
  (forall r, accepts_json h r = true) ->
  let body := PHASE g ++ ": " ++ VMID g ++ "-" ++ VMTYPE g in
  sent (fst (main h g w))
  = (sent w ++ [guest_ping g "fail" body; host_ping g "log" body;
                guest_lookup g])%list.
Proof.
  intros Hphase Hjq Hpk Hacc. cbv zeta.
  destruct (main_dispatches h g w Hjq) as [lines ->].
  assert (Hd : dispatch h g = phase_backup_abort h g)
    by (unfold dispatch; rewrite Hphase; reflexivity).
  rewrite Hd. clear Hd. unfold phase_backup_abort.
  rewrite bind_info.
  set (w1 := add_stdout _ (emit lines w)).
  destruct (hc_ping_data_accepted h g (HC_VM_SLUG_PREFIX g) "fail"
              (PHASE g ++ ": " ++ HC_VM_SLUG_PREFIX g) w1) as [final1 Hping1].
  { apply main_ping_args_valid; auto using guest_slug_prefix_nonempty. }
  { apply accepts_json_accepts, Hacc. }
  rewrite (bind_Return _ _ _ _ _ Hping1). rewrite bind_info.
  set (w2 := add_stdout _ _).
  destruct (hc_ping_data_accepted h g HC_HOST_SLUG_PREFIX "log"
              (PHASE g ++ ": " ++ HC_VM_SLUG_PREFIX g) w2) as [final2 Hping2].
  { apply main_ping_args_valid; auto. }
  { apply accepts_json_accepts, Hacc. }
  rewrite (bind_Return _ _ _ _ _ Hping2).
  set (w3 := add_sent _ _).
  pose proof (get_dashboard_url_sent h g (HC_VM_SLUG_PREFIX g) (HC_RW_API_KEY g)
                (HC_BASE_DOMAIN g) w3) as Hget.
  unfold bind at 1.
  destruct (get_dashboard_url h g (HC_VM_SLUG_PREFIX g) (HC_RW_API_KEY g)
              (HC_BASE_DOMAIN g) w3) as [w4 [url|code|e]]; cbn [fst] in Hget.
  - pose proof (append_text_sent h (ERRLOG g) (abort_record g url ++ Py.newline) w4)
      as Happ.
    unfold bind, print, modify.
    destruct (append_text h (ERRLOG g) _ w4) as [w5 [[]|code|e]];
      cbn [fst] in Happ |- *; cbn [sent add_stdout];
      rewrite ?Happ, Hget; cbn; by rewrite <- !app_assoc.
  - cbn [fst]. rewrite Hget. cbn. by rewrite <- !app_assoc.
  - cbn [fst]. rewrite Hget. cbn. by rewrite <- !app_assoc.
Qed.

Lemma log_end_sent h g w result :
  PHASE g = "log-end" ->
  jq_available h = true ->
  Py.nonempty (HC_PING_KEY g) = true ->
  (forall r, accepts_json h r = true) ->
  shell h ("grep -v 'MESG' " ++ LOGFILE g ++ " | grep -v 'OKhttp'") = inr result ->
  sent (fst (main h g w))
  = (sent w ++ [guest_ping g "log" (proc_stdout result)])%list.
Proof.
  intros Hphase Hjq Hpk Hacc Hshell.
  destruct (main_dispatches h g w Hjq) as [lines ->].
  assert (Hd : dispatch h g = phase_log_end h g)
    by (unfold dispatch; rewrite Hphase; reflexivity).
  rewrite Hd. clear Hd. unfold phase_log_end.
  rewrite !bind_info.
  set (w1 := add_stdout _ _).
  unfold try_except, run_shell. rewrite Hshell, bind_ret.
  destruct (hc_ping_data_accepted h g (HC_VM_SLUG_PREFIX g) "log"
              (proc_stdout result) w1) as [final1 Hping1].
  { apply main_ping_args_valid; auto using guest_slug_prefix_nonempty. }
  { apply accepts_json_accepts, Hacc. }
  rewrite (bind_Return _ _ _ _ _ Hping1).
  reflexivity.
Qed.

Lemma nonempty_app_cons a c b : Py.nonempty (a ++ String c b) = true.
Proof. by destruct a. Qed.

Lemma backup_start_sent h g w out domain_result :
  PHASE g = "backup-start" ->
  jq_available h = true ->
  Py.nonempty (HC_PING_KEY g) = true ->
  Py.nonempty (HC_RW_API_KEY g) = true ->
  (forall r, accepts_json h r = true) ->
  which h "hostname" = true ->
  run h ["hostname"] = inr out ->
  shell h "hostname --domain" = inr domain_result ->
  exists payload,
    sent (fst (main h g w))
    = (sent w ++ [HttpPostJson (HC_BASE_DOMAIN g ++ "/api/v3/checks/")
                               (HC_RW_API_KEY g) payload;
                  guest_ping g "start" "";
                  host_ping g "log" (PHASE g ++ ": " ++ VMID g ++ "-" ++ VMTYPE g)])%list
    /\ p_slug payload = slugify (VMID g ++ "-" ++ VMTYPE g) (HC_SLUG_SUFFIX g)
    /\ p_name payload
       = NODE g ++ "." ++ Py.strip (proc_stdout domain_result) ++ "." ++ VMTYPE g
         ++ "." ++ VMID g ++ "." ++ default "unknown" (environ w !! "HOSTNAME").
Proof.
  intros Hphase Hjq Hpk Hrw Hacc Hwhich Hrun Hshell.
  destruct (main_dispatches h g w Hjq) as [lines ->].
  assert (Hd : dispatch h g = phase_backup_start h g)
    by (unfold dispatch; rewrite Hphase; reflexivity).
  rewrite Hd. clear Hd. unfold phase_backup_start, environ_get.
  set (w0 := emit lines w).
  destruct (add_tag_returns h g "cluster" (CLUSTER g) w0 eq_refl) as [t1 H1].
  rewrite (bind_Return _ _ _ _ _ H1).
  destruct (add_tag_from_cmd_returns h g "node" "hostname" [] out w0
              eq_refl Hwhich Hrun) as [t2 H2].
  rewrite (bind_Return _ _ _ _ _ H2).
  destruct (add_tag_returns h g "storage" (STORAGE g) w0 eq_refl) as [t3 H3].
  rewrite (bind_Return _ _ _ _ _ H3).
  destruct (add_tag_returns h g "mode" (MODE g) w0 eq_refl) as [t4 H4].
  rewrite (bind_Return _ _ _ _ _ H4).
  destruct (add_tag_returns h g "vmid" (VMID g) w0 eq_refl) as [t5 H5].
  rewrite (bind_Return _ _ _ _ _ H5).
  rewrite bind_gets.
  destruct (add_tag_returns h g "hostname"
              (default "" (environ w0 !! "HOSTNAME")) w0 eq_refl) as [t6 H6].
  rewrite (bind_Return _ _ _ _ _ H6).
  rewrite bind_gets.
  destruct (add_tag_returns h g "type"
              (default "" (environ w0 !! "HOSTTYPE")) w0 eq_refl) as [t7 H7].
  rewrite (bind_Return _ _ _ _ _ H7).
  destruct (add_tag_returns h g "vmtype" (VMTYPE g) w0 eq_refl) as [t8 H8].
  rewrite (bind_Return _ _ _ _ _ H8).
  assert (Hdesc : exists description,
             (if String.eqb (VMTYPE g) "qemu"
              then read_description h
                     ("grep '^#' /etc/pve/local/qemu-server/" ++ VMID g
                      ++ ".conf | sed 's/^#//'") ""
              else if String.eqb (VMTYPE g) "lxc"
              then read_description h
                     ("grep '^#' /etc/pve/local/lxc/" ++ VMID g
                      ++ ".conf | sed 's/^#//'") ""
              else ret "") w0 = (w0, Return description)).
  { destruct (String.eqb (VMTYPE g) "qemu"); [apply read_description_returns|].
    destruct (String.eqb (VMTYPE g) "lxc"); [apply read_description_returns|].
    by exists "". }
  destruct Hdesc as [description Hdesc].
  rewrite (bind_Return _ _ _ _ _ Hdesc).
  rewrite bind_gets, bind_info.
  set (w1 := add_stdout _ w0).
  unfold run_shell. rewrite Hshell, bind_ret, bind_gets.
  destruct (hc_create_accepted h g
              (NODE g ++ "." ++ Py.strip (proc_stdout domain_result) ++ "."
               ++ VMTYPE g ++ "." ++ VMID g ++ "."
               ++ default "unknown" (environ w1 !! "HOSTNAME"))
              (HC_VM_SLUG_PREFIX g) 3600 description
              (collect_tags [t1; t2; t3; t4; t5; t6; t7; t8]) "*" 86400
              (HC_RW_API_KEY g) (HC_BASE_DOMAIN g) w1)
    as (payload & Hcreate & Hname & Hslug);
    [apply nonempty_app_cons | apply guest_slug_prefix_nonempty | exact Hrw
    | exact Hacc | ].
  rewrite (bind_Return _ _ _ _ _ Hcreate). rewrite bind_info.
  set (w2 := add_stdout _ _).
  destruct (hc_ping_data_accepted h g (HC_VM_SLUG_PREFIX g) "start" "" w2)
    as [final1 Hping1].
  { apply main_ping_args_valid; auto using guest_slug_prefix_nonempty. }
  { apply accepts_json_accepts, Hacc. }
  rewrite (bind_Return _ _ _ _ _ Hping1). rewrite bind_info.
  set (w3 := add_stdout _ _).
  destruct (hc_ping_data_accepted h g HC_HOST_SLUG_PREFIX "log"
              (PHASE g ++ ": " ++ HC_VM_SLUG_PREFIX g) w3) as [final2 Hping2].
  { apply main_ping_args_valid; auto. }
  { apply accepts_json_accepts, Hacc. }
  rewrite (bind_Return _ _ _ _ _ Hping2).
  exists payload. split; [|split].
  - cbn. by rewrite <- !app_assoc.
  - exact Hslug.
  - exact Hname.
Qed.

(** The module body binds [VMID] to the third argument and [VMTYPE] to the
    environment variable of that name, or to ["unknown"] without one. *)
Lemma module_init_guest h args id w w' g :
  module_init h args id w = (w', Return g) ->
  VMID g = arg_vmid args
  /\ VMTYPE g = default "unknown" (environ w' !! "VMTYPE").
Proof.
  unfold module_init, environ_get. intros Hrun.
  destruct (resolve_config_frame h args w) as (w1 & cfg & Hcfg & _).
  rewrite (bind_Return _ _ _ _ _ Hcfg) in Hrun.
  unfold print in Hrun. rewrite bind_modify in Hrun.
  set (w2 := add_stdout _ w1) in Hrun.
  destruct (get_domain_returns h w2) as [domain Hdom].
  rewrite (bind_Return _ _ _ _ _ Hdom) in Hrun.
  destruct (Py.nonempty (arg_phase args)); cbn [negb when] in Hrun.
  - rewrite bind_ret, !bind_gets in Hrun.
    injection Hrun as <- <-. by split.
  - rewrite bind_error in Hrun.
    destruct (error_fatal (A:=globals) h (id_errlog id) "Arguments"
                "Phase not provided" w2) as (Hstop & _).
    rewrite Hrun in Hstop. discriminate Hstop.
Qed.

(** C10: every phase that contacts the guest check addresses it by the
    slug prefix [VMID ++ "-" ++ VMTYPE]: the upsert and the ["start"] ping
    of [backup-start], the ["log"] pings of [pre-stop], [pre-restart],
    [post-restart] and [log-end], the success ping of [backup-end], the
    ["fail"] ping and the lookup of [backup-abort].  [VMID] is the third
    argument and [VMTYPE] the environment variable of that name, or
    ["unknown"] without one.  The composite name given at the creation of
    the guest check differs from the slug prefix.  The host is assumed to
    have [jq] and both keys, and the service to take every request. *)
Theorem guest_checks_use_vmid_vmtype (h : host) (g : globals) (w : world) :
  jq_available h = true ->
  Py.nonempty (HC_PING_KEY g) = true ->
  Py.nonempty (HC_RW_API_KEY g) = true ->
  (forall r, accepts_json h r = true) ->
  let prefix := VMID g ++ "-" ++ VMTYPE g in
  let body := PHASE g ++ ": " ++ prefix in
  HC_VM_SLUG_PREFIX g = prefix
  /\ (PHASE g = "backup-start" ->
      forall out domain_result,
        which h "hostname" = true ->
        run h ["hostname"] = inr out ->
        shell h "hostname --domain" = inr domain_result ->
        exists payload,
          sent (fst (main h g w))
          = (sent w ++ [HttpPostJson (HC_BASE_DOMAIN g ++ "/api/v3/checks/")
                                     (HC_RW_API_KEY g) payload;
                        guest_ping g "start" "";
                        host_ping g "log" body])%list
          /\ p_slug payload = slugify prefix (HC_SLUG_SUFFIX g)
          /\ p_name payload <> prefix)
  /\ (In (PHASE g) ["pre-stop"; "pre-restart"; "post-restart"] ->
      sent (fst (main h g w))
      = (sent w ++ [guest_ping g "log" body; host_ping g "log" body])%list)
  /\ (PHASE g = "backup-end" ->
      sent (fst (main h g w))
      = (sent w ++ [guest_ping g "" body; host_ping g "log" body])%list)
  /\ (PHASE g = "backup-abort" ->
      sent (fst (main h g w))
      = (sent w ++ [guest_ping g "fail" body; host_ping g "log" body;
                    guest_lookup g])%list)
  /\ (PHASE g = "log-end" ->
      forall result,
        shell h ("grep -v 'MESG' " ++ LOGFILE g ++ " | grep -v 'OKhttp'")
        = inr result ->
        sent (fst (main h g w))
        = (sent w ++ [guest_ping g "log" (proc_stdout result)])%list)
  /\ (forall args id w0 w1 g0,
         module_init h args id w0 = (w1, Return g0) ->
         HC_VM_SLUG_PREFIX g0
         = arg_vmid args ++ "-" ++ default "unknown" (environ w1 !! "VMTYPE"))
  /\ (forall node domain hostname,
         node ++ "." ++ domain ++ "." ++ VMTYPE g ++ "." ++ VMID g ++ "."
         ++ hostname
         <> prefix).
Proof.
  intros Hjq Hpk Hrw Hacc. cbv zeta.
  split; [reflexivity|].
  split.
  { intros Hphase out domain_result Hwhich Hrun Hshell.
    destruct (backup_start_sent h g w out domain_result
                Hphase Hjq Hpk Hrw Hacc Hwhich Hrun Hshell)
      as (payload & Hsent & Hslug & Hname).
    exists payload. split; [exact Hsent|]. split; [exact Hslug|].
    rewrite Hname. apply composite_name_is_not_slug_prefix. }
  split; [intros Hphase; by apply guest_log_sent|].
  split; [intros Hphase; by apply backup_end_sent|].
  split; [intros Hphase; by apply backup_abort_sent|].
  split; [intros Hphase result Hshell; by apply log_end_sent|].
  split.
  { intros args id w0 w1 g0 Hinit.
    destruct (module_init_guest h args id w0 w1 g0 Hinit) as [Hvmid Hvmtype].
    unfold HC_VM_SLUG_PREFIX. by rewrite Hvmid, Hvmtype. }
  intros node domain hostname. apply composite_name_is_not_slug_prefix.
Qed.

Lemma guest_checks_use_vmid_vmtype_witness :
  sent (fst (main Sample.host0 (Sample.globals_for "pre-stop") Sample.world0))
  = [HttpPostData
       "https://hc.example.org/ping/ping-key-0123/101-qemu__pve1-prod-example-org/log"
       "pre-stop: 101-qemu";
     HttpPostData
       "https://hc.example.org/ping/ping-key-0123/job__pve1-prod-example-org/log"
       "pre-stop: 101-qemu"]
  /\ exists payload,
      sent (fst (main Sample.host0 (Sample.globals_for "backup-start")
                      Sample.world0))
      = [HttpPostJson "https://hc.example.org/api/v3/checks/" "rw-key-0123456789"
                      payload;
         HttpPostData
           "https://hc.example.org/ping/ping-key-0123/101-qemu__pve1-prod-example-org/start"
           "";
         HttpPostData
           "https://hc.example.org/ping/ping-key-0123/job__pve1-prod-example-org/log"
           "backup-start: 101-qemu"]
      /\ p_slug payload = "101-qemu__pve1-prod-example-org".
Proof.
  split.
  - destruct (guest_checks_use_vmid_vmtype Sample.host0
                (Sample.globals_for "pre-stop") Sample.world0
                eq_refl eq_refl eq_refl (fun _ => eq_refl))
      as (_ & _ & Hlog & _).
    rewrite Hlog; [reflexivity | cbn; tauto].
  - destruct (guest_checks_use_vmid_vmtype Sample.host0
                (Sample.globals_for "backup-start") Sample.world0
                eq_refl eq_refl eq_refl (fun _ => eq_refl))
      as (_ & Hstart & _).
    destruct (Hstart eq_refl "x86_64" (Completed 0 "example.org" "")
                eq_refl eq_refl eq_refl)
      as (payload & Hsent & Hslug & _).
    exists payload. split.
    + rewrite Hsent. reflexivity.
    + rewrite Hslug. reflexivity.
Defined.

(** * Further properties of the script *)

(** ** [error] *)

(** [error] never returns.  It writes its message to standard error,
    prints nothing and sends nothing; when the pending error log can be
    opened for appending, the message and a line end are appended to it and
    the process exits with code 666; when it cannot, the exception of
    [open] leaves the function instead and the files are untouched. *)
Theorem error_exits_or_raises (A : Type) (h : host) (errlog task msg : string)
    (w : world) :
  let r := error (A:=A) h errlog task msg w in
  stopped (snd r) = true
  /\ stderr (fst r) = (stderr w ++ [error_message task msg 666])%list
  /\ stdout (fst r) = stdout w
  /\ sent (fst r) = sent w
  /\ (appendable h w errlog = true ->
      snd r = Exit 666
      /\ files (fst r)
         = appended h errlog (error_message task msg 666 ++ Py.newline) (files w))
  /\ (appendable h w errlog = false ->
      (exists e, snd r = Raise e) /\ files (fst r) = files w).
Proof.
  cbv zeta.
  destruct (error_fatal (A:=A) h errlog task msg w)
    as (Hstop & Herr & Hout & Hsent & _ & Hlog).
  split; [exact Hstop|]. split; [exact Herr|]. split; [exact Hout|].
  split; [exact Hsent|]. split; [exact Hlog|].
  intros Hno. unfold error, print_err. rewrite bind_modify.
  destruct (append_text_not_appendable h errlog
              (error_message task msg DEFAULT_ERROR_CODE ++ Py.newline)
              (add_stderr (error_message task msg DEFAULT_ERROR_CODE) w) Hno)
    as [e He].
  unfold bind. rewrite He. split; [by exists e | reflexivity].
Qed.

Lemma string_app_assoc (a b c : string) : (a ++ b) ++ c = a ++ (b ++ c).
Proof.
  induction a as [|x a IH]; [done|].
  change (String x ((a ++ b) ++ c) = String x (a ++ (b ++ c))). by rewrite IH.
Qed.

(** ** Environment files *)

Lemma split_once_app (sep : ascii) key raw :
  Py.mem sep key = false ->
  Py.split_once sep (key ++ String sep raw) = Some (key, raw).
Proof.
  induction key as [|c key IH].
  - intros _. change (String.append "" (String sep raw)) with (String sep raw).
    cbn [Py.split_once]. by rewrite Ascii.eqb_refl.
  - cbn [Py.mem]. intros [Hc Hkey]%orb_false_elim.
    change (String c key ++ String sep raw) with (String c (key ++ String sep raw)).
    cbn [Py.split_once]. rewrite Ascii.eqb_sym, Hc. by rewrite (IH Hkey).
Qed.

Lemma split_once_absent (sep : ascii) s :
  Py.mem sep s = false -> Py.split_once sep s = None.
Proof.
  induction s as [|c s IH]; [done|].
  cbn [Py.mem Py.split_once]. intros [Hc Hs]%orb_false_elim.
  rewrite Ascii.eqb_sym, Hc. by rewrite (IH Hs).
Qed.

(** A line of an environment file.  Blank lines and lines whose first
    character after the leading whitespace is a hash change nothing, and
    neither does a line without an equals sign.  A line [key=raw] binds the
    variable [key] to [raw] without the quote characters at its two ends,
    and leaves every other variable as it was. *)
Theorem load_env_line_meaning (line : string) (w : world) :
  (Py.strip line = "" \/ String.prefix "#" (Py.strip line) = true ->
   load_env_line line w = (w, Return tt))
  /\ (Py.mem "=" (Py.strip line) = false ->
      load_env_line line w = (w, Return tt))
  /\ (forall key raw,
         Py.strip line = key ++ "=" ++ raw ->
         Py.mem "=" key = false ->
         String.prefix "#" key = false ->
         putenv_ok key (Py.strip_chars ("'" ++ Py.dquote) raw) = true ->
         exists w',
           load_env_line line w = (w', Return tt)
           /\ environ w' !! key = Some (Py.strip_chars ("'" ++ Py.dquote) raw)
           /\ (forall other, other <> key ->
                             environ w' !! other = environ w !! other)
           /\ files w' = files w /\ stdout w' = stdout w
           /\ stderr w' = stderr w /\ sent w' = sent w).
Proof.
  split; [|split].
  - intros [Hblank|Hcomment]; unfold load_env_line.
    + by rewrite Hblank.
    + rewrite Hcomment. by rewrite orb_true_r.
  - intros Hno. unfold load_env_line.
    destruct (negb _ || _); [done|]. by rewrite (split_once_absent _ _ Hno).
  - intros key raw Hline Hkey Hhash Hput. unfold load_env_line.
    rewrite Hline.
    assert (Hk : Py.nonempty key = true).
    { unfold putenv_ok in Hput. by destruct (Py.nonempty key). }
    destruct key as [|c key]; [discriminate Hk|].
    change (String c key ++ "=" ++ raw) with (String c (key ++ "=" ++ raw)).
    replace (String.prefix "#" (String c (key ++ "=" ++ raw))) with false.
    2:{ cbn [String.prefix] in Hhash |- *. destruct (ascii_dec "#" c); [|done].
        by rewrite prefix_empty in Hhash. }
    cbn [Py.nonempty negb orb].
    change (String c (key ++ "=" ++ raw)) with (String c key ++ String "=" raw).
    rewrite (split_once_app "=" (String c key) raw Hkey).
    unfold environ_set. rewrite Hput.
    eexists. split; [reflexivity|]. cbn.
    split; [apply lookup_insert_eq|].
    split; [|by repeat split].
    intros other Hother. by apply lookup_insert_ne.
Qed.

Lemma load_env_line_meaning_witness :
  exists w',
    load_env_line ("  HC_PING_KEY='abc'  " ++ Py.newline) Sample.world0
    = (w', Return tt)
    /\ environ w' !! "HC_PING_KEY" = Some "abc".
Proof.
  destruct (load_env_line_meaning ("  HC_PING_KEY='abc'  " ++ Py.newline)
              Sample.world0) as (_ & _ & Hassign).
  destruct (Hassign "HC_PING_KEY" "'abc'" eq_refl eq_refl eq_refl eq_refl)
    as (w' & Hrun & Hkey & _).
  exists w'. split; [exact Hrun | exact Hkey].
Defined.

(** Loading an environment file never stops the script: it returns
    whatever the file holds, touches neither the files nor standard output,
    and sends nothing.  A file that does not exist gives [False] and
    changes nothing at all. *)
Theorem load_env_file_never_fails (h : host) (path : string) (w : world) :
  (exists w' found,
      load_env_file h path w = (w', Return found)
      /\ files w' = files w /\ stdout w' = stdout w /\ sent w' = sent w)
  /\ (files w !! path = None -> load_env_file h path w = (w, Return false)).
Proof.
  split; [apply load_env_file_frame|].
  intros Hnone. unfold load_env_file.
  by rewrite (bind_Return _ _ _ _ _ (path_exists_none _ _ Hnone)).
Qed.

Lemma load_env_file_never_fails_witness :
  load_env_file Sample.host0 ENV_FILE Sample.world0 = (Sample.world0, Return false).
Proof.
  destruct (load_env_file_never_fails Sample.host0 ENV_FILE Sample.world0)
    as [_ Hmissing].
  apply Hmissing. apply lookup_empty.
Defined.

(** ** More on slugs *)

Lemma replace_char_cons (a : ascii) new c s :
  Py.replace (String a EmptyString) new (String c s)
  = (if Ascii.eqb c a then new else String c EmptyString)
    ++ Py.replace (String a EmptyString) new s.
Proof.
  unfold Py.replace. cbn [Py.nonempty Py.replace_from String.prefix String.length Nat.pred].
  destruct (ascii_dec a c) as [->|Hne].
  - by rewrite Ascii.eqb_refl, prefix_empty.
  - destruct (Ascii.eqb_spec c a) as [->|_]; [congruence | reflexivity].
Qed.

Lemma replace_char_app (a : ascii) new s1 s2 :
  Py.replace (String a EmptyString) new (s1 ++ s2)
  = Py.replace (String a EmptyString) new s1
    ++ Py.replace (String a EmptyString) new s2.
Proof.
  induction s1 as [|c s1 IH]; [reflexivity|].
  change (String c s1 ++ s2) with (String c (s1 ++ s2)).
  by rewrite !replace_char_cons, IH, string_app_assoc.
Qed.

Lemma map_length f s : String.length (Py.map f s) = String.length s.
Proof. induction s as [|c s IH]; simpl; [done | by rewrite IH]. Qed.

Lemma map_app f s1 s2 : Py.map f (s1 ++ s2) = Py.map f s1 ++ Py.map f s2.
Proof.
  induction s1 as [|c s1 IH]; [reflexivity|].
  change (String c s1 ++ s2) with (String c (s1 ++ s2)).
  cbn [Py.map]. rewrite IH. reflexivity.
Qed.

Lemma map_fixed f s :
  Py.forallb (fun c => Ascii.eqb (f c) c) s = true -> Py.map f s = s.
Proof.
  induction s as [|c s IH]; simpl; [done|].
  intros [Hc Hs]%andb_true_iff. apply Ascii.eqb_eq in Hc.
  by rewrite Hc, IH.
Qed.

Lemma forallb_app p s1 s2 :
  Py.forallb p (s1 ++ s2) = Py.forallb p s1 && Py.forallb p s2.
Proof.
  induction s1 as [|c s1 IH]; [reflexivity|].
  change (String c s1 ++ s2) with (String c (s1 ++ s2)).
  cbn [Py.forallb]. by rewrite IH, andb_assoc.
Qed.

Lemma forallb_map p f s :
  Py.forallb p (Py.map f s) = Py.forallb (fun c => p (f c)) s.
Proof. induction s as [|c s IH]; simpl; [done | by rewrite IH]. Qed.

Lemma replace_space_length s :
  String.length (Py.replace " " "__" s)
  = (String.length s + count_char " " s)%nat.
Proof.
  induction s as [|c s IH]; [reflexivity|].
  rewrite replace_char_cons, length_app, IH. cbn [String.length count_char].
  destruct (Ascii.eqb c " "); simpl; lia.
Qed.

(** A slug is never shorter than the text it is made from: it has one
    character per character of the text joined with the suffix, and one
    more for every space. *)
Theorem slugify_length (text suffix : string) :
  let joined := if Py.nonempty suffix then text ++ " " ++ suffix else text in
  String.length (slugify text suffix)
  = (String.length joined + count_char " " joined)%nat.
Proof.
  cbv zeta. unfold slugify, re_sub_non_slug.
  rewrite map_length, (replace_char_map "." "-"), map_length.
  apply replace_space_length.
Qed.

(** The slug of a text of slug characters with a non-empty suffix of slug
    characters and periods is the text, two underscores, and the suffix
    with a hyphen for every period. *)
Theorem slugify_joins_with_two_underscores (text suffix : string) :
  Py.forallb slug_char text = true ->
  Py.forallb (fun c => slug_char c || Ascii.eqb c ".") suffix = true ->
  Py.nonempty suffix = true ->
  slugify text suffix
  = text ++ "__"
    ++ Py.map (fun c => if Ascii.eqb c "." then "-"%char else c) suffix.
Proof.
  intros Htext Hsuffix Hne. unfold slugify. rewrite Hne.
  assert (Hsp_text : Py.replace " " "__" text = text).
  { apply replace_absent_char. eapply forallb_impl; [|exact Htext].
    apply (slug_char_not " "). reflexivity. }
  assert (Hsp_suffix : Py.replace " " "__" suffix = suffix).
  { apply replace_absent_char. eapply forallb_impl; [|exact Hsuffix].
    intros c Hc. destruct (Ascii.eqb_spec " " c) as [<-|]; [discriminate Hc|done]. }
  rewrite (replace_char_app " " "__" text (" " ++ suffix)).
  change (" " ++ suffix) with (String " " suffix).
  rewrite replace_char_cons, Hsp_text, Hsp_suffix.
  cbn [Ascii.eqb Bool.eqb].
  rewrite (replace_char_map "." "-"), !map_app.
  rewrite (map_fixed _ text).
  2:{ eapply forallb_impl; [|exact Htext]. intros c Hc.
      destruct (Ascii.eqb_spec c ".") as [->|]; [discriminate Hc|].
      apply Ascii.eqb_refl. }
  change (Py.map (fun c => if Ascii.eqb c "." then "-"%char else c) "__")
    with "__".
  apply re_sub_non_slug_id.
  rewrite !forallb_app, Htext, forallb_map. cbn [Py.forallb andb].
  change (slug_char "_") with true. cbn [andb].
  eapply forallb_impl; [|exact Hsuffix]. intros c Hc. cbn beta in *.
  destruct (Ascii.eqb c "."); [reflexivity|].
  by rewrite orb_false_r in Hc.
Qed.

Lemma slugify_joins_with_two_underscores_witness :
  slugify "job" "pve1.prod.example.org" = "job__pve1-prod-example-org".
Proof.
  apply (slugify_joins_with_two_underscores "job" "pve1.prod.example.org");
    reflexivity.
Defined.

(** ** Tags from files and commands *)

Lemma when_true_error_fatal {B} h errlog task msg (k : unit -> M B) w :
  fatal_error h errlog task msg w (bind (when true (error h errlog task msg)) k w).
Proof. unfold when. rewrite bind_error. apply error_fatal. Qed.

(** [add_tag_from_file] is a fatal error for a path that does not exist,
    for a directory and for a file that cannot be read, each with its own
    task name.  For a readable file it is [add_tag] on the stripped
    content, under the given key or, without one, under the file name;
    spaces of the key become underscores. *)
Theorem add_tag_from_file_checks (h : host) (g : globals)
    (filepath key : string) (w : world) :
  let r := add_tag_from_file h g filepath key w in
  (files w !! filepath = None ->
   fatal_error h (ERRLOG g) "Check file exists"
               ("File " ++ filepath ++ " not found") w r)
  /\ (files w !! filepath = Some Directory ->
      fatal_error h (ERRLOG g) "Check file type" (filepath ++ " is not a file") w r)
  /\ (forall writable data,
         files w !! filepath = Some (Regular false writable data) ->
         fatal_error h (ERRLOG g) "Check file permissions"
                     ("Cannot read " ++ filepath) w r)
  /\ (forall writable data text,
         files w !! filepath = Some (Regular true writable data) ->
         text_decode h data = Some text ->
         r = add_tag h g
               (Py.replace " " "_"
                  (if Py.nonempty key then key else path_name filepath))
               (Py.strip text) w).
Proof.
  cbv zeta. unfold add_tag_from_file. split; [|split; [|split]].
  - intros Hf. rewrite (bind_Return _ _ _ _ _ (path_exists_none _ _ Hf)).
    apply when_true_error_fatal.
  - intros Hf. rewrite (bind_Return _ _ _ _ _ (path_exists_some _ _ _ Hf)).
    cbn [negb]. rewrite bind_when_false. unfold path_is_file.
    rewrite bind_gets, Hf. apply when_true_error_fatal.
  - intros writable data Hf.
    rewrite (bind_Return _ _ _ _ _ (path_exists_some _ _ _ Hf)).
    cbn [negb]. rewrite bind_when_false. unfold path_is_file, access_read.
    rewrite bind_gets, Hf. cbn [negb]. rewrite bind_when_false.
    rewrite bind_gets, Hf. apply when_true_error_fatal.
  - intros writable data text Hf Hdec.
    rewrite (bind_Return _ _ _ _ _ (path_exists_some _ _ _ Hf)).
    cbn [negb]. rewrite bind_when_false. unfold path_is_file, access_read.
    rewrite bind_gets, Hf. cbn [negb]. rewrite bind_when_false.
    rewrite bind_gets, Hf. cbn [negb]. rewrite bind_when_false.
    rewrite (bind_Return _ _ _ _ _ (read_text_decoded _ _ _ _ _ _ Hf Hdec)).
    by destruct (Py.nonempty key).
Qed.

Lemma add_tag_from_file_checks_witness :
  add_tag_from_file Sample.host0 (Sample.globals_for "job-init")
                    "/etc/machine-id" "" Sample.world_machine_id
  = (Sample.world_machine_id, Return (Some " machine-id=4f2a9c")).
Proof.
  destruct (add_tag_from_file_checks Sample.host0 (Sample.globals_for "job-init")
              "/etc/machine-id" "" Sample.world_machine_id)
    as (_ & _ & _ & Hread).
  rewrite (Hread true ("4f2a9c" ++ Py.newline) ("4f2a9c" ++ Py.newline)
             (lookup_singleton_eq _ _) eq_refl).
  reflexivity.
Defined.

(** [add_tag] leaves by returning, by [sys.exit], or by the exception of
    writing the error log, which is no [CalledProcessError]. *)
Lemma add_tag_no_called_process_error h g key value w e :
  snd (add_tag h g key value w) = Raise e ->
  called_process_error (exn_kind e) = false.
Proof.
  unfold add_tag. destruct (negb (Py.nonempty key)).
  2:{ destruct (negb (Py.nonempty value)); [discriminate|].
      destruct (Py.nonempty (Py.strip value)); discriminate. }
  unfold error, print_err. rewrite bind_modify. unfold bind, append_text.
  destruct (files _ !! ERRLOG g) as [[|r [] data]|]; cbn;
    try destruct (creatable h (ERRLOG g)); cbn;
    intros H; try discriminate H; by injection H as <-.
Qed.

(** [add_tag_from_cmd] is a fatal error when the command is not found and
    when it exits with a non-zero status; any other exception of running it
    leaves the function as it is.  When the command succeeds the result is
    [add_tag] on its stripped output. *)
Theorem add_tag_from_cmd_checks (h : host) (g : globals) (key cmd : string)
    (rest : list string) (w : world) :
  let r := add_tag_from_cmd h g key cmd rest w in
  (which h cmd = false ->
   fatal_error h (ERRLOG g) "Validating command"
               ("Command " ++ cmd ++ " not found") w r)
  /\ (which h cmd = true ->
      forall e,
        run h (cmd :: rest) = inl e ->
        if called_process_error (exn_kind e)
        then fatal_error h (ERRLOG g) "Tag Command Execution" (exn_msg e) w r
        else r = (w, Raise e))
  /\ (which h cmd = true ->
      forall out,
        run h (cmd :: rest) = inr out ->
        r = add_tag h g (Py.replace " " "_" key) (Py.strip out) w).
Proof.
  cbv zeta. unfold add_tag_from_cmd. split; [|split].
  - intros ->. apply error_fatal.
  - intros -> e Hrun. cbn [negb]. unfold try_except, run_argv.
    rewrite Hrun. cbn. destruct (called_process_error (exn_kind e)); [|done].
    apply error_fatal.
  - intros -> out Hrun. cbn [negb]. unfold try_except, run_argv.
    rewrite Hrun, bind_ret.
    pose proof (add_tag_no_called_process_error h g (Py.replace " " "_" key)
                  (Py.strip out) w) as Hno.
    destruct (add_tag h g _ _ w) as [w' [t|code|e]]; try done.
    by rewrite (Hno e eq_refl).
Qed.

Lemma add_tag_from_cmd_checks_witness :
  add_tag_from_cmd Sample.host0 (Sample.globals_for "job-init")
                   "arch" "uname" ["--machine"] Sample.world0
  = (Sample.world0, Return (Some " arch=x86_64")).
Proof.
  destruct (add_tag_from_cmd_checks Sample.host0 (Sample.globals_for "job-init")
              "arch" "uname" ["--machine"] Sample.world0) as (_ & _ & Hrun).
  rewrite (Hrun eq_refl "x86_64" eq_refl). reflexivity.
Defined.

(** ** Check creation *)

Lemma timezone_run h w :
  try_except
    (let* tz_result :=
       run_shell_checked h "timedatectl show --property Timezone | cut -d '=' -f2" in
     ret (Py.strip (proc_stdout tz_result)))
    any_exception
    (fun _ => ret "UTC") w
  = (w, Return (timezone_of h)).
Proof.
  unfold try_except, run_shell_checked, run_shell, bind, timezone_of.
  destruct (shell h _) as [e|c]; simpl; [done|].
  by destruct (returncode c =? 0).
Qed.

(** [hc_create] is a fatal error, with nothing sent, when the name, the
    slug prefix or the API key is empty.  Otherwise it sends one request:
    an upsert to [url/api/v3/checks/] whose payload has the name, the slug
    of the slug prefix, the tags stripped and in lower case, the time zone
    of the host or ["UTC"], and [name] as the only unique field.  It returns
    when the service answers with a JSON document, and a failure of the
    request is the fatal error ["Healthcheck Creation"]. *)
Theorem hc_create_contract (h : host) (g : globals)
    (name slug_prefix : string) (grace : Z) (description tags channels : string)
    (timeout : Z) (apikey url : string) (w : world) :
  let r := hc_create h g name slug_prefix grace description tags channels
                     timeout apikey url w in
  let req :=
    HttpPostJson (url ++ "/api/v3/checks/") apikey
      (upsert_payload h g name slug_prefix grace description tags channels timeout) in
  let w1 :=
    add_sent req
      (add_stdout ("MESG: 'hc_create:380' Creating/Updating check "
                   ++ slugify slug_prefix (HC_SLUG_SUFFIX g)) w) in
  (Py.nonempty name && Py.nonempty slug_prefix && Py.nonempty apikey = false ->
   exists msg, fatal_error h (ERRLOG g) "HC Create" msg w r)
  /\ (Py.nonempty name && Py.nonempty slug_prefix && Py.nonempty apikey = true ->
      sent (fst r) = (sent w ++ [req])%list
      /\ (accepts_json h req = true -> r = (w1, Return tt))
      /\ (forall msg,
             upsert_failure h req = Some msg ->
             fatal_error h (ERRLOG g) "Healthcheck Creation" msg w1 r)).
Proof.
  cbv zeta. unfold hc_create. split.
  - intros Hbad.
    destruct (Py.nonempty name); cbn [negb andb] in *.
    2:{ eexists. apply when_true_error_fatal. }
    rewrite bind_when_false.
    destruct (Py.nonempty slug_prefix); cbn [negb andb] in *.
    2:{ eexists. apply when_true_error_fatal. }
    rewrite bind_when_false, Hbad.
    eexists. apply when_true_error_fatal.
  - intros Hok.
    apply andb_true_iff in Hok as [Hok Hkey].
    apply andb_true_iff in Hok as [Hname Hsp].
    rewrite Hname, Hsp, Hkey. cbn [negb]. rewrite !bind_when_false.
    rewrite (bind_Return _ _ _ _ _ (timezone_run h w)). rewrite bind_info.
    fold (upsert_payload h g name slug_prefix grace description tags channels timeout).
    set (req := HttpPostJson _ _ _).
    set (w0 := add_stdout _ w).
    unfold try_except, request. unfold bind at 1.
    unfold accepts_json, upsert_failure.
    destruct (http h req) as [e|[msg|] final [err|doc]];
      cbn [raise_for_status raise bind ret response_json snd fst exn_msg
           exn_kind request_exception].
    + split; [|split; [done|]].
      * destruct (request_exception (exn_kind e)); [|done].
        by destruct (error_fatal (A:=unit) h (ERRLOG g) "Healthcheck Creation"
                       (exn_msg e) (add_sent req w0)) as (_ & _ & _ & -> & _).
      * intros msg Hmsg. destruct (request_exception (exn_kind e)); [|done].
        injection Hmsg as <-. apply error_fatal.
    + split; [|split; [done|]].
      * by destruct (error_fatal (A:=unit) h (ERRLOG g) "Healthcheck Creation"
                       msg (add_sent req w0)) as (_ & _ & _ & -> & _).
      * intros msg' Hmsg. injection Hmsg as <-. apply error_fatal.
    + split; [|split; [done|]].
      * by destruct (error_fatal (A:=unit) h (ERRLOG g) "Healthcheck Creation"
                       msg (add_sent req w0)) as (_ & _ & _ & -> & _).
      * intros msg' Hmsg. injection Hmsg as <-. apply error_fatal.
    + split; [|split; [done|]].
      * by destruct (error_fatal (A:=unit) h (ERRLOG g) "Healthcheck Creation"
                       err (add_sent req w0)) as (_ & _ & _ & -> & _).
      * intros msg' Hmsg. injection Hmsg as <-. apply error_fatal.
    + split; [done|]. split; [done|]. intros msg Hmsg. discriminate Hmsg.
Qed.

Lemma hc_create_contract_witness :
  sent (fst (hc_create Sample.host0 (Sample.globals_for "job-init")
                       "pve1.prod.example.org" "job" 7200 "" " Cluster=Prod " "*"
                       86400 "rw-key-0123456789" "https://hc.example.org"
                       Sample.world0))
  = [HttpPostJson "https://hc.example.org/api/v3/checks/" "rw-key-0123456789"
       {| p_name := "pve1.prod.example.org";
          p_slug := "job__pve1-prod-example-org";
          p_channels := "*";
          p_timeout := 86400;
          p_tz := "example.org";
          p_grace := 7200;
          p_desc := "";
          p_tags := "cluster=prod";
          p_unique := ["name"] |}].
Proof.
  destruct (hc_create_contract Sample.host0 (Sample.globals_for "job-init")
              "pve1.prod.example.org" "job" 7200 "" " Cluster=Prod " "*"
              86400 "rw-key-0123456789" "https://hc.example.org" Sample.world0)
    as [_ Hvalid].
  destruct (Hvalid eq_refl) as (Hsent & _).
  rewrite Hsent. reflexivity.
Defined.

(** ** The [jq] check *)

(** [check_jq_installed] sends nothing.  With [jq] on the path it does
    nothing at all; without [jq], [apt] and [dnf] it is the fatal error
    ["Installing jq"], after one line printed. *)
Theorem check_jq_installed_contract (h : host) (g : globals) (w : world) :
  let r := check_jq_installed h g w in
  sent (fst r) = sent w
  /\ (which h "jq" = true -> r = (w, Return tt))
  /\ (which h "jq" = false -> which h "apt" = false -> which h "dnf" = false ->
      fatal_error h (ERRLOG g) "Installing jq" "Unknown package manager"
        (add_stdout "MESG: 'check_jq_installed:456' JQ could not be found, installing" w)
        r).
Proof.
  cbv zeta. unfold check_jq_installed. split; [|split].
  - destruct (which h "jq"); cbn [negb]; [done|].
    rewrite bind_info. set (w1 := add_stdout _ w).
    destruct (which h "apt"); [|destruct (which h "dnf")].
    + unfold try_except, run_argv, bind.
      destruct (run h ["apt"; "install"; "-y"; "jq"]) as [e|out];
        cbn [raise ret fst snd]; [|done].
      destruct (called_process_error (exn_kind e)); [|done].
      by destruct (error_fatal (A:=unit) h (ERRLOG g) "Installing jq"
                     "apt install failed" w1) as (_ & _ & _ & -> & _).
    + unfold try_except, run_argv, bind.
      destruct (run h ["dnf"; "install"; "-y"; "jq"]) as [e|out];
        cbn [raise ret fst snd]; [|done].
      destruct (called_process_error (exn_kind e)); [|done].
      by destruct (error_fatal (A:=unit) h (ERRLOG g) "Installing jq"
                     "dnf install failed" w1) as (_ & _ & _ & -> & _).
    + by destruct (error_fatal (A:=unit) h (ERRLOG g) "Installing jq"
                     "Unknown package manager" w1) as (_ & _ & _ & -> & _).
  - by intros ->.
  - intros -> -> ->. cbn [negb]. rewrite bind_info. apply error_fatal.
Qed.

Lemma check_jq_installed_contract_witness :
  stopped (snd (check_jq_installed Sample.host_bare (Sample.globals_for "job-start")
                                   Sample.world0)) = true.
Proof.
  destruct (check_jq_installed_contract Sample.host_bare
              (Sample.globals_for "job-start") Sample.world0) as (_ & _ & Hbare).
  destruct (Hbare eq_refl eq_refl eq_refl) as (Hstop & _).
  exact Hstop.
Defined.

(** ** Dashboard lookup *)

(** [get_dashboard_url] sends one lookup request.  When the service
    answers with a document whose first check has a string as ping URL, the
    result is that URL converted; in every other case (an exception, an
    error status, no JSON, no check, no ping URL) it is the fatal error
    ["Get Dashboard URL"]. *)
Theorem get_dashboard_url_contract (h : host) (g : globals)
    (slug apikey base_url : string) (w : world) :
  let req :=
    HttpGet (base_url ++ "/api/v3/checks/?slug="
             ++ slugify slug (HC_SLUG_SUFFIX g)) apikey in
  let r := get_dashboard_url h g slug apikey base_url w in
  sent (fst r) = (sent w ++ [req])%list
  /\ (forall u,
         lookup_result h req = Some u ->
         r = (add_sent req w, Return (dashboard_of_ping_url u)))
  /\ (lookup_result h req = None ->
      exists msg,
        fatal_error h (ERRLOG g) "Get Dashboard URL" msg (add_sent req w) r).
Proof.
  cbv zeta. split; [apply get_dashboard_url_sent|]. split.
  - intros u Hu. unfold lookup_result in Hu.
    destruct (http h _) as [e|[msg|] final [err|data]] eqn:Hreply; try done.
    by apply (get_dashboard_url_found _ _ _ _ _ _ final data).
  - unfold lookup_result, response_ping_url.
    unfold get_dashboard_url, try_except, request, bind, raise_for_status,
      response_json, subscript_key, subscript_zero, ret, raise.
    set (req := HttpGet _ _).
    repeat
      (cbn -[error];
       match goal with
       | |- Some _ = None -> _ => intros H; discriminate H
       | |- context [http h req] => destruct (http h req)
       | |- context [json_member ?k ?m] => destruct (json_member k m)
       | |- context [match ?x with _ => _ end] => is_var x; destruct x
       | |- _ -> exists _, fatal_error _ _ _ _ _ (error _ _ _ _ _) =>
           intros _; eexists; apply error_fatal
       end).
Qed.

Lemma get_dashboard_url_contract_witness :
  get_dashboard_url Sample.host0 (Sample.globals_for "backup-abort")
                    "101-qemu" "rw-key-0123456789" "https://hc.example.org"
                    Sample.world0
  = (add_sent
       (HttpGet
          "https://hc.example.org/api/v3/checks/?slug=101-qemu__pve1-prod-example-org"
          "rw-key-0123456789")
       Sample.world0,
     Return "https://hc.example.org/checks/1234/details").
Proof.
  destruct (get_dashboard_url_contract Sample.host0
              (Sample.globals_for "backup-abort") "101-qemu" "rw-key-0123456789"
              "https://hc.example.org" Sample.world0) as (_ & Hfound & _).
  apply (Hfound "https://hc.example.org/ping/1234"). reflexivity.
Defined.

(** ** Failures of a ping *)

Lemma fatal_error_bind {A B} h errlog task msg w0 (c : M A) (k : A -> M B) w :
  fatal_error h errlog task msg w0 (c w) ->
  fatal_error h errlog task msg w0 (bind c k w).
Proof.
  unfold fatal_error, bind.
  destruct (c w) as [w' [a|code|e]]; cbn [fst snd stopped];
    intros (Hstop & Herr & Hout & Hsent & Henv & Hlog).
  - discriminate Hstop.
  - do 5 (split; [done|]).
    intros Happ. destruct (Hlog Happ) as [Hexit Hfiles]. split; [|exact Hfiles].
    by injection Hexit as ->.
  - do 5 (split; [done|]).
    intros Happ. destruct (Hlog Happ) as [Hexit Hfiles]. discriminate Hexit.
Qed.

Lemma error_appendable {A} h errlog task msg w :
  appendable h w errlog = true ->
  error (A:=A) h errlog task msg w
  = (set_files
       (appended h errlog (error_message task msg DEFAULT_ERROR_CODE ++ Py.newline)
          (files w))
       (add_stderr (error_message task msg DEFAULT_ERROR_CODE) w),
     Exit DEFAULT_ERROR_CODE).
Proof.
  intros Happ. unfold error, print_err. rewrite bind_modify.
  set (w1 := add_stderr _ w).
  assert (Happ1 : appendable h w1 errlog = true) by exact Happ.
  by rewrite (bind_Return _ _ _ _ _ (append_text_appendable _ _ _ _ Happ1)).
Qed.

Lemma error_not_appendable {A} h errlog task msg w :
  appendable h w errlog = false ->
  exists e,
    error (A:=A) h errlog task msg w
    = (add_stderr (error_message task msg DEFAULT_ERROR_CODE) w, Raise e).
Proof.
  intros Happ. unfold error, print_err. rewrite bind_modify.
  set (w1 := add_stderr _ w).
  assert (Happ1 : appendable h w1 errlog = false) by exact Happ.
  destruct (append_text_not_appendable h errlog
              (error_message task msg DEFAULT_ERROR_CODE ++ Py.newline) w1 Happ1)
    as [e He].
  exists e. unfold bind. by rewrite He.
Qed.

Lemma bind_eq_error {A B} (c : M A) (k : A -> M B) h errlog task msg w w1 :
  c w = error (A:=A) h errlog task msg w1 ->
  bind c k w = error (A:=B) h errlog task msg w1.
Proof.
  intros H.
  transitivity (bind (error (A:=A) h errlog task msg) k w1).
  - unfold bind. by rewrite H.
  - apply bind_error.
Qed.

Lemma hc_ping_refused_error h g slug_prefix report data pingkey url msg w :
  invalid_ping_args slug_prefix report "" data pingkey = false ->
  request_failure h
    (HttpPostData (ping_endpoint g slug_prefix report pingkey url) data)
  = Some msg ->
  hc_ping h g slug_prefix report "" data pingkey url w
  = error h (ERRLOG g)
      ("Healthcheck Ping w/Data ("
       ++ (if Py.nonempty report then report else "success") ++ ")")
      msg
      (add_sent (HttpPostData (ping_endpoint g slug_prefix report pingkey url) data)
         (add_stdout ("MESG: 'hc_ping:420' PING ENDPOINT: "
                      ++ ping_endpoint g slug_prefix report pingkey url) w)).
Proof.
  intros Hval. rewrite (hc_ping_valid _ _ _ _ _ _ _ _ _ Hval).
  rewrite (bind_Return _ _ _ _ _ (hc_ping_body_data h g data _)).
  unfold hc_ping_post, try_except, request, request_failure. unfold bind at 1.
  destruct (http h _) as [e|[m|] final body];
    cbn [raise_for_status raise bind ret fst snd exn_msg exn_kind].
  - destruct (request_exception (exn_kind e)); [|done].
    intros Hm. by injection Hm as <-.
  - cbn [request_exception].
    intros Hm. by injection Hm as <-.
  - done.
Qed.

Lemma hc_ping_refused h g slug_prefix report data pingkey url msg w :
  invalid_ping_args slug_prefix report "" data pingkey = false ->
  request_failure h
    (HttpPostData (ping_endpoint g slug_prefix report pingkey url) data)
  = Some msg ->
  fatal_error h (ERRLOG g)
    ("Healthcheck Ping w/Data ("
     ++ (if Py.nonempty report then report else "success") ++ ")")
    msg
    (add_sent (HttpPostData (ping_endpoint g slug_prefix report pingkey url) data)
       (add_stdout ("MESG: 'hc_ping:420' PING ENDPOINT: "
                    ++ ping_endpoint g slug_prefix report pingkey url) w))
    (hc_ping h g slug_prefix report "" data pingkey url w).
Proof.
  intros Hval Hmsg.
  rewrite (hc_ping_refused_error h g _ _ _ _ _ _ w Hval Hmsg).
  apply error_fatal.
Qed.

(** With valid arguments and a data body, a ping that the service refuses
    (an exception of [requests], or an error status) is the fatal error
    ["Healthcheck Ping w/Data (...)"] naming the report, or [success]
    without one; the request was sent.  An exception of another class
    leaves [hc_ping] as it is. *)
Theorem hc_ping_request_failure (h : host) (g : globals) (w : world)
    (slug_prefix report data pingkey url : string) :
  invalid_ping_args slug_prefix report "" data pingkey = false ->
  let r := hc_ping h g slug_prefix report "" data pingkey url w in
  let endpoint := ping_endpoint g slug_prefix report pingkey url in
  let w1 :=
    add_sent (HttpPostData endpoint data)
      (add_stdout ("MESG: 'hc_ping:420' PING ENDPOINT: " ++ endpoint) w) in
  (forall msg,
      request_failure h (HttpPostData endpoint data) = Some msg ->
      fatal_error h (ERRLOG g)
        ("Healthcheck Ping w/Data ("
         ++ (if Py.nonempty report then report else "success") ++ ")")
        msg w1 r)
  /\ (forall e,
         http h (HttpPostData endpoint data) = ReplyRaises e ->
         request_exception (exn_kind e) = false ->
         r = (w1, Raise e)).
Proof.
  intros Hval. cbv zeta. split.
  - intros msg Hmsg. by apply hc_ping_refused.
  - rewrite (hc_ping_valid _ _ _ _ _ _ _ _ _ Hval).
    rewrite (bind_Return _ _ _ _ _ (hc_ping_body_data h g data _)).
    unfold hc_ping_post, try_except, request. unfold bind at 1.
    intros e -> Hkind. cbn [raise_for_status raise bind]. by rewrite Hkind.
Qed.

Lemma hc_ping_request_failure_witness :
  stopped (snd (hc_ping Sample.host_down (Sample.globals_for "job-start")
                        "job" "start" "" "" "ping-key-0123"
                        "https://hc.example.org/ping" Sample.world0)) = true
  /\ sent (fst (hc_ping Sample.host_down (Sample.globals_for "job-start")
                        "job" "start" "" "" "ping-key-0123"
                        "https://hc.example.org/ping" Sample.world0))
     = [HttpPostData
          "https://hc.example.org/ping/ping-key-0123/job__pve1-prod-example-org/start"
          ""].
Proof.
  destruct (hc_ping_request_failure Sample.host_down (Sample.globals_for "job-start")
              Sample.world0 "job" "start" "" "ping-key-0123"
              "https://hc.example.org/ping" eq_refl) as [Hfail _].
  destruct (Hfail "Connection refused" eq_refl) as (Hstop & _ & _ & Hsent & _).
  split; [exact Hstop|]. rewrite Hsent. reflexivity.
Defined.

(** With valid arguments and a file as body source, a file that is
    missing, is a directory, cannot be read, or whose tail does not decode
    is a fatal error, each with its own task name; nothing is sent. *)
Theorem hc_ping_file_errors (h : host) (g : globals) (w : world)
    (slug_prefix report file pingkey url : string) :
  invalid_ping_args slug_prefix report file "" pingkey = false ->
  Py.nonempty file = true ->
  let r := hc_ping h g slug_prefix report file "" pingkey url w in
  let w1 :=
    add_stdout ("MESG: 'hc_ping:420' PING ENDPOINT: "
                ++ ping_endpoint g slug_prefix report pingkey url) w in
  (files w !! file = None ->
   fatal_error h (ERRLOG g) "Check file exists" ("File " ++ file ++ " not found")
               w1 r)
  /\ (files w !! file = Some Directory ->
      fatal_error h (ERRLOG g) "Check file type" (file ++ " is not a file") w1 r)
  /\ (forall writable bytes,
         files w !! file = Some (Regular false writable bytes) ->
         fatal_error h (ERRLOG g) "Check file permissions" ("Cannot read " ++ file)
                     w1 r)
  /\ (forall writable bytes,
         files w !! file = Some (Regular true writable bytes) ->
         text_decode h (Py.last tail_limit bytes) = None ->
         exists msg, fatal_error h (ERRLOG g) "Read Log File" msg w1 r).
Proof.
  intros Hval Hfile. cbv zeta. rewrite (hc_ping_valid _ _ _ _ _ _ _ _ _ Hval).
  set (w1 := add_stdout _ w).
  unfold hc_ping_body. rewrite Hfile.
  split; [|split; [|split]].
  - intros Hf. assert (Hf1 : files w1 !! file = None) by exact Hf.
    rewrite bind_assoc.
    rewrite (bind_Return _ _ _ _ _ (path_exists_none _ _ Hf1)).
    cbn [negb]. rewrite bind_assoc. apply when_true_error_fatal.
  - intros Hf. assert (Hf1 : files w1 !! file = Some Directory) by exact Hf.
    rewrite bind_assoc.
    rewrite (bind_Return _ _ _ _ _ (path_exists_some _ _ _ Hf1)).
    cbn [negb]. rewrite bind_assoc, bind_when_false. unfold path_is_file.
    rewrite bind_assoc, bind_gets, Hf1. cbn [negb]. rewrite bind_assoc.
    apply when_true_error_fatal.
  - intros writable bytes Hf.
    assert (Hf1 : files w1 !! file = Some (Regular false writable bytes)) by exact Hf.
    rewrite bind_assoc.
    rewrite (bind_Return _ _ _ _ _ (path_exists_some _ _ _ Hf1)).
    cbn [negb]. rewrite bind_assoc, bind_when_false. unfold path_is_file, access_read.
    rewrite bind_assoc, bind_gets, Hf1. cbn [negb].
    rewrite bind_assoc, bind_when_false.
    rewrite bind_assoc, bind_gets, Hf1. cbn [negb]. rewrite bind_assoc.
    apply when_true_error_fatal.
  - intros writable bytes Hf Hdec.
    assert (Hf1 : files w1 !! file = Some (Regular true writable bytes)) by exact Hf.
    rewrite bind_assoc.
    rewrite (bind_Return _ _ _ _ _ (path_exists_some _ _ _ Hf1)).
    cbn [negb]. rewrite bind_assoc, bind_when_false. unfold path_is_file, access_read.
    rewrite bind_assoc, bind_gets, Hf1. cbn [negb].
    rewrite bind_assoc, bind_when_false.
    rewrite bind_assoc, bind_gets, Hf1. cbn [negb].
    rewrite bind_assoc, bind_when_false.
    unfold try_except. unfold bind at 1.
    rewrite (read_tail_last _ _ _ _ _ Hf1), Hdec. cbn [any_exception exn_kind].
    unfold bind.
    eexists.
    match goal with
    | |- fatal_error _ _ _ _ _ (match ?c with _ => _ end) =>
        pose proof (error_fatal (A:=string) h (ERRLOG g) "Read Log File"
                      "UnicodeDecodeError" w1) as Hfatal;
        change c with (error (A:=string) h (ERRLOG g) "Read Log File"
                         "UnicodeDecodeError" w1);
        destruct (error (A:=string) h (ERRLOG g) "Read Log File"
                    "UnicodeDecodeError" w1) as [w2 [x|code|e]]
    end.
    + destruct Hfatal as [Hstop _]. discriminate Hstop.
    + exact Hfatal.
    + exact Hfatal.
Qed.

Lemma hc_ping_file_errors_witness :
  stopped (snd (hc_ping Sample.host0 (Sample.globals_for "log-end")
                        "101-qemu" "log" "/var/log/vzdump/qemu-101.log" ""
                        "ping-key-0123" "https://hc.example.org/ping"
                        Sample.world0)) = true
  /\ sent (fst (hc_ping Sample.host0 (Sample.globals_for "log-end")
                        "101-qemu" "log" "/var/log/vzdump/qemu-101.log" ""
                        "ping-key-0123" "https://hc.example.org/ping"
                        Sample.world0)) = [].
Proof.
  destruct (hc_ping_file_errors Sample.host0 (Sample.globals_for "log-end")
              Sample.world0 "101-qemu" "log" "/var/log/vzdump/qemu-101.log"
              "ping-key-0123" "https://hc.example.org/ping" eq_refl eq_refl)
    as [Hmissing _].
  destruct (Hmissing (lookup_empty _)) as (Hstop & _ & _ & Hsent & _).
  split; [exact Hstop | exact Hsent].
Defined.

(** ** The module body *)

Lemma module_init_empty_phase h args id w :
  arg_phase args = "" ->
  exists w1,
    module_init h args id w
    = error h (id_errlog id) "Arguments" "Phase not provided"
        (add_stdout
           ("HOOK: " ++ Py.join " " (id_argv id) ++ " -- " ++ id_task_id id) w1)
    /\ files w1 = files w /\ stdout w1 = stdout w /\ sent w1 = sent w.
Proof.
  intros Hphase. unfold module_init.
  destruct (resolve_config_frame h args w) as (w1 & cfg & Hrun & Hfs & Hout & Hsent).
  rewrite (bind_Return _ _ _ _ _ Hrun).
  unfold print. rewrite bind_modify.
  set (w2 := add_stdout _ w1).
  destruct (get_domain_returns h w2) as [domain Hdom].
  rewrite (bind_Return _ _ _ _ _ Hdom).
  rewrite Hphase. cbn [Py.nonempty negb when].
  rewrite bind_error. exists w1. by repeat split.
Qed.

(** Without a phase the script leaves in the module body: the banner is
    the only line printed, so the usage message of the last lines is not,
    nothing is sent, and the exit code is [DEFAULT_ERROR_CODE], not 1,
    whenever the pending error log can be written. *)
Theorem script_without_phase_exits_before_usage (h : host) (args : cli_args)
    (id : host_identity) (w : world) :
  arg_phase args = "" ->
  let r := script h args id w in
  stopped (snd r) = true
  /\ stdout (fst r)
     = (stdout w
        ++ [("HOOK: " ++ Py.join " " (id_argv id) ++ " -- " ++ id_task_id id)%string])%list
  /\ sent (fst r) = sent w
  /\ (appendable h w (id_errlog id) = true -> snd r = Exit DEFAULT_ERROR_CODE).
Proof.
  intros Hphase. cbv zeta.
  destruct (module_init_empty_phase h args id w Hphase)
    as (w1 & Hrun & Hfs & Hout & Hsent).
  unfold script, bind. rewrite Hrun.
  set (line := ("HOOK: " ++ _)%string).
  pose proof (error_fatal (A:=globals) h (id_errlog id) "Arguments"
                "Phase not provided" (add_stdout line w1)) as Hfatal.
  assert (Happ : appendable h w (id_errlog id) = true ->
                 appendable h (add_stdout line w1) (id_errlog id) = true).
  { unfold appendable. cbn [files add_stdout]. by rewrite Hfs. }
  destruct (error h (id_errlog id) "Arguments" "Phase not provided"
              (add_stdout line w1)) as [w3 [x|code|e]];
    destruct Hfatal as (Hstop & _ & Hout3 & Hsent3 & _ & Hexit);
    cbn [fst snd] in *.
  - discriminate Hstop.
  - split; [done|]. split; [by rewrite Hout3, <- Hout|].
    split; [by rewrite Hsent3|].
    intros Ha. destruct (Hexit (Happ Ha)) as [Hcode _]. by injection Hcode as ->.
  - split; [done|]. split; [by rewrite Hout3, <- Hout|].
    split; [by rewrite Hsent3|].
    intros Ha. destruct (Hexit (Happ Ha)) as [Hcode _]. discriminate Hcode.
Qed.

Lemma script_without_phase_exits_before_usage_witness :
  snd (script Sample.host0 Sample.args_none Sample.id0 Sample.world0) = Exit 666
  /\ stdout (fst (script Sample.host0 Sample.args_none Sample.id0 Sample.world0))
     = ["HOOK:  -- task UPID:pve1:0001"].
Proof.
  destruct (script_without_phase_exits_before_usage Sample.host0 Sample.args_none
              Sample.id0 Sample.world0 eq_refl) as (_ & Hout & _ & Hexit).
  split.
  - exact (Hexit eq_refl).
  - exact Hout.
Defined.

Lemma get_domain_run h w :
  get_domain h w = (w, Return (shell_output_or h "hostname --domain" "local")).
Proof.
  unfold get_domain, shell_output_or, try_except, run_shell, bind.
  by destruct (shell h "hostname --domain") as [e|c].
Qed.

(** When the module body returns, the phase is the first argument and is
    not empty, mode and guest come from the command line, and the guest
    type, the storage and the log file come from the environment as it is
    after the environment files were loaded, with their fallbacks; the slug
    suffix is node, cluster and domain in lower case, joined by dots.  The
    banner is the only line printed and nothing is sent. *)
Theorem module_init_globals (h : host) (args : cli_args) (id : host_identity)
    (w w' : world) (g : globals) :
  module_init h args id w = (w', Return g) ->
  Py.nonempty (PHASE g) = true
  /\ PHASE g = arg_phase args /\ MODE g = arg_mode args /\ VMID g = arg_vmid args
  /\ VMTYPE g = default "unknown" (environ w' !! "VMTYPE")
  /\ STORAGE g
     = default (default "" (environ w' !! "STOREID")) (environ w' !! "DUMPDIR")
  /\ LOGFILE g
     = default ("/var/log/vzdump/" ++ Py.lower (VMTYPE g) ++ "-" ++ VMID g ++ ".log")
               (environ w' !! "LOGFILE")
  /\ HC_SLUG_SUFFIX g
     = Py.lower (id_node id) ++ "." ++ Py.lower (id_cluster id) ++ "."
       ++ Py.lower (shell_output_or h "hostname --domain" "local")
  /\ stdout w'
     = (stdout w
        ++ [("HOOK: " ++ Py.join " " (id_argv id) ++ " -- " ++ id_task_id id)%string])%list
  /\ sent w' = sent w
  /\ files w' = files w.
Proof.
  unfold module_init, environ_get. intros Hrun.
  destruct (resolve_config_frame h args w) as (w1 & cfg & Hcfg & Hfs & Hout & Hsent).
  rewrite (bind_Return _ _ _ _ _ Hcfg) in Hrun.
  unfold print in Hrun. rewrite bind_modify in Hrun.
  set (w2 := add_stdout _ w1) in Hrun.
  rewrite (bind_Return _ _ _ _ _ (get_domain_run h w2)) in Hrun.
  destruct (Py.nonempty (arg_phase args)) eqn:Hphase; cbn [negb when] in Hrun.
  - rewrite bind_ret, !bind_gets in Hrun.
    injection Hrun as <- <-. cbn [PHASE MODE VMID VMTYPE STORAGE LOGFILE HC_SLUG_SUFFIX].
    repeat split; try done.
    unfold w2. cbn [stdout add_stdout]. by rewrite Hout.
  - rewrite bind_error in Hrun.
    destruct (error_fatal (A:=globals) h (id_errlog id) "Arguments"
                "Phase not provided" w2) as (Hstop & _).
    rewrite Hrun in Hstop. discriminate Hstop.
Qed.

Lemma module_init_globals_witness :
  exists w' g,
    module_init Sample.host0 Sample.args_plain Sample.id0 Sample.world0
    = (w', Return g)
    /\ PHASE g = "job-start"
    /\ HC_SLUG_SUFFIX g = "pve1.prod.example.org"
    /\ sent w' = [].
Proof.
  assert (Hrun : exists w' g,
             module_init Sample.host0 Sample.args_plain Sample.id0 Sample.world0
             = (w', Return g)).
  { eexists _, _. vm_compute. reflexivity. }
  destruct Hrun as (w' & g & Hrun). exists w', g.
  destruct (module_init_globals _ _ _ _ _ _ Hrun)
    as (_ & Hphase & _ & _ & _ & _ & _ & Hsuffix & _ & Hsent & _).
  split; [exact Hrun|]. split; [exact Hphase|]. split; [exact Hsuffix|exact Hsent].
Defined.

(** ** [main] without [jq] *)

Lemma check_jq_installed_unavailable h g w :
  jq_available h = false ->
  stopped (snd (check_jq_installed h g w)) = true
  /\ sent (fst (check_jq_installed h g w)) = sent w.
Proof.
  unfold jq_available, check_jq_installed. intros H.
  destruct (which h "jq"); cbn [negb orb] in *; [done|].
  rewrite bind_info. set (w1 := add_stdout _ w).
  destruct (which h "apt"); [|destruct (which h "dnf"); cbn [andb] in H].
  - unfold try_except, run_argv, bind.
    destruct (run h ["apt"; "install"; "-y"; "jq"]) as [e|out]; [|done].
    cbn [raise].
    destruct (called_process_error (exn_kind e)); [|done].
    destruct (error_fatal (A:=unit) h (ERRLOG g) "Installing jq"
                "apt install failed" w1) as (Hstop & _ & _ & Hsent & _).
    by split.
  - unfold try_except, run_argv, bind.
    destruct (run h ["dnf"; "install"; "-y"; "jq"]) as [e|out]; [|done].
    cbn [raise].
    destruct (called_process_error (exn_kind e)); [|done].
    destruct (error_fatal (A:=unit) h (ERRLOG g) "Installing jq"
                "dnf install failed" w1) as (Hstop & _ & _ & Hsent & _).
    by split.
  - destruct (error_fatal (A:=unit) h (ERRLOG g) "Installing jq"
                "Unknown package manager" w1) as (Hstop & _ & _ & Hsent & _).
    by split.
Qed.

(** In every phase, [main] on a host where [jq] is missing and cannot be
    installed stops before the dispatcher: no request is sent. *)
Theorem main_stops_without_jq (h : host) (g : globals) (w : world) :
  jq_available h = false ->
  stopped (snd (main h g w)) = true /\ sent (fst (main h g w)) = sent w.
Proof.
  intros Hjq. unfold main. rewrite !bind_info.
  set (w2 := add_stdout _ (add_stdout _ w)).
  destruct (check_jq_installed_unavailable h g w2 Hjq) as [Hstop Hsent].
  destruct (bind_stopped (check_jq_installed h g) (fun _ => dispatch h g) w2 Hstop)
    as [Hfst Hstop'].
  split; [exact Hstop'|]. rewrite Hfst. exact Hsent.
Qed.

Lemma main_stops_without_jq_witness :
  stopped (snd (main Sample.host_apt_fails (Sample.globals_for "job-end")
                     Sample.world_pending)) = true
  /\ sent (fst (main Sample.host_apt_fails (Sample.globals_for "job-end")
                     Sample.world_pending)) = [].
Proof.
  apply (main_stops_without_jq Sample.host_apt_fails (Sample.globals_for "job-end")
           Sample.world_pending).
  reflexivity.
Defined.

(** ** Phase [job-start] *)

Lemma dispatch_job_start h g :
  PHASE g = "job-start" ->
  dispatch h g
  = (info "main" "517" (PHASE g ++ " -- Ping Host Start") ;;
     hc_ping_data h g HC_HOST_SLUG_PREFIX "start" "" ;;
     ret tt).
Proof. intros Hphase. unfold dispatch. by rewrite Hphase. Qed.

Lemma add_sent_stdout_emit r line line' lines w :
  add_sent r (add_stdout line (add_stdout line' (emit lines w)))
  = add_sent r (emit (lines ++ [line'; line]) w).
Proof.
  unfold add_sent, add_stdout, emit. cbn [files environ stdout stderr sent].
  by rewrite <- !app_assoc.
Qed.

(** In phase [job-start] the run sends one request, a ["start"] ping to
    the host check with an empty body.  When the service takes it the run
    returns with the files and standard error as they were; when the
    service refuses it the run is the fatal error
    ["Healthcheck Ping w/Data (start)"]. *)
Theorem job_start_pings_host (h : host) (g : globals) (w : world) :
  PHASE g = "job-start" ->
  jq_available h = true ->
  Py.nonempty (HC_PING_KEY g) = true ->
  (accepts h (host_ping g "start" "") = true ->
   exists w',
     main h g w = (w', Return tt)
     /\ sent w' = (sent w ++ [host_ping g "start" ""])%list
     /\ files w' = files w
     /\ stderr w' = stderr w)
  /\ (forall msg,
         request_failure h (host_ping g "start" "") = Some msg ->
         exists lines,
           fatal_error h (ERRLOG g) "Healthcheck Ping w/Data (start)" msg
             (add_sent (host_ping g "start" "") (emit lines w)) (main h g w)).
Proof.
  intros Hphase Hjq Hpk.
  destruct (main_dispatches h g w Hjq) as [lines ->].
  rewrite (dispatch_job_start h g Hphase). rewrite bind_info.
  set (w1 := add_stdout _ (emit lines w)).
  assert (Hval : invalid_ping_args HC_HOST_SLUG_PREFIX "start" "" "" (HC_PING_KEY g)
                 = false)
    by (apply main_ping_args_valid; auto).
  split.
  - intros Hacc.
    destruct (hc_ping_data_accepted h g HC_HOST_SLUG_PREFIX "start" "" w1 Hval Hacc)
      as [final Hping].
    rewrite (bind_Return _ _ _ _ _ Hping).
    eexists. split; [reflexivity|]. by repeat split.
  - intros msg Hmsg.
    pose proof (hc_ping_refused h g HC_HOST_SLUG_PREFIX "start" "" (HC_PING_KEY g)
                  (HC_PING_DOMAIN g) msg w1 Hval Hmsg) as Hfatal.
    unfold w1 in Hfatal. rewrite add_sent_stdout_emit in Hfatal.
    eexists. apply fatal_error_bind. exact Hfatal.
Qed.

Lemma job_start_pings_host_witness :
  (exists w',
      main Sample.host0 (Sample.globals_for "job-start") Sample.world0
      = (w', Return tt)
      /\ sent w'
         = [HttpPostData
              "https://hc.example.org/ping/ping-key-0123/job__pve1-prod-example-org/start"
              ""])
  /\ stopped (snd (main Sample.host_down (Sample.globals_for "job-start")
                        Sample.world0)) = true.
Proof.
  split.
  - destruct (job_start_pings_host Sample.host0 (Sample.globals_for "job-start")
                Sample.world0 eq_refl eq_refl eq_refl) as [Hok _].
    destruct (Hok eq_refl) as (w' & Hmain & Hsent & _).
    exists w'. split; [exact Hmain|]. rewrite Hsent. reflexivity.
  - destruct (job_start_pings_host Sample.host_down (Sample.globals_for "job-start")
                Sample.world0 eq_refl eq_refl eq_refl) as [_ Hdown].
    destruct (Hdown "Connection refused" eq_refl) as (lines & Hstop & _).
    exact Hstop.
Defined.

(** ** Phase [job-abort] *)

(** In phase [job-abort] the run appends the line of the task to the
    pending error log and sends one request, a ["fail"] ping to the host
    check whose body is the whole content of that file after the line was
    added.  Unlike [job-end], it leaves the file in place. *)
Theorem job_abort_reports_error_log (h : host) (g : globals) (w : world) :
  PHASE g = "job-abort" ->
  jq_available h = true ->
  Py.nonempty (HC_PING_KEY g) = true ->
  appendable h w (ERRLOG g) = true ->
  forall writable bytes job_log,
    appended h (ERRLOG g) (TASK_ID g ++ " - Job Abort" ++ Py.newline) (files w)
      !! ERRLOG g = Some (Regular true writable bytes) ->
    text_decode h bytes = Some job_log ->
    accepts h (host_ping g "fail" job_log) = true ->
    exists w',
      main h g w = (w', Return tt)
      /\ sent w' = (sent w ++ [host_ping g "fail" job_log])%list
      /\ files w'
         = appended h (ERRLOG g) (TASK_ID g ++ " - Job Abort" ++ Py.newline) (files w).
Proof.
  intros Hphase Hjq Hpk Happ writable bytes job_log Hf Hdec Hacc.
  destruct (main_dispatches h g w Hjq) as [lines ->].
  assert (Hd : dispatch h g = phase_job_abort h g)
    by (unfold dispatch; rewrite Hphase; reflexivity).
  rewrite Hd. clear Hd. unfold phase_job_abort.
  rewrite bind_info.
  set (w1 := add_stdout _ (emit lines w)).
  assert (Happ1 : appendable h w1 (ERRLOG g) = true) by exact Happ.
  rewrite (bind_Return _ _ _ _ _ (append_text_appendable h _ _ w1 Happ1)).
  set (w2 := set_files _ w1).
  assert (Hf2 : files w2 !! ERRLOG g = Some (Regular true writable bytes))
    by exact Hf.
  rewrite (bind_Return _ _ _ _ _ (read_text_decoded _ _ _ _ _ _ Hf2 Hdec)).
  destruct (hc_ping_data_accepted h g HC_HOST_SLUG_PREFIX "fail" job_log w2)
    as [final Hping].
  { apply main_ping_args_valid; auto. }
  { exact Hacc. }
  rewrite (bind_Return _ _ _ _ _ Hping).
  eexists. split; [reflexivity|]. by split.
Qed.

Lemma job_abort_reports_error_log_witness :
  exists w',
    main Sample.host0 (Sample.globals_for "job-abort") Sample.world_pending
    = (w', Return tt)
    /\ sent w'
       = [HttpPostData
            "https://hc.example.org/ping/ping-key-0123/job__pve1-prod-example-org/fail"
            ("Xtask UPID:pve1:0001 - Job Abort" ++ Py.newline)]
    /\ files w' !! Sample.errlog0
       = Some (Regular true true ("Xtask UPID:pve1:0001 - Job Abort" ++ Py.newline)).
Proof.
  assert (Hf : appended Sample.host0 Sample.errlog0
                 ("task UPID:pve1:0001 - Job Abort" ++ Py.newline)
                 (files Sample.world_pending) !! Sample.errlog0
               = Some (Regular true true
                         ("Xtask UPID:pve1:0001 - Job Abort" ++ Py.newline))).
  { unfold appended.
    change (files Sample.world_pending)
      with ({[ Sample.errlog0 := Regular true true "X" ]} : gmap string node).
    rewrite lookup_singleton_eq. apply lookup_insert_eq. }
  destruct (job_abort_reports_error_log Sample.host0 (Sample.globals_for "job-abort")
              Sample.world_pending eq_refl eq_refl eq_refl)
    with (writable := true)
         (bytes := ("Xtask UPID:pve1:0001 - Job Abort" ++ Py.newline)%string)
         (job_log := ("Xtask UPID:pve1:0001 - Job Abort" ++ Py.newline)%string)
    as (w' & Hmain & Hsent & Hfiles).
  - unfold appendable.
    change (files Sample.world_pending)
      with ({[ Sample.errlog0 := Regular true true "X" ]} : gmap string node).
    by rewrite lookup_singleton_eq.
  - exact Hf.
  - reflexivity.
  - reflexivity.
  - exists w'. split; [exact Hmain|]. split.
    + rewrite Hsent. reflexivity.
    + rewrite Hfiles. exact Hf.
Defined.

(** ** Phase [job-init] *)

Lemma add_tag_pure h g key value w :
  Py.nonempty key = true ->
  add_tag h g key value w = (w, Return (tag_of key value)).
Proof.
  intros Hk. unfold add_tag, tag_of. rewrite Hk. cbn [negb].
  destruct (negb (Py.nonempty value)); [done|].
  by destruct (Py.nonempty (Py.strip value)).
Qed.

Lemma add_tag_from_file_readable h g filepath key writable data text w :
  files w !! filepath = Some (Regular true writable data) ->
  text_decode h data = Some text ->
  add_tag_from_file h g filepath key w
  = add_tag h g
      (Py.replace " " "_" (if Py.nonempty key then key else path_name filepath))
      (Py.strip text) w.
Proof.
  intros Hf Hdec. unfold add_tag_from_file.
  rewrite (bind_Return _ _ _ _ _ (path_exists_some _ _ _ Hf)).
  cbn [negb]. rewrite bind_when_false. unfold path_is_file, access_read.
  rewrite bind_gets, Hf. cbn [negb]. rewrite bind_when_false.
  rewrite bind_gets, Hf. cbn [negb]. rewrite bind_when_false.
  rewrite (bind_Return _ _ _ _ _ (read_text_decoded _ _ _ _ _ _ Hf Hdec)).
  by destruct (Py.nonempty key).
Qed.

Lemma add_tag_from_cmd_pure h g key cmd rest out w :
  Py.nonempty (Py.replace " " "_" key) = true ->
  which h cmd = true ->
  run h (cmd :: rest) = inr out ->
  add_tag_from_cmd h g key cmd rest w
  = (w, Return (tag_of (Py.replace " " "_" key) (Py.strip out))).
Proof.
  intros Hk Hwhich Hrun. unfold add_tag_from_cmd. rewrite Hwhich. cbn [negb].
  unfold try_except, run_argv. rewrite Hrun, bind_ret.
  by rewrite (add_tag_pure h g _ _ w Hk).
Qed.

Lemma read_description_run h cmd dflt w :
  read_description h cmd dflt w = (w, Return (shell_output_or h cmd dflt)).
Proof.
  unfold read_description, shell_output_or, try_except, run_shell, bind.
  by destruct (shell h cmd) as [e|c].
Qed.

Lemma hc_create_sends h g name sp grace description tags channels timeout
      apikey url w :
  Py.nonempty name = true ->
  Py.nonempty sp = true ->
  Py.nonempty apikey = true ->
  accepts_json h
    (HttpPostJson (url ++ "/api/v3/checks/") apikey
       (upsert_payload h g name sp grace description tags channels timeout))
  = true ->
  hc_create h g name sp grace description tags channels timeout apikey url w
  = (add_sent
       (HttpPostJson (url ++ "/api/v3/checks/") apikey
          (upsert_payload h g name sp grace description tags channels timeout))
       (add_stdout ("MESG: 'hc_create:380' Creating/Updating check "
                    ++ slugify sp (HC_SLUG_SUFFIX g)) w),
     Return tt).
Proof.
  intros Hname Hsp Hkey. unfold hc_create.
  rewrite Hname, Hsp, Hkey. cbn [negb]. rewrite !bind_when_false.
  rewrite (bind_Return _ _ _ _ _ (timezone_run h w)). rewrite bind_info.
  fold (upsert_payload h g name sp grace description tags channels timeout).
  set (req := HttpPostJson _ _ _).
  unfold try_except, request. unfold bind at 1.
  unfold accepts_json.
  by destruct (http h req) as [e|[msg|] final [err|doc]].
Qed.

(** In phase [job-init], a node without [/etc/machine-id] is a fatal
    error before any request.  With a readable machine identifier and
    [uname] at hand, the run sends one request: the upsert of the host
    check, named by the slug suffix, with slug prefix [job], a grace of
    7200 seconds, the node description, and the tags of cluster, node,
    storage, machine identifier, architecture and kernel that are not
    blank, in that order; no ping is sent. *)
Theorem job_init_creates_host_check (h : host) (g : globals) (w : world) :
  PHASE g = "job-init" ->
  jq_available h = true ->
  (files w !! "/etc/machine-id" = None ->
   exists lines,
     fatal_error h (ERRLOG g) "Check file exists" "File /etc/machine-id not found"
       (emit lines w) (main h g w))
  /\ (forall writable data text arch kernel,
         files w !! "/etc/machine-id" = Some (Regular true writable data) ->
         text_decode h data = Some text ->
         which h "uname" = true ->
         run h ["uname"; "--machine"] = inr arch ->
         run h ["uname"; "--kernel-release"] = inr kernel ->
         Py.nonempty (HC_SLUG_SUFFIX g) = true ->
         Py.nonempty (HC_RW_API_KEY g) = true ->
         let tags :=
           collect_tags
             [tag_of "cluster" (CLUSTER g);
              tag_of "node" (default "" (environ w !! "HOSTNAME"));
              tag_of "storage" (STORAGE g);
              tag_of "machine-id" (Py.strip text);
              tag_of "arch" (Py.strip arch);
              tag_of "kernel" (Py.strip kernel)] in
         let req :=
           HttpPostJson (HC_BASE_DOMAIN g ++ "/api/v3/checks/") (HC_RW_API_KEY g)
             (upsert_payload h g (HC_SLUG_SUFFIX g) "job" 7200
                (shell_output_or h "grep '^#' /etc/pve/local/config | sed 's/^#//'" "")
                tags "*" 86400) in
         accepts_json h req = true ->
         exists w',
           main h g w = (w', Return tt)
           /\ sent w' = (sent w ++ [req])%list
           /\ files w' = files w).
Proof.
  intros Hphase Hjq.
  destruct (main_dispatches h g w Hjq) as [lines ->].
  assert (Hd : dispatch h g = phase_job_init h g)
    by (unfold dispatch; rewrite Hphase; reflexivity).
  rewrite Hd. clear Hd. unfold phase_job_init.
  set (w0 := emit lines w).
  rewrite (bind_Return _ _ _ _ _ (add_tag_pure h g "cluster" (CLUSTER g) w0 eq_refl)).
  unfold environ_get. rewrite bind_gets.
  rewrite (bind_Return _ _ _ _ _ (add_tag_pure h g "node" _ w0 eq_refl)).
  rewrite (bind_Return _ _ _ _ _ (add_tag_pure h g "storage" (STORAGE g) w0 eq_refl)).
  split.
  - intros Hf. exists lines. fold w0.
    assert (Hf0 : files w0 !! "/etc/machine-id" = None) by exact Hf.
    unfold add_tag_from_file. rewrite bind_assoc.
    rewrite (bind_Return _ _ _ _ _ (path_exists_none _ _ Hf0)).
    cbn [negb]. rewrite bind_assoc. apply when_true_error_fatal.
  - intros writable data text arch kernel Hf Hdec Hwhich Harch Hkernel Hname Hkey.
    cbv zeta. intros Hacc.
    assert (Hf0 : files w0 !! "/etc/machine-id" = Some (Regular true writable data))
      by exact Hf.
    assert (Hm : add_tag_from_file h g "/etc/machine-id" "" w0
                 = (w0, Return (tag_of "machine-id" (Py.strip text)))).
    { rewrite (add_tag_from_file_readable h g _ _ _ _ _ _ Hf0 Hdec).
      apply (add_tag_pure h g "machine-id"). reflexivity. }
    rewrite (bind_Return _ _ _ _ _ Hm).
    rewrite (bind_Return _ _ _ _ _
               (add_tag_from_cmd_pure h g "arch" "uname" ["--machine"] arch w0
                  eq_refl Hwhich Harch)).
    rewrite (bind_Return _ _ _ _ _
               (add_tag_from_cmd_pure h g "kernel" "uname" ["--kernel-release"]
                  kernel w0 eq_refl Hwhich Hkernel)).
    rewrite (bind_Return _ _ _ _ _ (read_description_run h _ _ w0)).
    rewrite bind_gets, bind_info.
    change (environ w0) with (environ w).
    change (Py.replace " " "_" "arch") with "arch".
    change (Py.replace " " "_" "kernel") with "kernel".
    set (w1 := add_stdout _ w0).
    rewrite (hc_create_sends h g (HC_SLUG_SUFFIX g) HC_HOST_SLUG_PREFIX 7200 _ _
               "*" 86400 (HC_RW_API_KEY g) (HC_BASE_DOMAIN g) w1
               Hname eq_refl Hkey Hacc).
    eexists. split; [reflexivity|]. by split.
Qed.

Lemma job_init_creates_host_check_witness :
  (exists w',
      main Sample.host0 (Sample.globals_for "job-init") Sample.world_machine_id
      = (w', Return tt)
      /\ sent w'
         = [HttpPostJson "https://hc.example.org/api/v3/checks/" "rw-key-0123456789"
              {| p_name := "pve1.prod.example.org";
                 p_slug := "job__pve1-prod-example-org";
                 p_channels := "*";
                 p_timeout := 86400;
                 p_tz := "example.org";
                 p_grace := 7200;
                 p_desc := "example.org";
                 p_tags := "cluster=prod storage=backups machine-id=4f2a9c arch=x86_64 kernel=x86_64";
                 p_unique := ["name"] |}])
  /\ sent (fst (main Sample.host0 (Sample.globals_for "job-init") Sample.world0)) = [].
Proof.
  split.
  - destruct (job_init_creates_host_check Sample.host0 (Sample.globals_for "job-init")
                Sample.world_machine_id eq_refl eq_refl) as [_ Hok].
    destruct (Hok true ("4f2a9c" ++ Py.newline)%string ("4f2a9c" ++ Py.newline)%string
                "x86_64" "x86_64" (lookup_singleton_eq _ _)
                eq_refl eq_refl eq_refl eq_refl eq_refl eq_refl eq_refl)
      as (w' & Hmain & Hsent & _).
    exists w'. split; [exact Hmain|]. rewrite Hsent. reflexivity.
  - destruct (job_init_creates_host_check Sample.host0 (Sample.globals_for "job-init")
                Sample.world0 eq_refl eq_refl) as [Hmissing _].
    destruct (Hmissing (lookup_empty _)) as (lines & _ & _ & _ & Hsent & _).
    exact Hsent.
Defined.

(** ** The pending error log, from a fatal error to [job-end] *)

(** A fatal error of one run is reported by the [job-end] run of the same
    task: when the error log did not exist and can be created, [error]
    leaves a file that holds its message, and [main] in phase [job-end] on
    the world it leaves sends that message as the body of a ["fail"] ping
    to the host check and removes the file again. *)
Theorem fatal_error_is_reported_at_job_end (h : host) (g : globals)
    (task msg : string) (w : world) :
  PHASE g = "job-end" ->
  jq_available h = true ->
  Py.nonempty (HC_PING_KEY g) = true ->
  files w !! ERRLOG g = None ->
  creatable h (ERRLOG g) = true ->
  forall job_log,
    text_decode h
      (text_encode h (error_message task msg DEFAULT_ERROR_CODE ++ Py.newline))
    = Some job_log ->
    accepts h (host_ping g "fail" job_log) = true ->
    exists w2,
      main h g (fst (error (A:=unit) h (ERRLOG g) task msg w)) = (w2, Return tt)
      /\ sent w2 = (sent w ++ [host_ping g "fail" job_log])%list
      /\ files w2 = files w.
Proof.
  intros Hphase Hjq Hpk Hnone Hcreate job_log Hdec Hacc.
  assert (Happ : appendable h w (ERRLOG g) = true)
    by (unfold appendable; by rewrite Hnone).
  destruct (error_fatal (A:=unit) h (ERRLOG g) task msg w)
    as (_ & _ & _ & Hsent1 & _ & Hlog).
  destruct (Hlog Happ) as [_ Hfiles1].
  set (w1 := fst (error h (ERRLOG g) task msg w)) in *.
  unfold appended in Hfiles1. rewrite Hnone in Hfiles1.
  destruct (main_dispatches h g w1 Hjq) as [lines ->].
  assert (Hd : dispatch h g = phase_job_end h g)
    by (unfold dispatch; rewrite Hphase; reflexivity).
  rewrite Hd. clear Hd. unfold phase_job_end.
  set (w0 := emit lines w1).
  assert (Hf0 : files w0 !! ERRLOG g
                = Some (Regular true true
                          (text_encode h
                             (error_message task msg DEFAULT_ERROR_CODE ++ Py.newline)))).
  { change (files w0) with (files w1). rewrite Hfiles1. apply lookup_insert_eq. }
  rewrite (bind_Return _ _ _ _ _ (path_exists_some _ _ _ Hf0)).
  rewrite (bind_Return _ _ _ _ _ (read_text_decoded _ _ _ _ _ _ Hf0 Hdec)).
  rewrite bind_info.
  set (w3 := add_stdout _ w0).
  destruct (hc_ping_data_accepted h g HC_HOST_SLUG_PREFIX "fail" job_log w3)
    as [final Hping].
  { apply main_ping_args_valid; auto. }
  { exact Hacc. }
  rewrite (bind_Return _ _ _ _ _ Hping).
  erewrite unlink_regular by exact Hf0.
  eexists. split; [reflexivity|]. split.
  - cbn [sent set_files add_sent add_stdout emit w3 w0]. by rewrite Hsent1.
  - cbn [files set_files add_sent add_stdout emit w3 w0]. rewrite Hfiles1.
    by apply delete_insert_id.
Qed.

Lemma fatal_error_is_reported_at_job_end_witness :
  exists w2,
    main Sample.host0 (Sample.globals_for "job-end")
         (fst (error (A:=unit) Sample.host0 Sample.errlog0 "HC Ping"
                     "Ping key is required" Sample.world0))
    = (w2, Return tt)
    /\ sent w2
       = [HttpPostData
            "https://hc.example.org/ping/ping-key-0123/job__pve1-prod-example-org/fail"
            ("FATAL: 'HC Ping' failed with exit code 666." ++ Py.newline
             ++ "CONTEXT: Ping key is required" ++ Py.newline)]
    /\ files w2 = ∅.
Proof.
  destruct (fatal_error_is_reported_at_job_end Sample.host0
              (Sample.globals_for "job-end") "HC Ping" "Ping key is required"
              Sample.world0 eq_refl eq_refl eq_refl (lookup_empty _) eq_refl
              _ eq_refl eq_refl) as (w2 & Hmain & Hsent & Hfiles).
  exists w2. split; [exact Hmain|]. split.
  - rewrite Hsent. reflexivity.
  - exact Hfiles.
Defined.

(** ** Phase [log-end] *)

(** In phase [log-end], an exception of the shell that filters the log
    file is the fatal error ["Read Log File"], with nothing sent.  A ping
    that the service refuses is the fatal error of [hc_ping] when the
    pending error log can be written; when it cannot, the exception of
    writing it is caught by the phase, so that a second message,
    ["Read Log File"], follows the first on standard error. *)
Theorem log_end_failures (h : host) (g : globals) (w : world) :
  PHASE g = "log-end" ->
  jq_available h = true ->
  Py.nonempty (HC_PING_KEY g) = true ->
  let cmd := "grep -v 'MESG' " ++ LOGFILE g ++ " | grep -v 'OKhttp'" in
  let r := main h g w in
  (forall e,
      shell h cmd = inl e ->
      exists lines,
        fatal_error h (ERRLOG g) "Read Log File" (exn_msg e) (emit lines w) r)
  /\ (forall c msg,
         shell h cmd = inr c ->
         request_failure h (guest_ping g "log" (proc_stdout c)) = Some msg ->
         sent (fst r) = (sent w ++ [guest_ping g "log" (proc_stdout c)])%list
         /\ (appendable h w (ERRLOG g) = true ->
             snd r = Exit DEFAULT_ERROR_CODE
             /\ stderr (fst r)
                = (stderr w
                   ++ [error_message "Healthcheck Ping w/Data (log)" msg
                         DEFAULT_ERROR_CODE])%list)
         /\ (appendable h w (ERRLOG g) = false ->
             exists context,
               stderr (fst r)
               = (stderr w
                  ++ [error_message "Healthcheck Ping w/Data (log)" msg
                        DEFAULT_ERROR_CODE;
                      error_message "Read Log File" context DEFAULT_ERROR_CODE])%list)).
Proof.
  intros Hphase Hjq Hpk. cbv zeta.
  destruct (main_dispatches h g w Hjq) as [lines ->].
  assert (Hd : dispatch h g = phase_log_end h g)
    by (unfold dispatch; rewrite Hphase; reflexivity).
  rewrite Hd. clear Hd. unfold phase_log_end.
  rewrite !bind_info.
  rewrite !add_stdout_emit, !emit_emit.
  set (w0 := emit _ w).
  unfold try_except.
  split.
  - intros e He. unfold bind at 1, run_shell. rewrite He.
    cbn [raise any_exception exn_kind].
    eexists. apply error_fatal.
  - intros c msg Hc Hmsg.
    assert (Hr : run_shell h ("grep -v 'MESG' " ++ LOGFILE g ++ " | grep -v 'OKhttp'") w0
                 = (w0, Return c))
      by (unfold run_shell; by rewrite Hc).
    rewrite (bind_Return _ _ _ _ _ Hr). cbv beta.
    assert (Hval : invalid_ping_args (HC_VM_SLUG_PREFIX g) "log" ""
                     (proc_stdout c) (HC_PING_KEY g) = false).
    { apply main_ping_args_valid; auto using guest_slug_prefix_nonempty. }
    unfold hc_ping_data.
    rewrite (bind_eq_error _ _ _ _ _ _ _ _
               (hc_ping_refused_error h g (HC_VM_SLUG_PREFIX g) "log" (proc_stdout c)
                  (HC_PING_KEY g) (HC_PING_DOMAIN g) msg w0 Hval Hmsg)).
    set (w1 := add_sent _ _).
    destruct (appendable h w (ERRLOG g)) eqn:Happ.
    + assert (Happ1 : appendable h w1 (ERRLOG g) = true) by exact Happ.
      rewrite (error_appendable (A:=unit) h _ _ _ _ Happ1).
      split; [reflexivity|]. split; [by intros _|]. intros H. discriminate H.
    + assert (Happ1 : appendable h w1 (ERRLOG g) = false) by exact Happ.
      destruct (error_not_appendable (A:=unit) h (ERRLOG g)
                  ("Healthcheck Ping w/Data ("
                   ++ (if Py.nonempty "log" then "log" else "success") ++ ")")
                  msg w1 Happ1) as [e1 ->].
      cbn [any_exception].
      set (w2 := add_stderr _ w1).
      assert (Happ2 : appendable h w2 (ERRLOG g) = false) by exact Happ.
      destruct (error_not_appendable (A:=unit) h (ERRLOG g) "Read Log File"
                  (exn_msg e1) w2 Happ2) as [e2 ->].
      split; [reflexivity|]. split; [intros H; discriminate H|].
      intros _. exists (exn_msg e1).
      cbn [fst stderr add_stderr w2]. by rewrite <- app_assoc.
Qed.

Lemma log_end_failures_witness :
  stopped (snd (main Sample.host_no_shell (Sample.globals_for "log-end")
                     Sample.world0)) = true
  /\ sent (fst (main Sample.host_no_shell (Sample.globals_for "log-end")
                     Sample.world0)) = []
  /\ sent (fst (main Sample.host_down (Sample.globals_for "log-end")
                     Sample.world0))
     = [HttpPostData
          "https://hc.example.org/ping/ping-key-0123/101-qemu__pve1-prod-example-org/log"
          "example.org"]
  /\ snd (main Sample.host_down (Sample.globals_for "log-end") Sample.world0)
     = Exit 666.
Proof.
  destruct (log_end_failures Sample.host_no_shell (Sample.globals_for "log-end")
              Sample.world0 eq_refl eq_refl eq_refl) as [Hshell _].
  destruct (Hshell (Exn OtherException "OSError") eq_refl)
    as (lines & Hstop & _ & _ & Hsent & _).
  destruct (log_end_failures Sample.host_down (Sample.globals_for "log-end")
              Sample.world0 eq_refl eq_refl eq_refl) as [_ Hdown].
  destruct (Hdown (Completed 0 "example.org" "") "Connection refused" eq_refl eq_refl)
    as (Hsent2 & Happ & _).
  destruct (Happ eq_refl) as [Hexit _].
  split; [exact Hstop|]. split; [exact Hsent|]. split; [|exact Hexit].
  rewrite Hsent2. reflexivity.
Defined.
(** ** Cluster lookup *)

Lemma bind_Return_inv {A B} (c : M A) (k : A -> M B) w w2 b :
  bind c k w = (w2, Return b) ->
  exists a w1, c w = (w1, Return a) /\ k a w1 = (w2, Return b).
Proof.
  unfold bind. destruct (c w) as [w1 [a|code|e]]; intros H.
  - eauto.
  - discriminate H.
  - discriminate H.
Qed.

Lemma lift_exn_Return_inv {A} (r : exn + A) w w' a :
  lift_exn r w = (w', Return a) -> r = inr a /\ w' = w.
Proof.
  destruct r as [e|a0]; cbn [lift_exn raise ret]; intros H.
  - discriminate H.
  - by injection H as <- <-.
Qed.

(** A handler that ends in [error] never gives a result: the call returns
    only when its body does. *)
Lemma try_except_error_returns {A} (body : M A) h errlog task (fallback : A)
      w w' a :
  try_except body any_exception
    (fun e => error (A:=unit) h errlog task (exn_msg e) ;; ret fallback) w
  = (w', Return a) ->
  body w = (w', Return a).
Proof.
  unfold try_except. destruct (body w) as [w1 [x|code|e]]; try done.
  cbn [any_exception]. rewrite bind_error. intros H.
  destruct (error_fatal (A:=unit) h errlog task (exn_msg e) w1) as [Hstop _].
  assert (Hret : snd (error (A:=A) h errlog task (exn_msg e) w1) = Return a)
    by (by rewrite H).
  unfold error in *. unfold bind in *.
  destruct (print_err _ w1) as [w2 [[]|code|e2]]; cbn [snd stopped] in *; try done.
  destruct (append_text h errlog _ w2) as [w3 [[]|code|e3]];
    cbn [snd stopped sys_exit] in *; done.
Qed.

Lemma cluster_loop_find items :
  forallb is_object items = true ->
  cluster_loop items = inr (first_cluster items).
Proof.
  unfold first_cluster. induction items as [|item items IH]; [done|].
  destruct item as [| | | | |members]; try done.
  cbn [forallb is_object andb cluster_loop List.find].
  change (is_cluster_item (JObj members))
    with (is_str (json_member "type" members) "cluster").
  intros Hall. destruct (is_str (json_member "type" members) "cluster"); [done|].
  by apply IH.
Qed.

Lemma node_loop_find items :
  forallb is_object items = true ->
  node_loop items = inr (first_local_node items).
Proof.
  unfold first_local_node. induction items as [|item items IH]; [done|].
  destruct item as [| | | | |members]; try done.
  cbn [forallb is_object andb node_loop List.find].
  change (is_local_node (JObj members))
    with (is_str (json_member "type" members) "node"
          && is_one (json_member "local" members)).
  intros Hall.
  destruct (is_str (json_member "type" members) "node"
            && is_one (json_member "local" members)); [done|].
  by apply IH.
Qed.

Lemma get_cluster_info_body h loads errlog w result items :
  shell h "pvesh get /cluster/status --output-format json" = inr result ->
  returncode result = 0 ->
  loads (proc_stdout result) = inr (JArr items) ->
  forallb is_object items = true ->
  get_cluster_info h loads errlog w
  = try_except
      (let* node :=
         if negb (py_truthy (first_local_node items))
         then
           let* result := run_shell h "hostname" in
           ret (JStr (Py.strip (proc_stdout result)))
         else ret (first_local_node items) in
       ret (first_cluster items, node))
      any_exception
      (fun e =>
         error (A:=unit) h errlog "Get Cluster Info" (exn_msg e) ;;
         ret (JStr "unknown-cluster", JStr "unknown-node")) w.
Proof.
  intros Hshell Hcode Hloads Hall.
  assert (Hrun : run_shell h "pvesh get /cluster/status --output-format json" w
                 = (w, Return result))
    by (unfold run_shell; by rewrite Hshell).
  unfold get_cluster_info, try_except.
  rewrite (bind_Return _ _ _ _ _ Hrun). rewrite Hcode.
  change (negb (0 =? 0)) with false. rewrite bind_when_false.
  rewrite Hloads. cbn [lift_exn]. rewrite bind_ret.
  cbn [lift_exn py_iter]. rewrite bind_ret.
  rewrite (cluster_loop_find items Hall). cbn [lift_exn]. rewrite bind_ret.
  cbn [lift_exn py_iter]. rewrite bind_ret.
  rewrite (node_loop_find items Hall). cbn [lift_exn]. by rewrite bind_ret.
Qed.

(** When [pvesh] succeeds and prints a list of objects, the cluster is the
    name of the first item of type [cluster], ["unknown-cluster"] when that
    item has no name and ["standalone"] when there is no such item; the
    node is the name of the first item of type [node] that is local, and
    the output of [hostname], stripped, when there is none or its name is
    empty.  Nothing is printed, written or sent. *)
Theorem get_cluster_info_selects_first (h : host) (loads : string -> exn + json)
    (errlog : string) (w : world) (result : completed) (items : list json) :
  shell h "pvesh get /cluster/status --output-format json" = inr result ->
  returncode result = 0 ->
  loads (proc_stdout result) = inr (JArr items) ->
  forallb is_object items = true ->
  (py_truthy (first_local_node items) = true ->
   get_cluster_info h loads errlog w
   = (w, Return (first_cluster items, first_local_node items)))
  /\ (py_truthy (first_local_node items) = false ->
      forall named,
        shell h "hostname" = inr named ->
        get_cluster_info h loads errlog w
        = (w, Return (first_cluster items, JStr (Py.strip (proc_stdout named))))).
Proof.
  intros Hshell Hcode Hloads Hall.
  rewrite (get_cluster_info_body h loads errlog w result items Hshell Hcode Hloads Hall).
  unfold try_except. split.
  - intros ->. cbn [negb]. by rewrite bind_ret.
  - intros -> named Hnamed. cbn [negb]. unfold run_shell. rewrite Hnamed.
    by rewrite bind_assoc, !bind_ret.
Qed.

Lemma get_cluster_info_selects_first_witness :
  get_cluster_info Sample.host_pve Sample.loads0 Sample.errlog0 Sample.world0
  = (Sample.world0, Return (JStr "prod", JStr "pve1")).
Proof.
  destruct (get_cluster_info_selects_first Sample.host_pve Sample.loads0
              Sample.errlog0 Sample.world0 (Completed 0 "<cluster status>" "")
              [JObj [("type", JStr "cluster"); ("name", JStr "prod"); ("nodes", JNum 2)];
               JObj [("type", JStr "node"); ("name", JStr "pve2"); ("local", JNum 0)];
               JObj [("type", JStr "node"); ("name", JStr "pve1"); ("local", JNum 1)]]
              eq_refl eq_refl eq_refl eq_refl) as [Hnamed _].
  exact (Hnamed eq_refl).
Defined.

(** [get_cluster_info] returns only when [pvesh] ran with status 0 and its
    output was decoded and walked through: the pair of its last line,
    ["unknown-cluster"] and ["unknown-node"], is never returned in place
    of a failure, which stops the script instead. *)
Theorem get_cluster_info_returns_only_from_status (h : host)
    (loads : string -> exn + json) (errlog : string) (w w' : world)
    (cluster node : json) :
  get_cluster_info h loads errlog w = (w', Return (cluster, node)) ->
  exists result data items,
    shell h "pvesh get /cluster/status --output-format json" = inr result
    /\ returncode result = 0
    /\ loads (proc_stdout result) = inr data
    /\ py_iter data = inr items
    /\ cluster_loop items = inr cluster
    /\ w' = w.
Proof.
  intros Hrun. unfold get_cluster_info in Hrun.
  apply try_except_error_returns in Hrun.
  apply bind_Return_inv in Hrun as (result & w1 & Hshell & Hrun).
  unfold run_shell in Hshell.
  destruct (shell h "pvesh get /cluster/status --output-format json")
    as [e|result0] eqn:Hsh; [discriminate Hshell|].
  cbn [ret] in Hshell. injection Hshell as <- <-.
  apply bind_Return_inv in Hrun as ([] & w2 & Hwhen & Hrun).
  destruct (returncode result0 =? 0) eqn:Hcode; cbn [negb when] in Hwhen.
  2:{ destruct (error_fatal (A:=unit) h errlog "Get Cluster Info"
                  ("Failed to execute pvesh: " ++ proc_stderr result0) w)
        as [Hstop _].
      rewrite Hwhen in Hstop. discriminate Hstop. }
  cbn [ret] in Hwhen. injection Hwhen as <-.
  apply bind_Return_inv in Hrun as (data & w3 & Hdata & Hrun).
  apply lift_exn_Return_inv in Hdata as [Hdata ->].
  apply bind_Return_inv in Hrun as (items & w4 & Hitems & Hrun).
  apply lift_exn_Return_inv in Hitems as [Hitems ->].
  apply bind_Return_inv in Hrun as (c & w5 & Hc & Hrun).
  apply lift_exn_Return_inv in Hc as [Hc ->].
  apply bind_Return_inv in Hrun as (items' & w6 & Hitems' & Hrun).
  apply lift_exn_Return_inv in Hitems' as [Hitems' ->].
  apply bind_Return_inv in Hrun as (n0 & w7 & Hn0 & Hrun).
  apply lift_exn_Return_inv in Hn0 as [Hn0 ->].
  apply bind_Return_inv in Hrun as (n1 & w8 & Hn1 & Hrun).
  cbn [ret] in Hrun. injection Hrun as <- <- <-.
  exists result0, data, items.
  split; [done|]. split; [by apply Z.eqb_eq|]. split; [done|]. split; [done|].
  split; [done|].
  destruct (negb (py_truthy n0)).
  - apply bind_Return_inv in Hn1 as (named & w9 & Hnamed & Hret).
    unfold run_shell in Hnamed. destruct (shell h "hostname") as [e|named0].
    + discriminate Hnamed.
    + cbn [ret] in *. injection Hnamed as <- <-. by injection Hret as <-.
  - cbn [ret] in Hn1. by injection Hn1 as <-.
Qed.

Lemma get_cluster_info_returns_only_from_status_witness :
  exists result,
    shell Sample.host_pve "pvesh get /cluster/status --output-format json"
    = inr result
    /\ returncode result = 0.
Proof.
  destruct (get_cluster_info_returns_only_from_status Sample.host_pve Sample.loads0
              Sample.errlog0 Sample.world0 Sample.world0 (JStr "prod") (JStr "pve1")
              eq_refl)
    as (result & data & items & Hshell & Hcode & _).
  exists result. by split.
Defined.

(** When [pvesh] exits with another status, the lookup is the fatal error
    ["Get Cluster Info"] with the error output of the command as context;
    an exception of running it or of decoding its output is the same fatal
    error with the text of the exception. *)
Theorem get_cluster_info_failures (h : host) (loads : string -> exn + json)
    (errlog : string) (w : world) :
  let r := get_cluster_info h loads errlog w in
  (forall e,
      shell h "pvesh get /cluster/status --output-format json" = inl e ->
      fatal_error h errlog "Get Cluster Info" (exn_msg e) w r)
  /\ (forall result,
         shell h "pvesh get /cluster/status --output-format json" = inr result ->
         returncode result <> 0 ->
         appendable h w errlog = true ->
         fatal_error h errlog "Get Cluster Info"
           ("Failed to execute pvesh: " ++ proc_stderr result) w r)
  /\ (forall result e,
         shell h "pvesh get /cluster/status --output-format json" = inr result ->
         returncode result = 0 ->
         loads (proc_stdout result) = inl e ->
         fatal_error h errlog "Get Cluster Info" (exn_msg e) w r).
Proof.
  cbv zeta. unfold get_cluster_info, try_except. split; [|split].
  - intros e He. unfold bind at 1, run_shell. rewrite He.
    cbn [raise any_exception]. apply fatal_error_bind. apply error_fatal.
  - intros result Hshell Hcode Happ.
    assert (Hrun : run_shell h "pvesh get /cluster/status --output-format json" w
                   = (w, Return result))
      by (unfold run_shell; by rewrite Hshell).
    rewrite (bind_Return _ _ _ _ _ Hrun).
    apply Z.eqb_neq in Hcode. rewrite Hcode. cbn [negb when].
    rewrite bind_error.
    rewrite (error_appendable (A:=json * json) h _ _ _ _ Happ).
    rewrite <- (error_appendable (A:=json * json) h _ _ _ _ Happ).
    apply error_fatal.
  - intros result e Hshell Hcode Hloads.
    assert (Hrun : run_shell h "pvesh get /cluster/status --output-format json" w
                   = (w, Return result))
      by (unfold run_shell; by rewrite Hshell).
    rewrite (bind_Return _ _ _ _ _ Hrun). rewrite Hcode.
    change (negb (0 =? 0)) with false. rewrite bind_when_false.
    rewrite Hloads. cbn [lift_exn]. unfold bind at 1. cbn [raise any_exception].
    apply fatal_error_bind. apply error_fatal.
Qed.

Lemma get_cluster_info_failures_witness :
  snd (get_cluster_info Sample.host_no_pvesh Sample.loads0 Sample.errlog0
                        Sample.world0) = Exit 666
  /\ stderr (fst (get_cluster_info Sample.host_no_pvesh Sample.loads0
                                   Sample.errlog0 Sample.world0))
     = ["FATAL: 'Get Cluster Info' failed with exit code 666." ++ Py.newline
        ++ "CONTEXT: Failed to execute pvesh: sh: 1: pvesh: not found"].
Proof.
  destruct (get_cluster_info_failures Sample.host_no_pvesh Sample.loads0
              Sample.errlog0 Sample.world0) as (_ & Hstatus & _).
  assert (Hcode : returncode (Completed 127 "" "sh: 1: pvesh: not found") <> 0)
    by discriminate.
  destruct (Hstatus _ eq_refl Hcode eq_refl) as (_ & Herr & _ & _ & _ & Hlog).
  destruct (Hlog eq_refl) as [Hexit _].
  split; [exact Hexit | exact Herr].
Defined.
(** ** The tail of a log file is read in text mode *)

Lemma hc_ping_tail_undecodable h g w slug_prefix report file pingkey url
      writable bytes :
  invalid_ping_args slug_prefix report file "" pingkey = false ->
  Py.nonempty file = true ->
  files w !! file = Some (Regular true writable bytes) ->
  text_decode h (Py.last tail_limit bytes) = None ->
  hc_ping h g slug_prefix report file "" pingkey url w
  = error h (ERRLOG g) "Read Log File" "UnicodeDecodeError"
      (add_stdout ("MESG: 'hc_ping:420' PING ENDPOINT: "
                   ++ ping_endpoint g slug_prefix report pingkey url) w).
Proof.
  intros Hval Hfile Hf Hdec. rewrite (hc_ping_valid _ _ _ _ _ _ _ _ _ Hval).
  set (w1 := add_stdout _ w).
  assert (Hf1 : files w1 !! file = Some (Regular true writable bytes)) by exact Hf.
  apply bind_eq_error.
  unfold hc_ping_body. rewrite Hfile.
  rewrite (bind_Return _ _ _ _ _ (path_exists_some _ _ _ Hf1)).
  cbn [negb]. rewrite bind_when_false. unfold path_is_file, access_read.
  rewrite bind_gets, Hf1. cbn [negb]. rewrite bind_when_false.
  rewrite bind_gets, Hf1. cbn [negb]. rewrite bind_when_false.
  unfold try_except.
  by rewrite (read_tail_last _ _ _ _ _ Hf1), Hdec.
Qed.

Lemma utf8_decode_chars_a n :
  Sample.utf8_decode (Sample.chars n "a") = Some (Sample.chars n "a").
Proof.
  induction n as [|n IH]; [done|].
  change (Sample.utf8_decode (Sample.chars (S n) "a"))
    with (String "a" <$> Sample.utf8_decode (Sample.chars n "a")).
  by rewrite IH.
Qed.

Lemma universal_newlines_chars_a n :
  Sample.universal_newlines (Sample.chars n "a") = Sample.chars n "a".
Proof.
  induction n as [|n IH]; [done|].
  change (Sample.universal_newlines (Sample.chars (S n) "a"))
    with (String "a" (Sample.universal_newlines (Sample.chars n "a"))).
  by rewrite IH.
Qed.

(** A log that starts with the two bytes of a character and goes on with
    99999 bytes of text: what the host reads from the whole file and from
    its last 100000 bytes, and what [hc_ping] does with it. *)
Lemma split_character_is_fatal (rest : string) :
  String.length rest = Nat.pred tail_limit ->
  Sample.utf8_decode rest = Some rest ->
  Sample.universal_newlines rest = rest ->
  let bytes := String "195" (String "169" rest) in
  let r :=
    hc_ping Sample.host_utf8 (Sample.globals_for "log-end") "101-qemu" "log"
            "/var/log/vzdump/qemu-101.log" "" "ping-key-0123"
            "https://hc.example.org/ping" (Sample.world_log bytes) in
  Z.of_nat (String.length bytes) = 100001
  /\ text_decode Sample.host_utf8 bytes = Some (String "233" rest)
  /\ Py.last tail_limit bytes = String "169" rest
  /\ Z.of_nat (String.length (Py.last tail_limit bytes)) = 100000
  /\ snd r = Exit DEFAULT_ERROR_CODE
  /\ sent (fst r) = []
  /\ stderr (fst r)
     = [error_message "Read Log File" "UnicodeDecodeError" DEFAULT_ERROR_CODE].
Proof.
  intros Hlen Hdecode Hlines. cbv zeta.
  assert (Hlast : Py.last tail_limit (String "195" (String "169" rest))
                  = String "169" rest).
  { unfold Py.last. cbn [String.length]. rewrite Hlen.
    by replace (S (S (Nat.pred tail_limit)) - tail_limit)%nat with 1%nat
      by (unfold tail_limit; lia). }
  split; [cbn [String.length]; rewrite Hlen; unfold tail_limit; lia|].
  split.
  { cbn [text_decode Sample.host_utf8].
    change (Sample.utf8_decode (String "195" (String "169" rest)))
      with (String "233" <$> Sample.utf8_decode rest).
    rewrite Hdecode.
    change (Some (String "233" (Sample.universal_newlines rest))
            = Some (String "233" rest)).
    by rewrite Hlines. }
  split; [exact Hlast|].
  split; [rewrite Hlast; cbn [String.length]; rewrite Hlen; unfold tail_limit; lia|].
  assert (Hdec : text_decode Sample.host_utf8
                   (Py.last tail_limit (String "195" (String "169" rest))) = None)
    by (by rewrite Hlast).
  rewrite (hc_ping_tail_undecodable Sample.host_utf8 (Sample.globals_for "log-end")
             (Sample.world_log (String "195" (String "169" rest)))
             "101-qemu" "log" "/var/log/vzdump/qemu-101.log"
             "ping-key-0123" "https://hc.example.org/ping" true
             (String "195" (String "169" rest))
             eq_refl eq_refl (lookup_singleton_eq _ _) Hdec).
  rewrite (error_appendable (A:=string)).
  2:{ unfold appendable.
      change (files (add_stdout _ (Sample.world_log (String "195" (String "169" rest)))))
        with ({[ "/var/log/vzdump/qemu-101.log"
                 := Regular true true (String "195" (String "169" rest)) ]}
              : gmap string node).
      by rewrite lookup_singleton_ne. }
  by repeat split.
Qed.

(** A log of four bytes with a line end of two bytes is sent as three
    characters. *)
Lemma crlf_log_sent :
  sent (fst (hc_ping Sample.host_utf8 (Sample.globals_for "log-end") "101-qemu" "log"
                     "/var/log/vzdump/qemu-101.log" "" "ping-key-0123"
                     "https://hc.example.org/ping" (Sample.world_log Sample.crlf_log)))
  = [HttpPostData
       "https://hc.example.org/ping/ping-key-0123/101-qemu__pve1-prod-example-org/log"
       ("a" ++ Py.newline ++ "b")].
Proof.
  assert (Hcrlf : text_decode Sample.host_utf8 (Py.last tail_limit Sample.crlf_log)
                  = Some ("a" ++ Py.newline ++ "b")).
  { rewrite last_short; [reflexivity|].
    change (String.length Sample.crlf_log) with 4%nat. unfold tail_limit. lia. }
  rewrite (hc_ping_valid Sample.host_utf8 (Sample.globals_for "log-end")
             "101-qemu" "log" "/var/log/vzdump/qemu-101.log" ""
             "ping-key-0123" "https://hc.example.org/ping"
             (Sample.world_log Sample.crlf_log) eq_refl).
  set (w1 := add_stdout _ (Sample.world_log Sample.crlf_log)).
  rewrite (bind_Return _ _ _ _ _
             (hc_ping_body_file Sample.host_utf8 (Sample.globals_for "log-end")
                "/var/log/vzdump/qemu-101.log" "" true Sample.crlf_log
                ("a" ++ Py.newline ++ "b") w1 eq_refl (lookup_singleton_eq _ _) Hcrlf)).
  by rewrite hc_ping_post_sent.
Qed.

(** C4: the body is not always the trailing bytes of the file, because
    the file is opened in text mode.  On a host that reads text as UTF-8,
    take a log of 100001 bytes that starts with a character of two bytes.
    The file as a whole is text, and its last 100000 bytes start at the
    second byte of that character: [hc_ping] is the fatal error
    ["Read Log File"], and no ping is sent.  A log of four bytes with a
    line end of two bytes is sent as three characters, not as the whole
    file. *)
Theorem hc_ping_file_tail_splits_a_character :
  let g := Sample.globals_for "log-end" in
  let r :=
    hc_ping Sample.host_utf8 g "101-qemu" "log" "/var/log/vzdump/qemu-101.log" ""
            "ping-key-0123" "https://hc.example.org/ping" Sample.world_split_log in
  let r' :=
    hc_ping Sample.host_utf8 g "101-qemu" "log" "/var/log/vzdump/qemu-101.log" ""
            "ping-key-0123" "https://hc.example.org/ping" Sample.world_crlf_log in
  Z.of_nat (String.length Sample.split_log) = 100001
  /\ text_decode Sample.host_utf8 Sample.split_log
     = Some (String "233" (Sample.chars (Nat.pred tail_limit) "a"))
  /\ Py.last tail_limit Sample.split_log
     = String "169" (Sample.chars (Nat.pred tail_limit) "a")
  /\ Z.of_nat (String.length (Py.last tail_limit Sample.split_log)) = 100000
  /\ snd r = Exit DEFAULT_ERROR_CODE
  /\ sent (fst r) = []
  /\ stderr (fst r)
     = [error_message "Read Log File" "UnicodeDecodeError" DEFAULT_ERROR_CODE]
  /\ sent (fst r')
     = [HttpPostData
          "https://hc.example.org/ping/ping-key-0123/101-qemu__pve1-prod-example-org/log"
          ("a" ++ Py.newline ++ "b")].
Proof.
  cbv zeta. unfold Sample.world_split_log, Sample.world_crlf_log, Sample.split_log.
  destruct (split_character_is_fatal (Sample.chars (Nat.pred tail_limit) "a")
              (chars_length _ _) (utf8_decode_chars_a _)
              (universal_newlines_chars_a _))
    as (Hsize & Htext & Hlast & Htail & Hexit & Hsent & Herr).
  split; [exact Hsize|]. split; [exact Htext|]. split; [exact Hlast|].
  split; [exact Htail|]. split; [exact Hexit|]. split; [exact Hsent|].
  split; [exact Herr|]. exact crlf_log_sent.
Qed.
